(** * Trading signals server: a shallow embedding of [server.js]

    The server keeps four in-memory stores ([users], [signals], [positions],
    [activeConnections]), answers a handful of HTTP routes, admits WebSocket
    connections that present a valid token, and pushes signal and position
    events to the admitted connections.  Every handler of [server.js] is
    translated below as a function on an explicit server state; the event loop
    is a step function over that state. *)

From Stdlib Require Import ZArith List String Ascii Bool Lia DecimalString.
From Stdlib Require Import Floats.SpecFloat.
From Stdlib Require DecimalZ.
From stdpp Require Import base option list gmap.
Import ListNotations.

Local Open Scope Z_scope.

(** ** JavaScript numbers

    A JS number is an IEEE-754 binary64 value.  [spec_float] with precision 53
    and maximal exponent 1024 is that format, and [SFadd], [SFsub], [SFmul]
    are its correctly rounded (to nearest, ties to even) operations, i.e. the
    JS operators [+], [-] and [*] on numbers. *)

Definition float64 := spec_float.

Definition prec : Z := 53.
Definition emax : Z := 1024.

Definition fadd : float64 -> float64 -> float64 := SFadd prec emax.
Definition fsub : float64 -> float64 -> float64 := SFsub prec emax.
Definition fmul : float64 -> float64 -> float64 := SFmul prec emax.
Definition fdiv : float64 -> float64 -> float64 := SFdiv prec emax.

(** The double that an integer literal denotes. *)
Definition of_Z (z : Z) : float64 := binary_normalize prec emax z 0 false.

(** The double that the decimal literal [n / 10^k] denotes: the quotient of two
    exactly representable integers, rounded once to nearest-even. *)
Definition of_decimal (n : Z) (k : nat) : float64 :=
  fdiv (of_Z n) (of_Z (10 ^ Z.of_nat k)).

(** The literals of [server.js]. *)
Definition lit_0 : float64 := of_Z 0.
Definition lit_0_5 : float64 := of_decimal 5 1.
Definition lit_2 : float64 := of_Z 2.
Definition lit_100 : float64 := of_Z 100.
Definition lit_3893_45 : float64 := of_decimal 389345 2.
Definition lit_3893_20 : float64 := of_decimal 389320 2.

(** The exact rational value [m * 2^e] of a finite double, as a fraction
    [(numerator, denominator)] with a positive denominator. *)
Definition exact_value (x : float64) : option (Z * Z) :=
  match x with
  | S754_zero _ => Some (0, 1)
  | S754_finite s m e =>
      let v := if s then Z.neg m else Z.pos m in
      Some (if 0 <=? e then (v * 2 ^ e, 1) else (v, 2 ^ (- e)))
  | _ => None
  end.

(** ** JavaScript values carried by request bodies and token payloads

    What [JSON.parse] builds from primitives and objects, and [undefined] for
    what is absent; an object is kept as its members in source order.  JSON
    arrays are not represented. *)

#[warnings="-register-all"]
Inductive jsval :=
| VUndefined
| VNull
| VBool (b : bool)
| VNum (x : float64)
| VStr (s : string)
| VObj (fields : list (string * jsval)).

(** [a === b].  Two objects are equal only when they are the same reference;
    every object this server compares comes out of a separate [JSON.parse]
    (a request body, a decoded token), so two object operands are never the
    same reference. *)
Definition strict_eq (a b : jsval) : bool :=
  match a, b with
  | VUndefined, VUndefined => true
  | VNull, VNull => true
  | VBool x, VBool y => Bool.eqb x y
  | VNum x, VNum y => SFeqb x y
  | VStr x, VStr y => String.eqb x y
  | _, _ => false
  end.

Definition is_nan (x : float64) : bool :=
  match x with S754_nan => true | _ => false end.

(** SameValueZero, the key equality of a JS [Map]: like [===] but NaN equals
    NaN. *)
Definition same_value_zero (a b : jsval) : bool :=
  match a, b with
  | VNum x, VNum y => SFeqb x y || (is_nan x && is_nan y)
  | _, _ => strict_eq a b
  end.

Fixpoint assoc (k : string) (fields : list (string * jsval)) : option jsval :=
  match fields with
  | [] => None
  | (k', v) :: rest => if String.eqb k' k then Some v else assoc k rest
  end.

(** ** Exceptions

    [Throw] is a thrown JS exception; the handlers catch it in their
    [try ... catch] and answer 500. *)
Inductive Result (A : Type) :=
| Ok (a : A)
| Throw.
Arguments Ok {A} a.
Arguments Throw {A}.

Definition rbind {A B : Type} (r : Result A) (k : A -> Result B) : Result B :=
  match r with
  | Ok a => k a
  | Throw => Throw
  end.

Notation "'let*' x ':=' r 'in' k" := (rbind r (fun x => k))
  (at level 10, x name, r at level 100, k at level 200).

(** [v.k]: reading a property of [undefined] or [null] throws a TypeError; a
    missing property, or any of the property names read by this server on a
    boolean, number or string, is [undefined]. *)
Definition get_prop (v : jsval) (k : string) : Result jsval :=
  match v with
  | VUndefined | VNull => Throw
  | VObj fields => Ok (default VUndefined (assoc k fields))
  | _ => Ok VUndefined
  end.

(** ToString of a value substituted into a template literal.  A primitive
    always converts.  A parsed JSON object converts (to "[object Object]")
    through [Object.prototype.toString], unless it has an own member named
    [toString]: that member is not callable, [valueOf] gives back the object,
    and the conversion throws a TypeError.  The text itself only goes to the
    console, so only the outcome is kept. *)
Definition to_log_string (v : jsval) : Result unit :=
  match v with
  | VObj fields =>
      match assoc "toString" fields with
      | Some _ => Throw
      | None => Ok tt
      end
  | _ => Ok tt
  end.

(** A template literal [`... ${v1} ... ${vn} ...`] handed to [console.log]:
    the substitutions are converted left to right. *)
Fixpoint template_literal (substitutions : list jsval) : Result unit :=
  match substitutions with
  | [] => Ok tt
  | v :: rest => rbind (to_log_string v) (fun _ => template_literal rest)
  end.

Arguments template_literal : simpl never.

(** ** JS [Map]: insertion-ordered, one entry per key

    [users], [positions] and [activeConnections] are JS [Map]s.  Iteration
    ([forEach], [values]) follows insertion order, and [set] on a key that is
    present replaces the value in place, so the map is an association list
    kept in insertion order. *)
Module JSMap.
Definition t (K V : Type) : Type := list (K * V).

Section Ops.
Context {K V : Type} (eqb : K -> K -> bool).

Definition empty : t K V := [].

Fixpoint get (k : K) (m : t K V) : option V :=
  match m with
  | [] => None
  | (k', v) :: rest => if eqb k' k then Some v else get k rest
  end.

Fixpoint set (k : K) (v : V) (m : t K V) : t K V :=
  match m with
  | [] => [(k, v)]
  | (k', v') :: rest =>
      if eqb k' k then (k', v) :: rest else (k', v') :: set k v rest
  end.

Fixpoint delete (k : K) (m : t K V) : t K V :=
  match m with
  | [] => []
  | (k', v') :: rest =>
      if eqb k' k then rest else (k', v') :: delete k rest
  end.

Definition keys (m : t K V) : list K := fst <$> m.
Definition values (m : t K V) : list V := snd <$> m.
Definition size (m : t K V) : nat := length m.

End Ops.
End JSMap.

(** ** Records of the stores *)

(** The payload [jwt.verify] decodes: what [/api/auth/login] signed. *)
Module Identity.
Record t := mk { accountNumber : jsval; broker : jsval }.
End Identity.

Module User.
Record t := mk {
  accountNumber : jsval;
  password : string;          (* the bcrypt hash *)
  broker : jsval;
  isDemo : bool;
  createdAt : Z }.
End User.

Module Signal.
Record t := mk {
  id : string;
  pair : jsval;
  action : jsval;
  rsi : jsval;
  macd : jsval;
  strength : jsval;
  quality : jsval;
  timestamp : Z }.
End Signal.

Module Position.
Record t := mk {
  id : string;
  accountNumber : jsval;
  pair : jsval;
  type : jsval;
  lots : jsval;
  entryPrice : float64;
  currentPrice : float64;
  profit : float64;
  stopLoss : jsval;
  takeProfit : jsval;
  openTime : Z }.
End Position.

(** The envelopes sent over a WebSocket, before [JSON.stringify]. *)
Inductive Msg :=
| MsgInit (signals : list Signal.t)
| MsgSignal (data : Signal.t)
| MsgPosition (data : Position.t).

(** [ws.readyState]. *)
Inductive ReadyState := CONNECTING | OPEN | CLOSING | CLOSED.

Definition is_open (r : ReadyState) : bool :=
  match r with OPEN => true | _ => false end.

(** A WebSocket object of the [ws] library: its ready state, what has been
    sent on it so far (oldest first), and whether the server attached its
    ['close'] listener. *)
Module Socket.
Record t := mk {
  readyState : ReadyState;
  sent : list Msg;
  close_listener : bool }.
End Socket.

(** HTTP responses: the status and the JSON body handed to [res.json]. *)
Inductive ResBody :=
| JError (error : string)
| JLogin (token : string) (accountNumber broker : jsval)
| JSignals (recentSignals : list Signal.t)
| JSignalAck (signalId : string)
| JPositions (userPositions : list Position.t)
| JTradeAck (positionId : string)
| JSuccess
| DefaultErrorPage.   (* not JSON: the page of Express's default error handler *)

Record Response := mkResponse { status : Z; json : ResBody }.

(** ** The server state *)

(** A login request suspended at one of the two [await]s of its handler,
    with the local variables its continuation needs. *)
Inductive LoginTask :=
| AwaitHash (accountNumber password : jsval)
| AwaitCompare (accountNumber password : jsval) (user : User.t).

Record State := mkState {
  users : JSMap.t jsval User.t;
  signals : list Signal.t;
  positions : JSMap.t string Position.t;
  activeConnections : JSMap.t nat Identity.t;  (* keyed by WebSocket object *)
  sockets : gmap nat Socket.t;                 (* the WebSocket objects *)
  next_ws : nat;                               (* the next object to allocate *)
  pending : list LoginTask }.

Definition initial_state : State :=
  {| users := []; signals := []; positions := []; activeConnections := [];
     sockets := ∅; next_ws := 0%nat; pending := [] |}.

(** ** External collaborators

    The libraries and the environment the server calls into.  [jwt_sign]
    throws ([None]) when it has no secret to sign with, that is when
    [JWT_SECRET] is not set; [jwt_verify] reads the clock (tokens expire);
    [bcrypt_hash] draws a salt. *)
Record Externals := mkExternals {
  MT4_API_KEY : jsval;                           (* process.env.MT4_API_KEY *)
  jwt_sign : Identity.t -> Z -> option string;   (* payload, clock *)
  jwt_verify : Z -> string -> option Identity.t; (* clock, token *)
  bcrypt_hash : string -> string -> string;      (* password, salt *)
  bcrypt_compare : string -> string -> bool;     (* password, hash *)
  string_to_number : string -> float64 }.        (* ToNumber on a string *)

Definition with_users (u : JSMap.t jsval User.t) (s : State) : State :=
  {| users := u; signals := signals s; positions := positions s;
     activeConnections := activeConnections s; sockets := sockets s;
     next_ws := next_ws s; pending := pending s |}.

Definition with_signals (l : list Signal.t) (s : State) : State :=
  {| users := users s; signals := l; positions := positions s;
     activeConnections := activeConnections s; sockets := sockets s;
     next_ws := next_ws s; pending := pending s |}.

Definition with_positions (m : JSMap.t string Position.t) (s : State) : State :=
  {| users := users s; signals := signals s; positions := m;
     activeConnections := activeConnections s; sockets := sockets s;
     next_ws := next_ws s; pending := pending s |}.

Definition with_activeConnections (m : JSMap.t nat Identity.t) (s : State) : State :=
  {| users := users s; signals := signals s; positions := positions s;
     activeConnections := m; sockets := sockets s;
     next_ws := next_ws s; pending := pending s |}.

Definition with_sockets (h : gmap nat Socket.t) (s : State) : State :=
  {| users := users s; signals := signals s; positions := positions s;
     activeConnections := activeConnections s; sockets := h;
     next_ws := next_ws s; pending := pending s |}.

Definition with_next_ws (n : nat) (s : State) : State :=
  {| users := users s; signals := signals s; positions := positions s;
     activeConnections := activeConnections s; sockets := sockets s;
     next_ws := n; pending := pending s |}.

Definition with_pending (l : list LoginTask) (s : State) : State :=
  {| users := users s; signals := signals s; positions := positions s;
     activeConnections := activeConnections s; sockets := sockets s;
     next_ws := next_ws s; pending := l |}.

(** ** Small pieces of the JS runtime *)

(** [Date.now().toString()]: the decimal digits of an integer. *)
Definition toString (z : Z) : string := NilZero.string_of_int (Z.to_int z).

Arguments toString : simpl never.

(** [s.split(sep)] for a one-character separator. *)
Fixpoint split (sep : ascii) (s : string) : list string :=
  match s with
  | EmptyString => [EmptyString]
  | String c rest =>
      if Ascii.eqb c sep then EmptyString :: split sep rest
      else match split sep rest with
           | h :: t => String c h :: t
           | [] => [String c EmptyString]
           end
  end.

(** Truthiness of a string: only the empty string is falsy. *)
Definition truthy_string (s : string) : bool :=
  match s with EmptyString => false | _ => true end.

(** [l.slice(-n)]: the last [n] elements, or all of [l] when it has fewer. *)
Definition slice_last {A : Type} (n : nat) (l : list A) : list A :=
  skipn (length l - n) l.

(** [ws.readyState === WebSocket.OPEN]. *)
Definition socket_open (h : gmap nat Socket.t) (ws : nat) : bool :=
  match h !! ws with
  | Some sk => is_open (Socket.readyState sk)
  | None => false
  end.

(** [ws.readyState], when the socket [ws] exists. *)
Definition ready_state (h : gmap nat Socket.t) (ws : nat) : option ReadyState :=
  Socket.readyState <$> h !! ws.

(** What has been sent on [ws] so far. *)
Definition outbox (h : gmap nat Socket.t) (ws : nat) : list Msg :=
  match h !! ws with
  | Some sk => Socket.sent sk
  | None => []
  end.

(** [ws.send(JSON.stringify(m))]: the frame is queued on an open socket; on a
    socket that is closing or closed the [ws] library drops it. *)
Definition ws_send (ws : nat) (m : Msg) (h : gmap nat Socket.t) : gmap nat Socket.t :=
  match h !! ws with
  | Some sk =>
      if is_open (Socket.readyState sk)
      then <[ws := Socket.mk (Socket.readyState sk) (Socket.sent sk ++ [m])
                             (Socket.close_listener sk)]> h
      else h
  | None => h
  end.

(** [ws.close()]: an open or connecting socket starts its closing handshake. *)
Definition ws_close (ws : nat) (h : gmap nat Socket.t) : gmap nat Socket.t :=
  match h !! ws with
  | Some sk =>
      match Socket.readyState sk with
      | CLOSED => h
      | _ => <[ws := Socket.mk CLOSING (Socket.sent sk) (Socket.close_listener sk)]> h
      end
  | None => h
  end.

(** [ws.on('close', ...)]. *)
Definition ws_on_close (ws : nat) (h : gmap nat Socket.t) : gmap nat Socket.t :=
  match h !! ws with
  | Some sk => <[ws := Socket.mk (Socket.readyState sk) (Socket.sent sk) true]> h
  | None => h
  end.

(** ** The handlers of [server.js] *)

Section Server.
Context (X : Externals).

(** *** Fan-out: [broadcastSignal] and [broadcastPosition] *)

(** [activeConnections.forEach((user, ws) => { if (ws.readyState === OPEN)
    ws.send({type: 'signal', data: signal}) })]. *)
Definition broadcastSignal (signal : Signal.t)
    (conns : JSMap.t nat Identity.t) (h : gmap nat Socket.t) : gmap nat Socket.t :=
  fold_left
    (fun h '(ws, user) =>
       if socket_open h ws then ws_send ws (MsgSignal signal) h else h)
    conns h.

(** [activeConnections.forEach((user, ws) => { if (ws.readyState === OPEN &&
    user.accountNumber === accountNumber) ws.send({type: 'position', data:
    position}) })]. *)
Definition broadcastPosition (position : Position.t) (accountNumber : jsval)
    (conns : JSMap.t nat Identity.t) (h : gmap nat Socket.t) : gmap nat Socket.t :=
  fold_left
    (fun h '(ws, user) =>
       if socket_open h ws && strict_eq (Identity.accountNumber user) accountNumber
       then ws_send ws (MsgPosition position) h else h)
    conns h.

(** *** [authenticateToken] *)

(** The middleware either answers itself (401 without a token, 403 when the
    token does not verify) or sets [req.user] and hands over to the route. *)
Definition authenticateToken (now : Z) (authHeader : option string)
    : Response + Identity.t :=
  let token :=
    match authHeader with
    | None => None
    | Some a => if truthy_string a then nth_error (split " "%char a) 1 else Some a
    end in
  match token with
  | None => inl (mkResponse 401 (JError "Access denied"))
  | Some tok =>
      if truthy_string tok then
        match jwt_verify X now tok with
        | None => inl (mkResponse 403 (JError "Invalid token"))
        | Some user => inr user
        end
      else inl (mkResponse 401 (JError "Access denied"))
  end.

(** *** [POST /api/auth/login]

    The handler is [async] and awaits twice, first [bcrypt.hash] (only for an
    unknown account) and then [bcrypt.compare]; other handlers run while it is
    suspended.  It is translated as three segments: [login_begin] runs up to
    the first [await] reached, [login_resume] runs a suspended request up to
    its next [await] or to its response. *)

Inductive LoginStep :=
| Suspended (task : LoginTask)
| Finished (r : Response).

Definition login_failed : Response := mkResponse 500 (JError "Login failed").

Definition login_begin (body : jsval) (us : JSMap.t jsval User.t) : LoginStep :=
  let destructured :=
    let* accountNumber := get_prop body "accountNumber" in
    let* password := get_prop body "password" in
    Ok (accountNumber, password) in
  match destructured with
  | Throw => Finished login_failed
  | Ok (accountNumber, password) =>
      match JSMap.get same_value_zero accountNumber us with
      | None => Suspended (AwaitHash accountNumber password)
      | Some user => Suspended (AwaitCompare accountNumber password user)
      end
  end.

(** [bcrypt.hash(s, 10)] and [bcrypt.compare(s, hash)] reject with
    "Illegal arguments" unless [s] is a string. *)
Definition bcrypt_hash_js (password : jsval) (salt : string) : Result string :=
  match password with
  | VStr p => Ok (bcrypt_hash X p salt)
  | _ => Throw
  end.

Definition bcrypt_compare_js (password : jsval) (hash : string) : Result bool :=
  match password with
  | VStr p => Ok (bcrypt_compare X p hash)
  | _ => Throw
  end.

Definition login_resume (task : LoginTask) (salt : string) (now : Z)
    (us : JSMap.t jsval User.t) : JSMap.t jsval User.t * LoginStep :=
  match task with
  | AwaitHash accountNumber password =>
      match bcrypt_hash_js password salt with
      | Throw => (us, Finished login_failed)
      | Ok hashedPassword =>
          let user := User.mk accountNumber hashedPassword (VStr "Demo") true now in
          (JSMap.set same_value_zero accountNumber user us,
           Suspended (AwaitCompare accountNumber password user))
      end
  | AwaitCompare accountNumber password user =>
      match bcrypt_compare_js password (User.password user) with
      | Throw => (us, Finished login_failed)
      | Ok false => (us, Finished (mkResponse 401 (JError "Invalid credentials")))
      | Ok true =>
          match jwt_sign X (Identity.mk accountNumber (User.broker user)) now with
          | None => (us, Finished login_failed)
          | Some token =>
              (us, Finished (mkResponse 200
                               (JLogin token accountNumber (User.broker user))))
          end
      end
  end.

(** *** [GET /api/signals] *)

(** [signals.filter(s => Date.now() - s.timestamp < 3600000)]: the callback
    reads the clock once per element; [clock i] is the reading taken for the
    element at index [i]. *)
Fixpoint filter_recent (clock : nat -> Z) (i : nat) (l : list Signal.t)
    : list Signal.t :=
  match l with
  | [] => []
  | s :: rest =>
      if clock i - Signal.timestamp s <? 3600000
      then s :: filter_recent clock (S i) rest
      else filter_recent clock (S i) rest
  end.

Definition get_signals (t_auth : Z) (authHeader : option string)
    (clock : nat -> Z) (s : State) : Response :=
  match authenticateToken t_auth authHeader with
  | inl r => r
  | inr _ => mkResponse 200 (JSignals (filter_recent clock 0 (signals s)))
  end.

(** *** [POST /api/signals] *)

(** [signals.push(newSignal); if (signals.length > 50) signals.shift()]. *)
Definition push_signal (newSignal : Signal.t) (l : list Signal.t) : list Signal.t :=
  let l' := l ++ [newSignal] in
  if (50 <? length l')%nat then tl l' else l'.

(** [t_id] and [t_ts] are the two readings of [Date.now()], for the id and
    for the timestamp. *)
Definition post_signals (t_id t_ts : Z) (body : jsval) (s : State)
    : State * Response :=
  let destructured :=
    let* apiKey := get_prop body "apiKey" in
    let* signal := get_prop body "signal" in
    Ok (apiKey, signal) in
  match destructured with
  | Throw => (s, mkResponse 500 (JError "Failed to process signal"))
  | Ok (apiKey, signal) =>
      if negb (strict_eq apiKey (MT4_API_KEY X))
      then (s, mkResponse 401 (JError "Invalid API key"))
      else
        let built :=
          let* pair := get_prop signal "pair" in
          let* action := get_prop signal "action" in
          let* rsi := get_prop signal "rsi" in
          let* macd := get_prop signal "macd" in
          let* strength := get_prop signal "strength" in
          let* quality := get_prop signal "quality" in
          Ok (Signal.mk (toString t_id) pair action rsi macd strength quality t_ts) in
        match built with
        | Throw => (s, mkResponse 500 (JError "Failed to process signal"))
        | Ok newSignal =>
            let s1 := with_signals (push_signal newSignal (signals s)) s in
            let s2 := with_sockets
                        (broadcastSignal newSignal (activeConnections s1) (sockets s1)) s1 in
            (s2, mkResponse 200 (JSignalAck (Signal.id newSignal)))
        end
  end.

(** *** [GET /api/positions] *)

(** [Array.from(positions.values()).filter(p => p.accountNumber ===
    accountNumber)]. *)
Definition positions_of (accountNumber : jsval)
    (m : JSMap.t string Position.t) : list Position.t :=
  List.filter (fun p => strict_eq (Position.accountNumber p) accountNumber)
              (JSMap.values m).

(** The route has no [try]: when its [console.log] throws, the exception
    reaches Express's default error handler, which answers 500. *)
Definition get_positions (t_auth : Z) (authHeader : option string) (s : State)
    : Response :=
  match authenticateToken t_auth authHeader with
  | inl r => r
  | inr user =>
      let accountNumber := Identity.accountNumber user in
      let userPositions := positions_of accountNumber (positions s) in
      match template_literal
              [accountNumber; VNum (of_Z (Z.of_nat (length userPositions)))] with
      | Throw => mkResponse 500 DefaultErrorPage
      | Ok _ => mkResponse 200 (JPositions userPositions)
      end
  end.

(** *** [POST /api/trade/open] *)

(** [t_id] and [t_open] are the two readings of [Date.now()], for the id and
    for [openTime].  The [console.log] of the pair, the type, the lots and
    the account number runs inside the [try], after the destructuring and
    before anything is filed. *)
Definition trade_open (t_auth : Z) (authHeader : option string)
    (t_id t_open : Z) (body : jsval) (s : State) : State * Response :=
  match authenticateToken t_auth authHeader with
  | inl r => (s, r)
  | inr user =>
      let accountNumber := Identity.accountNumber user in
      let positionId := toString t_id in
      let built :=
        let* pair := get_prop body "pair" in
        let* type := get_prop body "type" in
        let* lots := get_prop body "lots" in
        let* stopLoss := get_prop body "stopLoss" in
        let* takeProfit := get_prop body "takeProfit" in
        let* logged := template_literal [pair; type; lots; accountNumber] in
        Ok (Position.mk positionId accountNumber pair type lots
              (if strict_eq type (VStr "BUY") then lit_3893_45 else lit_3893_20)
              lit_3893_45 lit_0 stopLoss takeProfit t_open) in
      match built with
      | Throw => (s, mkResponse 500 (JError "Failed to execute trade"))
      | Ok position =>
          let s1 := with_positions
                      (JSMap.set String.eqb positionId position (positions s)) s in
          let s2 := with_sockets
                      (broadcastPosition position accountNumber
                         (activeConnections s1) (sockets s1)) s1 in
          (s2, mkResponse 200 (JTradeAck positionId))
      end
  end.

(** *** [POST /api/trade/close/:positionId] *)

(** The [console.log] of this route runs after the ownership check: the
    caller's account number is then [===] the position's, hence no object,
    and the id is a string, so the log converts both. *)
Definition trade_close (t_auth : Z) (authHeader : option string)
    (positionId : string) (s : State) : State * Response :=
  match authenticateToken t_auth authHeader with
  | inl r => (s, r)
  | inr user =>
      let accountNumber := Identity.accountNumber user in
      match JSMap.get String.eqb positionId (positions s) with
      | None => (s, mkResponse 404 (JError "Position not found"))
      | Some position =>
          if negb (strict_eq (Position.accountNumber position) accountNumber)
          then (s, mkResponse 404 (JError "Position not found"))
          else (with_positions (JSMap.delete String.eqb positionId (positions s)) s,
                mkResponse 200 JSuccess)
      end
  end.

(** *** [wss.on('connection')] *)

(** [token] is [params.get('token')]: [None] when the URL has no such
    parameter.  [ws] is the socket the [ws] library just opened.  Inside the
    [try], [activeConnections.set] comes first, then the [console.log] of the
    account number, then [ws.send] and [ws.on('close')]; whatever throws in
    between lands in the [catch], which closes the socket and undoes
    nothing. *)
Definition on_connection (now : Z) (ws : nat) (token : option string) (s : State)
    : State :=
  let rejected := with_sockets (ws_close ws (sockets s)) s in
  match token with
  | None => rejected
  | Some tok =>
      if truthy_string tok then
        match jwt_verify X now tok with
        | None => rejected
        | Some decoded =>
            let s1 := with_activeConnections
                        (JSMap.set Nat.eqb ws decoded (activeConnections s)) s in
            match template_literal [Identity.accountNumber decoded] with
            | Throw => with_sockets (ws_close ws (sockets s1)) s1
            | Ok _ =>
                let s2 := with_sockets
                            (ws_send ws (MsgInit (slice_last 10 (signals s1)))
                                     (sockets s1)) s1 in
                with_sockets (ws_on_close ws (sockets s2)) s2
            end
        end
      else rejected
  end.

(** The ['close'] listener: [activeConnections.delete(ws)].  Its
    [console.log] converts the account number that the handshake's
    [console.log] already converted before the listener was attached, so it
    does not throw. *)
Definition on_close (ws : nat) (s : State) : State :=
  with_activeConnections (JSMap.delete Nat.eqb ws (activeConnections s)) s.

(** *** The position ticker, [setInterval(..., 2000)] *)

(** ToNumber, applied by [*] to [position.lots].  An object is converted
    through its string, "[object Object]", which is not a number; the lots of
    a position on file have passed the [console.log] of
    [POST /api/trade/open], so they are no object with a member named
    [toString], for which the conversion would throw. *)
Definition to_number (v : jsval) : float64 :=
  match v with
  | VUndefined => S754_nan
  | VNull => S754_zero false
  | VBool b => if b then of_Z 1 else S754_zero false
  | VNum x => x
  | VStr s => string_to_number X s
  | VObj _ => S754_nan
  end.

(** One pass of the callback over a position: [random] is the value
    [Math.random()] returns. *)
Definition reprice (random : float64) (position : Position.t) : Position.t :=
  let randomChange := fmul (fsub random lit_0_5) lit_2 in
  let currentPrice := fadd (Position.currentPrice position) randomChange in
  let priceDiff :=
    if strict_eq (Position.type position) (VStr "BUY")
    then fsub currentPrice (Position.entryPrice position)
    else fsub (Position.entryPrice position) currentPrice in
  let profit := fmul (fmul priceDiff (to_number (Position.lots position))) lit_100 in
  Position.mk (Position.id position) (Position.accountNumber position)
    (Position.pair position) (Position.type position) (Position.lots position)
    (Position.entryPrice position) currentPrice profit
    (Position.stopLoss position) (Position.takeProfit position)
    (Position.openTime position).

(** [positions.forEach((position, id) => { ... })]: every entry is repriced in
    place, in insertion order, and broadcast to its account right after;
    [random i] is the [i]-th draw of this tick. *)
Fixpoint tick_loop (random : nat -> float64) (i : nat)
    (entries : JSMap.t string Position.t)
    (conns : JSMap.t nat Identity.t) (h : gmap nat Socket.t)
    : JSMap.t string Position.t * gmap nat Socket.t :=
  match entries with
  | [] => ([], h)
  | (id, position) :: rest =>
      let position' := reprice (random i) position in
      let h' := broadcastPosition position' (Position.accountNumber position') conns h in
      let '(rest', h'') := tick_loop random (S i) rest conns h' in
      ((id, position') :: rest', h'')
  end.

Definition tick (random : nat -> float64) (s : State) : State :=
  let '(ps, h) := tick_loop random 0 (positions s) (activeConnections s) (sockets s) in
  with_sockets h (with_positions ps s).

(** ** The event loop

    Node runs one callback at a time; each constructor below is one callback
    the loop can run, with the inputs the environment supplies (request data,
    clock readings, salts, random draws). *)
Inductive Event :=
| EvLoginRequest (body : jsval)
| EvLoginResume (i : nat) (salt : string) (now : Z)
| EvGetSignals (t_auth : Z) (authHeader : option string) (clock : nat -> Z)
| EvPostSignals (t_id t_ts : Z) (body : jsval)
| EvGetPositions (t_auth : Z) (authHeader : option string)
| EvTradeOpen (t_auth : Z) (authHeader : option string) (t_id t_open : Z) (body : jsval)
| EvTradeClose (t_auth : Z) (authHeader : option string) (positionId : string)
| EvConnection (now : Z) (token : option string)
| EvSocketClosing (ws : nat)
| EvSocketClosed (ws : nat)
| EvTick (random : nat -> float64).

(** A new connection: the [ws] library allocates the socket object, open,
    and emits ['connection']. *)
Definition accept_socket (s : State) : nat * State :=
  let ws := next_ws s in
  (ws, with_next_ws (S ws)
         (with_sockets (<[ws := Socket.mk OPEN [] false]> (sockets s)) s)).

(** The transport of [ws] is gone: the socket is closed and ['close'] is
    emitted to the listener, when one is attached. *)
Definition socket_closed (ws : nat) (s : State) : State :=
  match sockets s !! ws with
  | Some sk =>
      let s1 := with_sockets
                  (<[ws := Socket.mk CLOSED (Socket.sent sk) (Socket.close_listener sk)]>
                     (sockets s)) s in
      if Socket.close_listener sk then on_close ws s1 else s1
  | None => s
  end.

Definition step (e : Event) (s : State) : State * option Response :=
  match e with
  | EvLoginRequest body =>
      match login_begin body (users s) with
      | Finished r => (s, Some r)
      | Suspended task => (with_pending (pending s ++ [task]) s, None)
      end
  | EvLoginResume i salt now =>
      match pending s !! i with
      | None => (s, None)
      | Some task =>
          let s0 := with_pending (delete i (pending s)) s in
          match login_resume task salt now (users s0) with
          | (us, Finished r) => (with_users us s0, Some r)
          | (us, Suspended task') =>
              (with_pending (pending s0 ++ [task']) (with_users us s0), None)
          end
      end
  | EvGetSignals t_auth authHeader clock =>
      (s, Some (get_signals t_auth authHeader clock s))
  | EvPostSignals t_id t_ts body =>
      let '(s', r) := post_signals t_id t_ts body s in (s', Some r)
  | EvGetPositions t_auth authHeader =>
      (s, Some (get_positions t_auth authHeader s))
  | EvTradeOpen t_auth authHeader t_id t_open body =>
      let '(s', r) := trade_open t_auth authHeader t_id t_open body s in (s', Some r)
  | EvTradeClose t_auth authHeader positionId =>
      let '(s', r) := trade_close t_auth authHeader positionId s in (s', Some r)
  | EvConnection now token =>
      let '(ws, s1) := accept_socket s in (on_connection now ws token s1, None)
  | EvSocketClosing ws => (with_sockets (ws_close ws (sockets s)) s, None)
  | EvSocketClosed ws => (socket_closed ws s, None)
  | EvTick random => (tick random s, None)
  end.

(** The state after a sequence of callbacks. *)
Definition run (evs : list Event) (s : State) : State :=
  fold_left (fun s e => fst (step e s)) evs s.

(** The states the server can be in. *)
Definition reachable (s : State) : Prop :=
  exists evs, s = run evs initial_state.

End Server.

(** A login request that runs to its response with no other callback in
    between: [now1] is the clock when the first [await] resolves, [now2] when
    the second does. *)
Definition login (X : Externals) (body : jsval) (salt : string) (now1 now2 : Z)
    (us : JSMap.t jsval User.t) : JSMap.t jsval User.t * Response :=
  match login_begin body us with
  | Finished r => (us, r)
  | Suspended task =>
      match login_resume X task salt now1 us with
      | (us1, Finished r) => (us1, r)
      | (us1, Suspended task') =>
          match login_resume X task' salt now2 us1 with
          | (us2, Finished r) => (us2, r)
          | (us2, Suspended _) => (us2, login_failed)
          end
      end
  end.

(** A client-error status. *)
Definition is_4xx (r : Response) : bool :=
  (400 <=? status r) && (status r <? 500).

(** ** A concrete environment

    A small instance of the collaborators, used to run the handlers on
    concrete requests: tokens are ["token-" ++ account], the stand-in for
    bcrypt keeps the password and ignores the salt. *)
(** An account number that is a JSON object with a member named [toString]:
    [{"toString": null}]. *)
Definition object_account : jsval := VObj [("toString"%string, VNull)].

Definition demo_verify (now : Z) (token : string) : option Identity.t :=
  if String.eqb token "token-1001" then Some (Identity.mk (VStr "1001") (VStr "Demo"))
  else if String.eqb token "token-2002" then Some (Identity.mk (VStr "2002") (VStr "Demo"))
  else if String.eqb token "token-object" then Some (Identity.mk object_account (VStr "Demo"))
  else None.

Definition demo_sign (payload : Identity.t) (now : Z) : option string :=
  match Identity.accountNumber payload with
  | VStr a => Some (String.append "token-" a)
  | _ => Some "token-object"%string
  end.

Definition demo : Externals :=
  {| MT4_API_KEY := VStr "mt4-secret";
     jwt_sign := demo_sign;
     jwt_verify := demo_verify;
     bcrypt_hash := fun password salt => password;
     bcrypt_compare := String.eqb;
     string_to_number := fun _ => S754_nan |}.

(** The demo environment started without [JWT_SECRET]: [jwt.sign] throws
    "secretOrPrivateKey must have a value" and no token verifies. *)
Definition demo_no_secret : Externals :=
  {| MT4_API_KEY := VStr "mt4-secret";
     jwt_sign := fun _ _ => None;
     jwt_verify := fun _ _ => None;
     bcrypt_hash := fun password salt => password;
     bcrypt_compare := String.eqb;
     string_to_number := fun _ => S754_nan |}.

(** What the login handler relies on from bcrypt: a password matches every
    hash made of it. *)
Definition bcrypt_sound (X : Externals) : Prop :=
  forall password salt,
    bcrypt_compare X password (bcrypt_hash X password salt) = true.

(** Representation invariants of the stores: a JS [Map] holds one entry per
    key, and every position is filed under its own id. *)
Definition unique_keys {K V : Type} (m : JSMap.t K V) : Prop :=
  NoDup (JSMap.keys m).

Definition positions_wf (m : JSMap.t string Position.t) : Prop :=
  unique_keys m /\ Forall (fun kv => Position.id (snd kv) = fst kv) m.

(** What holds of the stores in every state the server reaches: registered
    sockets were allocated before [next_ws], and at most 50 signals are kept. *)
Definition state_wf (s : State) : Prop :=
  unique_keys (activeConnections s) /\
  (forall ws, ws ∈ JSMap.keys (activeConnections s) -> (ws < next_ws s)%nat) /\
  positions_wf (positions s) /\
  (length (signals s) <= 50)%nat.

(** The gateway rejects a handshake that carries no token or a token that
    does not verify. *)
Definition no_valid_token (X : Externals) (now : Z) (token : option string) : Prop :=
  token = None \/ exists tok, token = Some tok /\ jwt_verify X now tok = None.

(** A socket that is outside the registry and on which nothing was sent. *)
Definition shut_out (ws : nat) (s : State) : Prop :=
  JSMap.get Nat.eqb ws (activeConnections s) = None /\
  outbox (sockets s) ws = [] /\
  (ws < next_ws s)%nat.

(** [e] is a request that files a position under [positionId]. *)
Definition opens_id (positionId : string) (e : Event) : bool :=
  match e with
  | EvTradeOpen _ _ t_id _ _ => String.eqb (toString t_id) positionId
  | _ => false
  end.

(** The common shape of the two broadcasts: one pass over the registry that
    sends [m] on every open socket whose identity passes [guard]. *)
Definition fanout (guard : Identity.t -> bool) (m : Msg)
    (conns : JSMap.t nat Identity.t) (h : gmap nat Socket.t) : gmap nat Socket.t :=
  fold_left
    (fun h '(ws, user) =>
       if socket_open h ws && guard user then ws_send ws m h else h)
    conns h.

(** Some concrete data for running the handlers. *)
Local Open Scope string_scope.

Definition alice : Identity.t := Identity.mk (VStr "1001") (VStr "Demo").
Definition bob : Identity.t := Identity.mk (VStr "2002") (VStr "Demo").

Definition buy_body : jsval :=
  VObj [("pair", VStr "XAUUSD"); ("type", VStr "BUY"); ("lots", VNum (of_Z 1))].

Definition sell_body : jsval :=
  VObj [("pair", VStr "XAUUSD"); ("type", VStr "SELL"); ("lots", VNum (of_Z 1))].

Definition signal_body : jsval :=
  VObj [("apiKey", VStr "mt4-secret");
        ("signal", VObj [("pair", VStr "XAUUSD"); ("action", VStr "BUY")])].

(** An ingestion request with the right key and no [signal]. *)
Definition keyed_body_without_signal : jsval :=
  VObj [("apiKey", VStr "mt4-secret")].

(** A login for an unknown account whose password is a JSON number. *)
Definition login_body_numeric_password : jsval :=
  VObj [("accountNumber", VStr "3003"); ("password", VNum (of_Z 123456))].

Definition login_body_3003 : jsval :=
  VObj [("accountNumber", VStr "3003"); ("password", VStr "hunter2")].

(** A long position of one lot entered at 3893.45 and now priced 3900.00. *)
Definition long_at_3900 : Position.t :=
  Position.mk "1700000000000" (VStr "1001") (VStr "XAUUSD") (VStr "BUY")
    (VNum (of_Z 1)) lit_3893_45 (of_Z 3900) lit_0 VUndefined VUndefined
    1700000000000.

(** A short position of one lot entered at 3893.20 and now priced 3890.00. *)
Definition short_at_3890 : Position.t :=
  Position.mk "1700000000001" (VStr "1001") (VStr "XAUUSD") (VStr "SELL")
    (VNum (of_Z 1)) lit_3893_20 (of_Z 3890) lit_0 VUndefined VUndefined
    1700000000001.

(** A run of the demo server: account 1001 logs in for the first time, three
    clients connect (two sessions of account 1001, one of 2002), one session
    starts closing, one signal is ingested, account 1001 opens a long and
    account 2002 a short position. *)
Definition demo_events : list Event :=
  [ EvLoginRequest (VObj [("accountNumber", VStr "1001"); ("password", VStr "s3cret")]);
    EvLoginResume 0 "salt-1" 1699999999998;
    EvLoginResume 0 "salt-1" 1699999999999;
    EvConnection 1700000000000 (Some "token-1001");
    EvConnection 1700000000001 (Some "token-2002");
    EvConnection 1700000000002 (Some "token-1001");
    EvSocketClosing 2;
    EvPostSignals 1700000000003 1700000000003 signal_body;
    EvTradeOpen 1700000000004 (Some "Bearer token-1001")
                1700000000004 1700000000004 buy_body;
    EvTradeOpen 1700000000005 (Some "Bearer token-2002")
                1700000000005 1700000000005 sell_body ].

Definition demo_state : State := run demo demo_events initial_state.

(** What happens next in the demo: another signal and a tick. *)
Definition demo_followup : list Event :=
  [ EvPostSignals 1700000000020 1700000000020 signal_body;
    EvTick (fun _ => lit_0_5) ].

(** Fifty accepted signals, with ids 1700000001000 to 1700000001049. *)
Definition fifty_signals : list Event :=
  map (fun i => EvPostSignals (1700000001000 + Z.of_nat i)
                              (1700000001000 + Z.of_nat i) signal_body)
      (seq 0 50).

(** *** [GET /api/health]

    The route is public.  [uptime] is what [process.uptime()] returns. *)
Module Health.
Record t := mk {
  status : string;
  uptime : float64;
  signals : nat;
  positions : nat;
  connections : nat }.
End Health.

Definition get_health (uptime : float64) (s : State) : Health.t :=
  Health.mk "healthy" uptime (length (signals s))
    (JSMap.size (positions s)) (JSMap.size (activeConnections s)).

(** ** Notions used to state what the handlers guarantee *)

(** The responses of a sequence of callbacks, in order ([None] for a callback
    that answers no HTTP request). *)
Fixpoint responses (X : Externals) (evs : list Event) (s : State)
    : list (option Response) :=
  match evs with
  | [] => []
  | e :: rest => snd (step X e s) :: responses X rest (fst (step X e s))
  end.

(** How many callbacks of a run satisfy [f]. *)
Definition count_events (f : Event -> bool) (evs : list Event) : nat :=
  length (List.filter f evs).

Definition is_handshake (e : Event) : bool :=
  match e with EvConnection _ _ => true | _ => false end.

Definition is_open_request (e : Event) : bool :=
  match e with EvTradeOpen _ _ _ _ _ => true | _ => false end.

Definition is_ingestion (e : Event) : bool :=
  match e with EvPostSignals _ _ _ => true | _ => false end.

(** [c] occurs in [s]. *)
Fixpoint has_char (c : ascii) (s : string) : bool :=
  match s with
  | EmptyString => false
  | String c' rest => Ascii.eqb c' c || has_char c rest
  end.

(** The socket [ws] exists and carries the server's ['close'] listener. *)
Definition listening (h : gmap nat Socket.t) (ws : nat) : Prop :=
  exists sk, h !! ws = Some sk /\ Socket.close_listener sk = true.

(** Every socket that is registered for an account number that converts to
    a string exists and carries the listener. *)
Definition registered_listening (s : State) : Prop :=
  forall ws user,
    JSMap.get Nat.eqb ws (activeConnections s) = Some user ->
    to_log_string (Identity.accountNumber user) = Ok tt ->
    listening (sockets s) ws.

(** [p'] is [p] with, at most, another current price and profit. *)
Definition same_contract (p p' : Position.t) : Prop :=
  Position.id p' = Position.id p /\
  Position.accountNumber p' = Position.accountNumber p /\
  Position.pair p' = Position.pair p /\
  Position.type p' = Position.type p /\
  Position.lots p' = Position.lots p /\
  Position.entryPrice p' = Position.entryPrice p /\
  Position.stopLoss p' = Position.stopLoss p /\
  Position.takeProfit p' = Position.takeProfit p /\
  Position.openTime p' = Position.openTime p.

(** The values of [p] that [POST /api/trade/open] logs before it files a
    position all convert to a string. *)
Definition loggable (p : Position.t) : Prop :=
  Forall (fun v => to_log_string v = Ok tt)
    [Position.pair p; Position.type p; Position.lots p; Position.accountNumber p].

(** A socket the [ws] library has allocated and that is not, or no longer,
    in the registry. *)
Definition unregistered (ws : nat) (s : State) : Prop :=
  JSMap.get Nat.eqb ws (activeConnections s) = None /\ (ws < next_ws s)%nat.

(** The first login of the account [{"toString": null}], with no other
    callback in between. *)
Definition object_login : list Event :=
  [ EvLoginRequest (VObj [("accountNumber", object_account); ("password", VStr "pw")]);
    EvLoginResume 0 "salt-9" 1700000000060;
    EvLoginResume 0 "salt-9" 1700000000061 ].

(** Two login bodies for one account, with different passwords. *)
Definition login_body_4004_a : jsval :=
  VObj [("accountNumber", VStr "4004"); ("password", VStr "first")].

Definition login_body_4004_b : jsval :=
  VObj [("accountNumber", VStr "4004"); ("password", VStr "second")].

Local Close Scope string_scope.

(** * Properties *)

(** ** Template literals *)

Lemma template_literal_cons v rest :
  template_literal (v :: rest) =
  rbind (to_log_string v) (fun _ => template_literal rest).
Proof. reflexivity. Qed.

Lemma to_log_string_cases v :
  to_log_string v = Ok tt \/ to_log_string v = Throw.
Proof.
  destruct v as [| |b|x|p|fields]; simpl; auto.
  destruct (assoc "toString" fields); auto.
Qed.

(** A template literal is evaluated if and only if each of its substitutions
    converts. *)
Lemma template_literal_Ok l :
  template_literal l = Ok tt <-> Forall (fun v => to_log_string v = Ok tt) l.
Proof.
  induction l as [|v l IH]; [by split; [constructor|]|].
  rewrite template_literal_cons, Forall_cons.
  destruct (to_log_string_cases v) as [-> | ->]; simpl.
  - rewrite IH. tauto.
  - split; [discriminate|]. intros [Hv _]. discriminate.
Qed.

(** Only an object with a member named [toString] fails to convert. *)
Lemma to_log_string_Throw v :
  to_log_string v = Throw <->
  exists fields member, v = VObj fields /\ assoc "toString" fields = Some member.
Proof.
  split.
  - destruct v as [| |b|x|p|fields]; simpl; try discriminate.
    destruct (assoc "toString" fields) as [member|] eqn:E; [|discriminate].
    intros _. by exists fields, member.
  - intros (fields & member & -> & E). simpl. by rewrite E.
Qed.

(** ** JS [Map] operations, for a key equality that decides [=] *)

Section JSMapFacts.
Context {K V : Type} (eqb : K -> K -> bool).
Hypothesis eqb_eq : forall a b, eqb a b = true <-> a = b.

Local Abbreviation get := (JSMap.get eqb).
Local Abbreviation set := (JSMap.set eqb).
Local Abbreviation delete := (JSMap.delete eqb).

Lemma eqb_refl k : eqb k k = true.
Proof. by apply eqb_eq. Qed.

Lemma eqb_neq a b : a <> b -> eqb a b = false.
Proof.
  intros Hne. destruct (eqb a b) eqn:E; [|done].
  by apply eqb_eq in E.
Qed.

Lemma get_None (k : K) (m : JSMap.t K V) :
  get k m = None <-> k ∉ JSMap.keys m.
Proof.
  induction m as [|[k' v] m IH]; simpl.
  - split; [intros _; apply not_elem_of_nil|done].
  - rewrite not_elem_of_cons. destruct (eqb k' k) eqn:E.
    + apply eqb_eq in E. split; [done|]. by intros [? _].
    + rewrite IH. split; [|tauto].
      intros H. split; [|done]. intros ->. by rewrite eqb_refl in E.
Qed.

Lemma get_Some_elem (k : K) (v : V) (m : JSMap.t K V) :
  get k m = Some v -> (k, v) ∈ m.
Proof.
  induction m as [|[k' v'] m IH]; simpl; [done|].
  destruct (eqb k' k) eqn:E.
  - apply eqb_eq in E. intros [= ->]. subst. apply list_elem_of_here.
  - intros H. apply list_elem_of_further. by apply IH.
Qed.

Lemma elem_get (k : K) (v : V) (m : JSMap.t K V) :
  unique_keys m -> (k, v) ∈ m -> get k m = Some v.
Proof.
  unfold unique_keys.
  induction m as [|[k' v'] m IH]; simpl.
  - intros _ H. by apply elem_of_nil in H.
  - intros [Hnotin Hnd]%NoDup_cons [Heq|Hin]%elem_of_cons.
    + injection Heq as -> ->. by rewrite eqb_refl.
    + destruct (eqb k' k) eqn:E; [|by apply IH].
      apply eqb_eq in E. subst k'. exfalso. apply Hnotin.
      by apply (list_elem_of_fmap_2 fst) in Hin.
Qed.

Lemma get_set_eq (k : K) (v : V) (m : JSMap.t K V) :
  get k (set k v m) = Some v.
Proof.
  induction m as [|[k' v'] m IH]; simpl.
  - by rewrite eqb_refl.
  - destruct (eqb k' k) eqn:E; simpl; rewrite E; [done|apply IH].
Qed.

Lemma get_set_ne (k k' : K) (v : V) (m : JSMap.t K V) :
  k <> k' -> get k' (set k v m) = get k' m.
Proof.
  intros Hne. induction m as [|[k0 v0] m IH]; simpl.
  - by rewrite eqb_neq.
  - destruct (eqb k0 k) eqn:E; simpl.
    + apply eqb_eq in E. subst k0. by rewrite eqb_neq.
    + by rewrite IH.
Qed.

Lemma get_delete_ne (k k' : K) (m : JSMap.t K V) :
  k <> k' -> get k' (delete k m) = get k' m.
Proof.
  intros Hne. induction m as [|[k0 v0] m IH]; simpl; [done|].
  destruct (eqb k0 k) eqn:E; simpl.
  - apply eqb_eq in E. subst k0. by rewrite eqb_neq.
  - by rewrite IH.
Qed.

Lemma delete_incl (kv : K * V) (k : K) (m : JSMap.t K V) :
  kv ∈ delete k m -> kv ∈ m.
Proof.
  induction m as [|[k0 v0] m IH]; simpl; [done|].
  destruct (eqb k0 k); simpl.
  - apply list_elem_of_further.
  - rewrite !elem_of_cons. intros [->|H]; [by left|right; by apply IH].
Qed.

Lemma keys_delete_incl (k k' : K) (m : JSMap.t K V) :
  k' ∈ JSMap.keys (delete k m) -> k' ∈ JSMap.keys m.
Proof.
  induction m as [|[k0 v0] m IH]; simpl; [done|].
  destruct (eqb k0 k); simpl.
  - apply list_elem_of_further.
  - rewrite !elem_of_cons. intros [->|H]; [by left|right; by apply IH].
Qed.

Lemma unique_keys_delete (k : K) (m : JSMap.t K V) :
  unique_keys m -> unique_keys (delete k m).
Proof.
  unfold unique_keys.
  induction m as [|[k0 v0] m IH]; simpl; [done|].
  intros [Hnotin Hnd]%NoDup_cons.
  destruct (eqb k0 k); [done|]. simpl. apply NoDup_cons. split; [|by apply IH].
  intros Hin. apply Hnotin. by eapply keys_delete_incl.
Qed.

Lemma get_delete_eq (k : K) (m : JSMap.t K V) :
  unique_keys m -> get k (delete k m) = None.
Proof.
  unfold unique_keys.
  induction m as [|[k0 v0] m IH]; simpl; [done|].
  intros [Hnotin Hnd]%NoDup_cons.
  destruct (eqb k0 k) eqn:E; simpl.
  - apply eqb_eq in E. subst k0. by apply get_None.
  - rewrite E. by apply IH.
Qed.

Lemma keys_set (k : K) (v : V) (m : JSMap.t K V) :
  JSMap.keys (set k v m) =
  match get k m with
  | Some _ => JSMap.keys m
  | None => JSMap.keys m ++ [k]
  end.
Proof.
  induction m as [|[k0 v0] m IH]; simpl; [done|].
  destruct (eqb k0 k) eqn:E; simpl; [done|].
  rewrite IH. by destruct (get k m).
Qed.

Lemma unique_keys_set (k : K) (v : V) (m : JSMap.t K V) :
  unique_keys m -> unique_keys (set k v m).
Proof.
  unfold unique_keys. intros Hnd. rewrite keys_set.
  destruct (get k m) eqn:E; [done|].
  apply get_None in E.
  apply NoDup_app. repeat split; [done| |apply NoDup_singleton].
  intros x Hin ->%list_elem_of_singleton. done.
Qed.

Lemma set_incl (kv : K * V) (k : K) (v : V) (m : JSMap.t K V) :
  kv ∈ set k v m -> kv ∈ m \/ (snd kv = v /\ fst kv = k).
Proof.
  induction m as [|[k0 v0] m IH]; simpl.
  - intros ->%list_elem_of_singleton. by right.
  - destruct (eqb k0 k) eqn:E; simpl; rewrite !elem_of_cons.
    + apply eqb_eq in E. subst k0. intros [->|H]; [by right|left; by right].
    + intros [->|H]; [left; by left|]. destruct (IH H); [left; by right|by right].
Qed.


End JSMapFacts.

(** ** Sockets *)

Lemma socket_open_ws_send ws m h ws' :
  socket_open (ws_send ws m h) ws' = socket_open h ws'.
Proof.
  unfold socket_open, ws_send.
  destruct (h !! ws) as [sk|] eqn:E; [|done].
  destruct (is_open (Socket.readyState sk)) eqn:Ho; [|done].
  destruct (decide (ws = ws')) as [<-|Hne].
  - by rewrite lookup_insert_eq, E; simpl.
  - by rewrite lookup_insert_ne.
Qed.

Lemma outbox_ws_send_same ws m h :
  outbox (ws_send ws m h) ws =
  outbox h ws ++ (if socket_open h ws then [m] else []).
Proof.
  unfold outbox, socket_open, ws_send.
  destruct (h !! ws) as [sk|] eqn:E; [|by rewrite E].
  destruct (is_open (Socket.readyState sk)) eqn:Ho.
  - by rewrite lookup_insert_eq.
  - rewrite E. by rewrite app_nil_r.
Qed.

Lemma outbox_ws_send_other ws m h ws' :
  ws <> ws' -> outbox (ws_send ws m h) ws' = outbox h ws'.
Proof.
  intros Hne. unfold outbox, ws_send.
  destruct (h !! ws) as [sk|] eqn:E; [|done].
  destruct (is_open (Socket.readyState sk)); [|done].
  by rewrite lookup_insert_ne.
Qed.

Lemma outbox_ws_close ws h ws' : outbox (ws_close ws h) ws' = outbox h ws'.
Proof.
  unfold outbox, ws_close.
  destruct (h !! ws) as [sk|] eqn:E; [|done].
  destruct (Socket.readyState sk); try done;
    (destruct (decide (ws = ws')) as [<-|Hne];
     [by rewrite lookup_insert_eq, E | by rewrite lookup_insert_ne]).
Qed.

Lemma outbox_ws_on_close ws h ws' : outbox (ws_on_close ws h) ws' = outbox h ws'.
Proof.
  unfold outbox, ws_on_close.
  destruct (h !! ws) as [sk|] eqn:E; [|done].
  destruct (decide (ws = ws')) as [<-|Hne];
    [by rewrite lookup_insert_eq, E | by rewrite lookup_insert_ne].
Qed.

(** ** Fan-out *)

Lemma broadcastPosition_fanout position accountNumber conns h :
  broadcastPosition position accountNumber conns h =
  fanout (fun user => strict_eq (Identity.accountNumber user) accountNumber)
         (MsgPosition position) conns h.
Proof. reflexivity. Qed.

Lemma broadcastSignal_fanout signal conns h :
  broadcastSignal signal conns h = fanout (fun _ => true) (MsgSignal signal) conns h.
Proof.
  unfold broadcastSignal, fanout. revert h.
  induction conns as [|[ws user] conns IH]; intros h; simpl; [done|].
  rewrite andb_true_r. apply IH.
Qed.

Lemma fanout_socket_open guard m conns h ws :
  socket_open (fanout guard m conns h) ws = socket_open h ws.
Proof.
  unfold fanout. revert h.
  induction conns as [|[w user] conns IH]; intros h; simpl; [done|].
  rewrite IH. destruct (socket_open h w && guard user); [|done].
  apply socket_open_ws_send.
Qed.

Lemma ready_state_ws_send ws m h ws' :
  ready_state (ws_send ws m h) ws' = ready_state h ws'.
Proof.
  unfold ready_state, ws_send.
  destruct (h !! ws) as [sk|] eqn:E; [|done].
  destruct (is_open (Socket.readyState sk)) eqn:Ho; [|done].
  destruct (decide (ws = ws')) as [<-|Hne].
  - by rewrite lookup_insert_eq, E.
  - by rewrite lookup_insert_ne.
Qed.

Lemma ready_state_fanout guard m conns h ws :
  ready_state (fanout guard m conns h) ws = ready_state h ws.
Proof.
  unfold fanout. revert h.
  induction conns as [|[w user] conns IH]; intros h; simpl; [done|].
  rewrite IH. destruct (socket_open h w && guard user); [|done].
  apply ready_state_ws_send.
Qed.

Lemma fanout_outbox_absent guard m conns h ws :
  JSMap.get Nat.eqb ws conns = None ->
  outbox (fanout guard m conns h) ws = outbox h ws.
Proof.
  unfold fanout. revert h.
  induction conns as [|[w user] conns IH]; intros h; simpl; [done|].
  destruct (Nat.eqb w ws) eqn:E; [done|]. intros Hget.
  rewrite IH by done. apply Nat.eqb_neq in E.
  destruct (socket_open h w && guard user); [|done].
  by apply outbox_ws_send_other.
Qed.

Lemma fanout_outbox guard m conns h ws :
  unique_keys conns ->
  outbox (fanout guard m conns h) ws =
  outbox h ws ++
  match JSMap.get Nat.eqb ws conns with
  | Some user => if socket_open h ws && guard user then [m] else []
  | None => []
  end.
Proof.
  unfold unique_keys. revert h.
  induction conns as [|[w user] conns IH]; intros h; simpl.
  - intros _. by rewrite app_nil_r.
  - intros [Hnotin Hnd]%NoDup_cons. fold (fanout guard m conns).
    destruct (Nat.eqb w ws) eqn:E.
    + apply Nat.eqb_eq in E. subst w.
      rewrite fanout_outbox_absent by (by apply (get_None Nat.eqb Nat.eqb_eq)).
      destruct (socket_open h ws && guard user) eqn:C; [|by rewrite app_nil_r].
      rewrite outbox_ws_send_same. apply andb_true_iff in C as [-> _]. done.
    + apply Nat.eqb_neq in E. rewrite IH by done.
      f_equal.
      * destruct (socket_open h w && guard user); [|done].
        by apply outbox_ws_send_other.
      * destruct (JSMap.get Nat.eqb ws conns); [|done].
        destruct (socket_open h w && guard user); [|done].
        by rewrite socket_open_ws_send.
Qed.

(** C1.  [broadcastPosition(position, A)] appends the position event to the
    outbox of a connection exactly when the connection is in the registry, its
    bound identity's account number is [===] to [A], and its socket is open at
    the time of the call; every other outbox is left as it was.  In particular,
    for a registered connection, delivery happens if and only if the account
    matches and the transport is open, and a connection bound to another
    account receives nothing. *)
Theorem broadcastPosition_delivery
    (position : Position.t) (A : jsval)
    (conns : JSMap.t nat Identity.t) (h : gmap nat Socket.t) :
  unique_keys conns ->
  let h' := broadcastPosition position A conns h in
  (forall ws,
      outbox h' ws =
      outbox h ws ++
      match JSMap.get Nat.eqb ws conns with
      | Some user =>
          if socket_open h ws && strict_eq (Identity.accountNumber user) A
          then [MsgPosition position] else []
      | None => []
      end) /\
  (forall ws user,
      JSMap.get Nat.eqb ws conns = Some user ->
      (outbox h' ws = outbox h ws ++ [MsgPosition position] <->
       strict_eq (Identity.accountNumber user) A = true /\ socket_open h ws = true) /\
      (strict_eq (Identity.accountNumber user) A = false ->
       outbox h' ws = outbox h ws)).
Proof.
  intros Huniq h'.
  assert (Hall : forall ws,
      outbox h' ws =
      outbox h ws ++
      match JSMap.get Nat.eqb ws conns with
      | Some user =>
          if socket_open h ws && strict_eq (Identity.accountNumber user) A
          then [MsgPosition position] else []
      | None => []
      end).
  { intros ws. subst h'. rewrite broadcastPosition_fanout.
    by rewrite fanout_outbox. }
  split; [exact Hall|].
  intros ws user Hget. specialize (Hall ws). rewrite Hget in Hall.
  split; [split|].
  - intros Hdel. rewrite Hall in Hdel.
    destruct (socket_open h ws); destruct (strict_eq _ A); simpl in *; try done;
      apply app_inv_head in Hdel; discriminate.
  - intros [Ha Ho]. by rewrite Hall, Ha, Ho.
  - intros Ha. rewrite Hall, Ha, andb_false_r. apply app_nil_r.
Qed.

Lemma demo_connections_unique : unique_keys (activeConnections demo_state).
Proof.
  unfold unique_keys. vm_compute. apply (bool_decide_unpack _). vm_compute. reflexivity.
Qed.

Lemma broadcastPosition_delivery_witness :
  unique_keys (activeConnections demo_state) /\
  let h := sockets demo_state in
  let h' := broadcastPosition long_at_3900 (VStr "1001")
              (activeConnections demo_state) h in
  (forall ws,
      outbox h' ws =
      outbox h ws ++
      match JSMap.get Nat.eqb ws (activeConnections demo_state) with
      | Some user =>
          if socket_open h ws && strict_eq (Identity.accountNumber user) (VStr "1001")
          then [MsgPosition long_at_3900] else []
      | None => []
      end) /\
  (forall ws user,
      JSMap.get Nat.eqb ws (activeConnections demo_state) = Some user ->
      (outbox h' ws = outbox h ws ++ [MsgPosition long_at_3900] <->
       strict_eq (Identity.accountNumber user) (VStr "1001") = true /\
       socket_open h ws = true) /\
      (strict_eq (Identity.accountNumber user) (VStr "1001") = false ->
       outbox h' ws = outbox h ws)).
Proof.
  split; [exact demo_connections_unique|].
  exact (broadcastPosition_delivery long_at_3900 (VStr "1001")
           (activeConnections demo_state) (sockets demo_state)
           demo_connections_unique).
Defined.

(** ** What each handler changes *)

Section Frames.
Context (X : Externals).

Lemma length_push_signal sig l :
  (length l <= 50)%nat -> (length (push_signal sig l) <= 50)%nat.
Proof.
  intros Hl. unfold push_signal.
  destruct (50 <? length (l ++ [sig]))%nat eqn:E.
  - destruct l; simpl in *; [lia|]. rewrite length_app. simpl. lia.
  - apply Nat.ltb_ge in E. done.
Qed.

Lemma post_signals_frame t_id t_ts body s :
  let s' := fst (post_signals X t_id t_ts body s) in
  users s' = users s /\ positions s' = positions s /\
  activeConnections s' = activeConnections s /\ next_ws s' = next_ws s /\
  pending s' = pending s /\
  (signals s' = signals s \/ exists sig, signals s' = push_signal sig (signals s)).
Proof.
  unfold post_signals. repeat case_match; simpl; repeat split; eauto.
Qed.

Lemma trade_open_frame t_auth authHeader t_id t_open body s :
  let s' := fst (trade_open X t_auth authHeader t_id t_open body s) in
  users s' = users s /\ signals s' = signals s /\
  activeConnections s' = activeConnections s /\ next_ws s' = next_ws s /\
  pending s' = pending s /\
  (positions s' = positions s \/
   exists p, Position.id p = toString t_id /\
     positions s' = JSMap.set String.eqb (toString t_id) p (positions s)).
Proof.
  unfold trade_open. destruct (authenticateToken X t_auth authHeader); simpl;
    [repeat split; eauto|].
  destruct (get_prop body "pair"); simpl; [|repeat split; eauto].
  destruct (get_prop body "type"); simpl; [|repeat split; eauto].
  destruct (get_prop body "lots"); simpl; [|repeat split; eauto].
  destruct (get_prop body "stopLoss"); simpl; [|repeat split; eauto].
  destruct (get_prop body "takeProfit"); simpl; [|repeat split; eauto].
  destruct (template_literal _); simpl; [|repeat split; eauto].
  repeat split; try done. right. eexists. split; [|reflexivity]. reflexivity.
Qed.

Lemma trade_close_frame t_auth authHeader positionId s :
  let s' := fst (trade_close X t_auth authHeader positionId s) in
  users s' = users s /\ signals s' = signals s /\
  activeConnections s' = activeConnections s /\ next_ws s' = next_ws s /\
  pending s' = pending s /\ sockets s' = sockets s /\
  (positions s' = positions s \/
   positions s' = JSMap.delete String.eqb positionId (positions s)).
Proof.
  unfold trade_close. repeat case_match; simpl; repeat split; eauto.
Qed.

Lemma on_connection_frame now ws token s :
  let s' := on_connection X now ws token s in
  users s' = users s /\ signals s' = signals s /\ positions s' = positions s /\
  next_ws s' = next_ws s /\ pending s' = pending s /\
  (activeConnections s' = activeConnections s \/
   exists decoded,
     activeConnections s' = JSMap.set Nat.eqb ws decoded (activeConnections s)).
Proof.
  unfold on_connection. repeat case_match; simpl; repeat split; eauto.
Qed.

Lemma socket_closed_frame ws s :
  let s' := socket_closed ws s in
  users s' = users s /\ signals s' = signals s /\ positions s' = positions s /\
  next_ws s' = next_ws s /\ pending s' = pending s /\
  (activeConnections s' = activeConnections s \/
   activeConnections s' = JSMap.delete Nat.eqb ws (activeConnections s)).
Proof.
  unfold socket_closed, on_close. repeat case_match; simpl; repeat split; eauto.
Qed.

Lemma tick_loop_entries random i entries conns h :
  fst (tick_loop X random i entries conns h) =
  imap (fun j kv => (fst kv, reprice X (random (i + j)%nat) (snd kv))) entries.
Proof.
  revert i h. induction entries as [|[id p] entries IH]; intros i h; simpl; [done|].
  match goal with
  | |- context [tick_loop X random (S i) entries conns ?h0] =>
      specialize (IH (S i) h0);
      destruct (tick_loop X random (S i) entries conns h0) as [rest h'']
  end.
  simpl in *. rewrite Nat.add_0_r. f_equal. rewrite IH.
  apply imap_ext. intros j kv _. simpl. by rewrite Nat.add_succ_r.
Qed.

Lemma tick_frame random s :
  let s' := tick X random s in
  users s' = users s /\ signals s' = signals s /\
  activeConnections s' = activeConnections s /\ next_ws s' = next_ws s /\
  pending s' = pending s /\
  positions s' =
  imap (fun j kv => (fst kv, reprice X (random j) (snd kv))) (positions s).
Proof.
  unfold tick.
  pose proof (tick_loop_entries random 0 (positions s) (activeConnections s) (sockets s)) as H.
  destruct (tick_loop X random 0 (positions s) (activeConnections s) (sockets s))
    as [ps h]. simpl in *. by subst ps.
Qed.

End Frames.

(** ** Invariants of the reachable states *)

Section Invariants.
Context (X : Externals).

Lemma positions_wf_set k p m :
  Position.id p = k -> positions_wf m ->
  positions_wf (JSMap.set String.eqb k p m).
Proof.
  intros Hid [Hu Hf]. split.
  - by apply (unique_keys_set String.eqb String.eqb_eq).
  - apply Forall_forall. intros kv Hin.
    apply (set_incl String.eqb String.eqb_eq) in Hin as [Hin|[Hv Hk]].
    + by apply (proj1 (Forall_forall _ _) Hf).
    + by rewrite Hv, Hk.
Qed.

Lemma positions_wf_delete k m :
  positions_wf m -> positions_wf (JSMap.delete String.eqb k m).
Proof.
  intros [Hu Hf]. split.
  - by apply unique_keys_delete.
  - apply Forall_forall. intros kv Hin.
    apply (proj1 (Forall_forall _ _) Hf). by eapply delete_incl.
Qed.

Lemma reprice_id r p : Position.id (reprice X r p) = Position.id p.
Proof. reflexivity. Qed.

Lemma reprice_accountNumber r p :
  Position.accountNumber (reprice X r p) = Position.accountNumber p.
Proof. reflexivity. Qed.

Lemma keys_imap_reprice (random : nat -> float64) (m : JSMap.t string Position.t) :
  JSMap.keys (imap (fun j kv => (fst kv, reprice X (random j) (snd kv))) m) =
  JSMap.keys m.
Proof.
  unfold JSMap.keys. revert random.
  induction m as [|kv m IH]; intros random; simpl; [done|].
  f_equal. apply (IH (fun j => random (S j))).
Qed.

Lemma positions_wf_imap_reprice (random : nat -> float64) m :
  positions_wf m ->
  positions_wf (imap (fun j kv => (fst kv, reprice X (random j) (snd kv))) m).
Proof.
  intros [Hu Hf]. split.
  - unfold unique_keys. by rewrite keys_imap_reprice.
  - clear Hu. revert random.
    induction Hf as [|kv m Hkv Hf IH]; intros random; simpl; constructor.
    + exact Hkv.
    + apply (IH (fun j => random (S j))).
Qed.

Lemma step_wf e s : state_wf s -> state_wf (fst (step X e s)).
Proof.
  intros (Hu & Hlt & Hp & Hs).
  destruct e as [body|i salt now|t_auth a clock|t_id t_ts body|t_auth a
                |t_auth a t_id t_open body|t_auth a pid|now token|ws|ws|random];
    simpl.
  - destruct (login_begin body (users s)); done.
  - destruct (pending s !! i); [|done].
    destruct (login_resume X _ salt now _) as [us [task'|r]]; done.
  - done.
  - pose proof (post_signals_frame X t_id t_ts body s) as (_ & Ep & Ec & En & _ & Es).
    destruct (post_signals X t_id t_ts body s) as [s' r]. simpl in *.
    unfold state_wf. rewrite Ep, Ec, En. split_and!; try done.
    destruct Es as [->|[sig ->]]; [done|by apply length_push_signal].
  - done.
  - pose proof (trade_open_frame X t_auth a t_id t_open body s)
      as (_ & Es & Ec & En & _ & Ep).
    destruct (trade_open X t_auth a t_id t_open body s) as [s' r]. simpl in *.
    unfold state_wf. rewrite Es, Ec, En. split_and!; try done.
    destruct Ep as [->|(p & Hid & ->)]; [done|by apply positions_wf_set].
  - pose proof (trade_close_frame X t_auth a pid s)
      as (_ & Es & Ec & En & _ & _ & Ep).
    destruct (trade_close X t_auth a pid s) as [s' r]. simpl in *.
    unfold state_wf. rewrite Es, Ec, En. split_and!; try done.
    destruct Ep as [->| ->]; [done|by apply positions_wf_delete].
  - pose proof (on_connection_frame X now (next_ws s) token
                  (snd (accept_socket s))) as (_ & Es & Ep & En & _ & Ec).
    simpl in *. unfold state_wf. rewrite Es, Ep, En. simpl.
    split_and!; try done; destruct Ec as [->|[d ->]]; simpl; try done.
    + by apply (unique_keys_set Nat.eqb Nat.eqb_eq).
    + intros ws Hin. apply Hlt in Hin. lia.
    + intros ws. rewrite keys_set.
      destruct (JSMap.get Nat.eqb (next_ws s) (activeConnections s)).
      * intros Hin. apply Hlt in Hin. lia.
      * intros [Hin| ->%list_elem_of_singleton]%elem_of_app; [|lia].
        apply Hlt in Hin. lia.
  - done.
  - pose proof (socket_closed_frame ws s) as (_ & Es & Ep & En & _ & Ec).
    simpl in *. unfold state_wf. rewrite Es, Ep, En.
    split_and!; try done; destruct Ec as [->| ->]; try done.
    + by apply unique_keys_delete.
    + intros w Hin. apply Hlt. by eapply keys_delete_incl.
  - pose proof (tick_frame X random s) as (_ & Es & Ec & En & _ & Ep).
    simpl in *. unfold state_wf. rewrite Es, Ec, En, Ep.
    split_and!; try done. by apply positions_wf_imap_reprice.
Qed.

Lemma run_wf evs s : state_wf s -> state_wf (run X evs s).
Proof.
  unfold run. revert s.
  induction evs as [|e evs IH]; intros s Hwf; simpl; [done|].
  apply IH. by apply step_wf.
Qed.

Lemma initial_state_wf : state_wf initial_state.
Proof.
  repeat split; simpl; try constructor.
  - intros ws Hin. by apply elem_of_nil in Hin.
  - lia.
Qed.

Lemma reachable_wf s : reachable X s -> state_wf s.
Proof. intros [evs ->]. apply run_wf, initial_state_wf. Qed.

Lemma run_app evs1 evs2 s : run X (evs1 ++ evs2) s = run X evs2 (run X evs1 s).
Proof. unfold run. apply fold_left_app. Qed.

Lemma reachable_run evs s : reachable X s -> reachable X (run X evs s).
Proof. intros [evs0 ->]. exists (evs0 ++ evs). by rewrite run_app. Qed.

End Invariants.

(** ** The ingress gateway *)

Section Gateway.
Context (X : Externals).

Lemma on_connection_rejected now ws token s :
  no_valid_token X now token ->
  on_connection X now ws token s = with_sockets (ws_close ws (sockets s)) s.
Proof.
  intros [->|(tok & -> & Hv)]; simpl; [done|].
  rewrite Hv. by destruct (truthy_string tok).
Qed.

Lemma get_delete_None ws ws' (conns : JSMap.t nat Identity.t) :
  JSMap.get Nat.eqb ws conns = None ->
  JSMap.get Nat.eqb ws (JSMap.delete Nat.eqb ws' conns) = None.
Proof.
  rewrite !(get_None Nat.eqb Nat.eqb_eq). intros Hnotin Hin.
  apply Hnotin. by eapply keys_delete_incl.
Qed.

Lemma outbox_insert_other ws ws' sk (h : gmap nat Socket.t) :
  ws' <> ws -> outbox (<[ws' := sk]> h) ws = outbox h ws.
Proof. intros Hne. unfold outbox. by rewrite lookup_insert_ne. Qed.

Lemma post_signals_outbox_absent t_id t_ts body s ws :
  JSMap.get Nat.eqb ws (activeConnections s) = None ->
  outbox (sockets (fst (post_signals X t_id t_ts body s))) ws = outbox (sockets s) ws.
Proof.
  intros Hget. unfold post_signals. repeat case_match; simpl; try done.
  rewrite broadcastSignal_fanout. by apply fanout_outbox_absent.
Qed.

Lemma trade_open_outbox_absent t_auth a t_id t_open body s ws :
  JSMap.get Nat.eqb ws (activeConnections s) = None ->
  outbox (sockets (fst (trade_open X t_auth a t_id t_open body s))) ws =
  outbox (sockets s) ws.
Proof.
  intros Hget. unfold trade_open. repeat case_match; simpl; try done.
  rewrite broadcastPosition_fanout. by apply fanout_outbox_absent.
Qed.

Lemma tick_loop_outbox_absent random i entries conns h ws :
  JSMap.get Nat.eqb ws conns = None ->
  outbox (snd (tick_loop X random i entries conns h)) ws = outbox h ws.
Proof.
  intros Hget. revert i h.
  induction entries as [|[id p] entries IH]; intros i h; simpl; [done|].
  match goal with
  | |- context [tick_loop X random (S i) entries conns ?h0] =>
      specialize (IH (S i) h0);
      destruct (tick_loop X random (S i) entries conns h0) as [rest h'']
  end.
  simpl in *. rewrite IH, broadcastPosition_fanout. by apply fanout_outbox_absent.
Qed.

Lemma tick_outbox_absent random s ws :
  JSMap.get Nat.eqb ws (activeConnections s) = None ->
  outbox (sockets (tick X random s)) ws = outbox (sockets s) ws.
Proof.
  intros Hget. unfold tick.
  pose proof (tick_loop_outbox_absent random 0 (positions s)
                (activeConnections s) (sockets s) ws Hget) as H.
  destruct (tick_loop X random 0 (positions s) (activeConnections s) (sockets s))
    as [ps h]. done.
Qed.

Lemma step_shut_out e s ws : shut_out ws s -> shut_out ws (fst (step X e s)).
Proof.
  intros (Hget & Hout & Hlt).
  destruct e as [body|i salt now|t_auth a clock|t_id t_ts body|t_auth a
                |t_auth a t_id t_open body|t_auth a pid|now token|w|w|random];
    simpl.
  - destruct (login_begin body (users s)); done.
  - destruct (pending s !! i); [|done].
    destruct (login_resume X _ salt now _) as [us [task'|r]]; done.
  - done.
  - pose proof (post_signals_frame X t_id t_ts body s) as (_ & _ & Ec & En & _).
    pose proof (post_signals_outbox_absent t_id t_ts body s ws Hget) as Ho.
    destruct (post_signals X t_id t_ts body s) as [s' r]. simpl in *.
    unfold shut_out. by rewrite Ec, En, Ho.
  - done.
  - pose proof (trade_open_frame X t_auth a t_id t_open body s) as (_ & _ & Ec & En & _).
    pose proof (trade_open_outbox_absent t_auth a t_id t_open body s ws Hget) as Ho.
    destruct (trade_open X t_auth a t_id t_open body s) as [s' r]. simpl in *.
    unfold shut_out. by rewrite Ec, En, Ho.
  - pose proof (trade_close_frame X t_auth a pid s) as (_ & _ & Ec & En & _ & Eh & _).
    destruct (trade_close X t_auth a pid s) as [s' r]. simpl in *.
    unfold shut_out. by rewrite Ec, En, Eh.
  - assert (Hne : next_ws s <> ws) by lia.
    unfold on_connection, shut_out. repeat case_match; simpl;
      rewrite ?outbox_ws_on_close, ?outbox_ws_close,
        ?(outbox_ws_send_other _ _ _ _ Hne), ?(outbox_insert_other _ _ _ _ Hne),
        ?(get_set_ne Nat.eqb Nat.eqb_eq _ _ _ _ Hne);
      split_and!; try done; lia.
  - unfold shut_out. simpl. by rewrite outbox_ws_close.
  - unfold socket_closed, on_close, shut_out.
    destruct (sockets s !! w) as [sk|] eqn:Hsk; [|done].
    assert (Hsame :
              outbox (<[w := Socket.mk CLOSED (Socket.sent sk) (Socket.close_listener sk)]>
                        (sockets s)) ws = outbox (sockets s) ws).
    { unfold outbox.
      destruct (decide (w = ws)) as [->|Hne];
        [by rewrite lookup_insert_eq, Hsk | by rewrite lookup_insert_ne]. }
    destruct (Socket.close_listener sk) eqn:Hl; simpl; rewrite Hsame;
      split_and!; try done; by apply get_delete_None.
  - pose proof (tick_frame X random s) as (_ & _ & Ec & En & _).
    pose proof (tick_outbox_absent random s ws Hget) as Ho.
    simpl in *. unfold shut_out. by rewrite Ec, En, Ho.
Qed.

Lemma run_shut_out evs s ws : shut_out ws s -> shut_out ws (run X evs s).
Proof.
  unfold run. revert s.
  induction evs as [|e evs IH]; intros s H; simpl; [done|].
  apply IH. by apply step_shut_out.
Qed.

(** C2.  From any state the server can reach, when a connection arrives whose
    handshake carries no token, or a token that fails verification, its socket
    is not in [activeConnections] and nothing has been sent on it, right after
    the handshake and after any further sequence of events: it is never
    registered and never receives an init, signal or position event. *)
Theorem rejected_connection_never_served
    (evs0 : list Event) (now : Z) (token : option string) (evs : list Event) :
  no_valid_token X now token ->
  let s := run X evs0 initial_state in
  let ws := next_ws s in
  let s' := run X (EvConnection now token :: evs) s in
  JSMap.get Nat.eqb ws (activeConnections s') = None /\
  outbox (sockets s') ws = [].
Proof.
  intros Hrej s ws s'.
  assert (Hwf : state_wf s) by apply run_wf, initial_state_wf.
  destruct Hwf as (_ & Hlt & _).
  assert (H1 : shut_out ws (fst (step X (EvConnection now token) s))).
  { simpl. rewrite on_connection_rejected by done. unfold shut_out. simpl.
    split_and!.
    - apply (get_None Nat.eqb Nat.eqb_eq). intros Hin. apply Hlt in Hin.
      fold ws in Hin. lia.
    - rewrite outbox_ws_close. unfold outbox. by rewrite lookup_insert_eq.
    - fold ws. lia. }
  apply (run_shut_out evs) in H1. destruct H1 as (Hg & Ho & _). done.
Qed.

End Gateway.

Lemma rejected_connection_never_served_witness :
  no_valid_token demo 1700000000010 (Some "forged"%string) /\
  let s := run demo demo_events initial_state in
  let ws := next_ws s in
  let s' := run demo (EvConnection 1700000000010 (Some "forged"%string)
                        :: demo_followup) s in
  JSMap.get Nat.eqb ws (activeConnections s') = None /\
  outbox (sockets s') ws = [].
Proof.
  assert (H : no_valid_token demo 1700000000010 (Some "forged"%string)).
  { right. exists "forged"%string. split; [reflexivity|]. vm_compute. reflexivity. }
  split; [exact H|].
  exact (rejected_connection_never_served demo demo_events 1700000000010
           (Some "forged"%string) demo_followup H).
Defined.

(** ** Signal ingestion *)

Ltac case_prop :=
  match goal with
  | |- context [get_prop ?v ?k] => destruct (get_prop v k) eqn:?; simpl
  | |- context [template_literal ?l] =>
      destruct (template_literal l) as [[]|] eqn:?; simpl
  end.

Section Signals.
Context (X : Externals).

Lemma push_signal_spec sig l :
  (length l <= 50)%nat ->
  ((length l < 50)%nat /\ push_signal sig l = l ++ [sig]) \/
  (length l = 50%nat /\
   exists oldest rest, l = oldest :: rest /\ push_signal sig l = rest ++ [sig]).
Proof.
  intros Hl. unfold push_signal. rewrite length_app. simpl.
  destruct (50 <? length l + 1)%nat eqn:E.
  - apply Nat.ltb_lt in E. right. split; [lia|].
    destruct l as [|oldest rest]; simpl in *; [lia|]. by exists oldest, rest.
  - apply Nat.ltb_ge in E. left. split; [lia|done].
Qed.

Lemma post_signals_accepted t_id t_ts body s :
  status (snd (post_signals X t_id t_ts body s)) = 200 ->
  exists newSignal,
    Signal.id newSignal = toString t_id /\
    Signal.timestamp newSignal = t_ts /\
    json (snd (post_signals X t_id t_ts body s)) = JSignalAck (toString t_id) /\
    signals (fst (post_signals X t_id t_ts body s)) =
      push_signal newSignal (signals s) /\
    sockets (fst (post_signals X t_id t_ts body s)) =
      broadcastSignal newSignal (activeConnections s) (sockets s).
Proof.
  unfold post_signals. repeat case_prop; try discriminate;
    (destruct (negb (strict_eq _ _)); simpl; try discriminate).
  intros _. eexists (Signal.mk _ _ _ _ _ _ _ _). split_and!; reflexivity.
Qed.

(** C3.  In every state the server reaches the signal sequence has at most 50
    entries; an accepted ingestion request appends the new signal at the back,
    and when the sequence already holds 50 signals the one at the front (the
    oldest) is the one removed. *)
Theorem signals_bounded_fifo
    (evs : list Event) (t_id t_ts : Z) (body : jsval) :
  let s := run X evs initial_state in
  let s' := fst (post_signals X t_id t_ts body s) in
  (length (signals s) <= 50)%nat /\
  (length (signals s') <= 50)%nat /\
  (status (snd (post_signals X t_id t_ts body s)) = 200 ->
   exists newSignal,
     Signal.id newSignal = toString t_id /\
     Signal.timestamp newSignal = t_ts /\
     (((length (signals s) < 50)%nat /\
       signals s' = signals s ++ [newSignal]) \/
      (length (signals s) = 50%nat /\
       exists oldest rest,
         signals s = oldest :: rest /\ signals s' = rest ++ [newSignal]))).
Proof.
  intros s s'.
  assert (Hwf : state_wf s) by apply run_wf, initial_state_wf.
  assert (Hwf' : state_wf s').
  { apply (step_wf X (EvPostSignals t_id t_ts body) s) in Hwf. simpl in Hwf.
    subst s'. by destruct (post_signals X t_id t_ts body s). }
  destruct Hwf as (_ & _ & _ & Hlen). destruct Hwf' as (_ & _ & _ & Hlen').
  split_and!; [done|done|].
  intros Hok. apply post_signals_accepted in Hok
    as (newSignal & Hid & Hts & _ & Hsig & _).
  exists newSignal. split_and!; [done|done|].
  subst s'. rewrite Hsig. by apply push_signal_spec.
Qed.

End Signals.

Lemma signals_bounded_fifo_witness :
  status (snd (post_signals demo 1700000001050 1700000001050 signal_body
                 (run demo fifty_signals initial_state))) = 200 /\
  let s := run demo fifty_signals initial_state in
  let s' := fst (post_signals demo 1700000001050 1700000001050 signal_body s) in
  exists newSignal,
     Signal.id newSignal = toString 1700000001050 /\
     Signal.timestamp newSignal = 1700000001050 /\
     (((length (signals s) < 50)%nat /\
       signals s' = signals s ++ [newSignal]) \/
      (length (signals s) = 50%nat /\
       exists oldest rest,
         signals s = oldest :: rest /\ signals s' = rest ++ [newSignal])).
Proof.
  assert (H : status (snd (post_signals demo 1700000001050 1700000001050 signal_body
                 (run demo fifty_signals initial_state))) = 200).
  { vm_compute. reflexivity. }
  split; [exact H|].
  exact (proj2 (proj2 (signals_bounded_fifo demo fifty_signals
                         1700000001050 1700000001050 signal_body)) H).
Defined.

(** ** Reading signals *)

Section ReadSignals.
Context (X : Externals).

Lemma filter_recent_elem clock i l sg :
  sg ∈ filter_recent clock i l <->
  exists j, l !! j = Some sg /\ clock (i + j)%nat - Signal.timestamp sg < 3600000.
Proof.
  revert i. induction l as [|s l IH]; intros i; simpl.
  - split; [by intros ?%elem_of_nil|by intros (j & ? & _)].
  - assert (Hshift : (exists j, l !! j = Some sg /\
                        clock (S i + j)%nat - Signal.timestamp sg < 3600000) <->
                     (exists j, (s :: l) !! S j = Some sg /\
                        clock (i + S j)%nat - Signal.timestamp sg < 3600000)).
    { split; intros (j & Hj & Hc); exists j; split; try done;
        by rewrite Nat.add_succ_r in *. }
    destruct (clock i - Signal.timestamp s <? 3600000) eqn:E.
    + rewrite elem_of_cons, IH, Hshift. split.
      * intros [->|(j & Hj & Hc)]; [|by exists (S j)].
        exists 0%nat. rewrite Nat.add_0_r. split; [done|]. by apply Z.ltb_lt.
      * intros ([|j] & Hj & Hc); [left; by injection Hj|right; by exists j].
    + rewrite IH, Hshift. split.
      * intros (j & Hj & Hc). by exists (S j).
      * intros ([|j] & Hj & Hc); [|by exists j].
        injection Hj as ->. rewrite Nat.add_0_r in Hc.
        apply Z.ltb_ge in E. lia.
Qed.

Lemma filter_recent_sublist clock i l : filter_recent clock i l `sublist_of` l.
Proof.
  revert i. induction l as [|s l IH]; intros i; simpl; [constructor|].
  destruct (clock i - Signal.timestamp s <? 3600000).
  - by apply sublist_skip.
  - by apply sublist_cons.
Qed.

(** C6.  An authenticated read of [/api/signals] answers 200 with the stored
    signals, in order, that pass the recency test; a stored signal is in the
    answer if and only if the clock read for it, minus its timestamp, is
    below 3,600,000 ms.  When the clock reads [now] throughout the request,
    signal [sg] is returned if and only if [now - sg.timestamp < 3600000]. *)
Theorem get_signals_recent
    (t_auth : Z) (authHeader : option string) (user : Identity.t)
    (clock : nat -> Z) (s : State) :
  authenticateToken X t_auth authHeader = inr user ->
  exists recentSignals,
    get_signals X t_auth authHeader clock s = mkResponse 200 (JSignals recentSignals) /\
    recentSignals `sublist_of` signals s /\
    (forall sg, sg ∈ recentSignals <->
       exists i, signals s !! i = Some sg /\
                 clock i - Signal.timestamp sg < 3600000) /\
    (forall now, (forall i, clock i = now) ->
       forall sg, sg ∈ signals s ->
         (sg ∈ recentSignals <-> now - Signal.timestamp sg < 3600000)).
Proof.
  intros Hauth. exists (filter_recent clock 0 (signals s)).
  unfold get_signals. rewrite Hauth. split_and!.
  - done.
  - apply filter_recent_sublist.
  - intros sg. apply filter_recent_elem.
  - intros now Hnow sg Hin. rewrite filter_recent_elem. split.
    + intros (j & _ & Hc). by rewrite Hnow in Hc.
    + intros Hc. apply list_elem_of_lookup in Hin as [j Hj].
      exists j. by rewrite Hnow.
Qed.

End ReadSignals.

Lemma get_signals_recent_witness :
  authenticateToken demo 1700000000030 (Some "Bearer token-1001"%string) = inr alice /\
  exists recentSignals,
    get_signals demo 1700000000030 (Some "Bearer token-1001"%string)
      (fun _ => 1700003600003) demo_state = mkResponse 200 (JSignals recentSignals) /\
    recentSignals `sublist_of` signals demo_state /\
    (forall sg, sg ∈ recentSignals <->
       exists i, signals demo_state !! i = Some sg /\
                 (fun _ : nat => 1700003600003) i - Signal.timestamp sg < 3600000) /\
    (forall now, (forall i, (fun _ : nat => 1700003600003) i = now) ->
       forall sg, sg ∈ signals demo_state ->
         (sg ∈ recentSignals <-> now - Signal.timestamp sg < 3600000)).
Proof.
  assert (H : authenticateToken demo 1700000000030
                (Some "Bearer token-1001"%string) = inr alice).
  { vm_compute. reflexivity. }
  split; [exact H|].
  exact (get_signals_recent demo 1700000000030 (Some "Bearer token-1001"%string)
           alice (fun _ => 1700003600003) demo_state H).
Defined.

(** ** The handshake of a valid token *)

Section Handshake.
Context (X : Externals).

Lemma slice_last_spec {A : Type} (n : nat) (l : list A) :
  (exists older, l = older ++ slice_last n l) /\
  length (slice_last n l) = Nat.min n (length l) /\
  ((length l <= n)%nat -> slice_last n l = l).
Proof.
  unfold slice_last. split_and!.
  - exists (take (length l - n) l). by rewrite take_drop.
  - rewrite length_drop. lia.
  - intros Hle. by replace (length l - n)%nat with 0%nat by lia.
Qed.

(** X21.  When a connection arrives with a non-empty token that verifies and
    whose account number converts to a string, the gateway binds the new
    socket to the decoded identity in [activeConnections], attaches the
    ['close'] listener and sends on the socket exactly one message, the init
    snapshot, which carries the last 10 signals of the sequence (all of them
    when there are at most 10); the socket stays open and nothing is sent on
    any other socket. *)
Theorem valid_connection_registered
    (s : State) (now : Z) (tok : string) (decoded : Identity.t) :
  truthy_string tok = true ->
  jwt_verify X now tok = Some decoded ->
  to_log_string (Identity.accountNumber decoded) = Ok tt ->
  let ws := next_ws s in
  let s' := fst (step X (EvConnection now (Some tok)) s) in
  let snapshot := slice_last 10 (signals s) in
  JSMap.get Nat.eqb ws (activeConnections s') = Some decoded /\
  sockets s' !! ws = Some (Socket.mk OPEN [MsgInit snapshot] true) /\
  outbox (sockets s') ws = [MsgInit snapshot] /\
  (forall ws', ws' <> ws -> outbox (sockets s') ws' = outbox (sockets s) ws') /\
  (exists older, signals s = older ++ snapshot) /\
  length snapshot = Nat.min 10 (length (signals s)) /\
  ((length (signals s) <= 10)%nat -> snapshot = signals s).
Proof.
  intros Htok Hv Hlog ws s' snapshot.
  destruct (slice_last_spec 10 (signals s)) as (Hsuffix & Hlen & Hall).
  subst s'. simpl. unfold on_connection. rewrite Htok, Hv.
  unfold template_literal. rewrite Hlog. simpl.
  assert (Hsock : ws_on_close ws
            (ws_send ws (MsgInit (slice_last 10 (signals s)))
               (<[ws := Socket.mk OPEN [] false]> (sockets s))) !! ws =
          Some (Socket.mk OPEN [MsgInit snapshot] true)).
  { unfold ws_on_close, ws_send. rewrite lookup_insert_eq. simpl.
    rewrite lookup_insert_eq. simpl. by rewrite lookup_insert_eq. }
  split_and!; try done.
  - apply (get_set_eq Nat.eqb Nat.eqb_eq).
  - unfold outbox. fold ws. by rewrite Hsock.
  - intros ws' Hne.
    rewrite outbox_ws_on_close, outbox_ws_send_other by done.
    by apply outbox_insert_other.
Qed.

(** X22.  When a connection arrives with a non-empty token that verifies and
    whose account number does not convert to a string, the handshake's
    [console.log] throws after [activeConnections.set]: the new socket is in
    the registry, bound to the decoded identity, but it gets no init
    snapshot and no ['close'] listener and is closed; no other socket is
    touched; and when its transport is gone the registry still holds it. *)
Theorem log_failure_leaves_entry
    (s : State) (now : Z) (tok : string) (decoded : Identity.t) :
  truthy_string tok = true ->
  jwt_verify X now tok = Some decoded ->
  to_log_string (Identity.accountNumber decoded) = Throw ->
  let ws := next_ws s in
  let s' := fst (step X (EvConnection now (Some tok)) s) in
  JSMap.get Nat.eqb ws (activeConnections s') = Some decoded /\
  sockets s' !! ws = Some (Socket.mk CLOSING [] false) /\
  (forall ws', ws' <> ws -> sockets s' !! ws' = sockets s !! ws') /\
  JSMap.get Nat.eqb ws (activeConnections (fst (step X (EvSocketClosed ws) s')))
    = Some decoded.
Proof.
  intros Htok Hv Hlog ws s'.
  assert (Es' : s' = with_sockets
                  (<[ws := Socket.mk CLOSING [] false]>
                     (<[ws := Socket.mk OPEN [] false]> (sockets s)))
                  (with_activeConnections
                     (JSMap.set Nat.eqb ws decoded (activeConnections s))
                     (with_next_ws (S ws)
                        (with_sockets (<[ws := Socket.mk OPEN [] false]> (sockets s)) s)))).
  { subst s'. simpl. unfold on_connection. rewrite Htok, Hv.
    unfold template_literal. rewrite Hlog. simpl.
    unfold ws_close. by rewrite lookup_insert_eq. }
  rewrite Es'. simpl. split_and!.
  - apply (get_set_eq Nat.eqb Nat.eqb_eq).
  - by rewrite lookup_insert_eq.
  - intros ws' Hne. by rewrite !lookup_insert_ne.
  - unfold socket_closed. simpl. rewrite lookup_insert_eq. simpl.
    apply (get_set_eq Nat.eqb Nat.eqb_eq).
Qed.

End Handshake.

Lemma valid_connection_registered_witness :
  truthy_string "token-2002" = true /\
  jwt_verify demo 1700000000040 "token-2002" = Some bob /\
  to_log_string (Identity.accountNumber bob) = Ok tt /\
  let ws := next_ws demo_state in
  let s' := fst (step demo (EvConnection 1700000000040 (Some "token-2002"%string))
                   demo_state) in
  let snapshot := slice_last 10 (signals demo_state) in
  JSMap.get Nat.eqb ws (activeConnections s') = Some bob /\
  sockets s' !! ws = Some (Socket.mk OPEN [MsgInit snapshot] true) /\
  outbox (sockets s') ws = [MsgInit snapshot] /\
  (forall ws', ws' <> ws ->
     outbox (sockets s') ws' = outbox (sockets demo_state) ws') /\
  (exists older, signals demo_state = older ++ snapshot) /\
  length snapshot = Nat.min 10 (length (signals demo_state)) /\
  ((length (signals demo_state) <= 10)%nat -> snapshot = signals demo_state).
Proof.
  assert (H1 : truthy_string "token-2002" = true) by reflexivity.
  assert (H2 : jwt_verify demo 1700000000040 "token-2002" = Some bob).
  { vm_compute. reflexivity. }
  assert (H3 : to_log_string (Identity.accountNumber bob) = Ok tt) by reflexivity.
  split; [exact H1|]. split; [exact H2|]. split; [exact H3|].
  exact (valid_connection_registered demo demo_state 1700000000040
           "token-2002" bob H1 H2 H3).
Defined.

Lemma log_failure_leaves_entry_witness :
  let decoded := Identity.mk object_account (VStr "Demo") in
  truthy_string "token-object" = true /\
  jwt_verify demo 1700000000040 "token-object" = Some decoded /\
  to_log_string (Identity.accountNumber decoded) = Throw /\
  let ws := next_ws demo_state in
  let s' := fst (step demo (EvConnection 1700000000040 (Some "token-object"%string))
                   demo_state) in
  JSMap.get Nat.eqb ws (activeConnections s') = Some decoded /\
  sockets s' !! ws = Some (Socket.mk CLOSING [] false) /\
  (forall ws', ws' <> ws -> sockets s' !! ws' = sockets demo_state !! ws') /\
  JSMap.get Nat.eqb ws (activeConnections (fst (step demo (EvSocketClosed ws) s')))
    = Some decoded.
Proof.
  intros decoded.
  assert (H1 : truthy_string "token-object" = true) by reflexivity.
  assert (H2 : jwt_verify demo 1700000000040 "token-object" = Some decoded).
  { vm_compute. reflexivity. }
  assert (H3 : to_log_string (Identity.accountNumber decoded) = Throw) by reflexivity.
  split; [exact H1|]. split; [exact H2|]. split; [exact H3|].
  exact (log_failure_leaves_entry demo demo_state 1700000000040
           "token-object" decoded H1 H2 H3).
Defined.

(** C7.  The handshake registers the socket before it logs the account
    number, and the log throws for an account number that is an object with
    a member named [toString].  On the demo server the login route registers
    such an account and issues the token ["token-object"] for it; the token
    verifies; the first connection that presents it is put in the registry,
    bound to the decoded identity, receives no init snapshot, is closed and
    gets no ['close'] listener; after its transport is gone it is still in
    the registry, and a signal ingested then is not sent to it. *)
Theorem object_account_connection_not_served :
  let decoded := Identity.mk object_account (VStr "Demo") in
  responses demo object_login initial_state =
    [None; None;
     Some (mkResponse 200 (JLogin "token-object" object_account (VStr "Demo")))] /\
  jwt_verify demo 1700000000062 "token-object" = Some decoded /\
  let s := run demo object_login initial_state in
  let s' := fst (step demo (EvConnection 1700000000062 (Some "token-object"%string)) s) in
  let s'' := run demo [EvSocketClosed 0;
                       EvPostSignals 1700000000063 1700000000063 signal_body] s' in
  next_ws s = 0%nat /\
  activeConnections s' = [(0%nat, decoded)] /\
  sockets s' !! 0%nat = Some (Socket.mk CLOSING [] false) /\
  activeConnections s'' = [(0%nat, decoded)] /\
  length (signals s'') = 1%nat /\
  sockets s'' !! 0%nat = Some (Socket.mk CLOSED [] false).
Proof. vm_compute. by split_and!. Qed.

(** ** Positions *)

Section Positions.
Context (X : Externals).

Lemma get_imap_reprice_None (random : nat -> float64) k (m : JSMap.t string Position.t) :
  JSMap.get String.eqb k m = None ->
  JSMap.get String.eqb k
    (imap (fun j kv => (fst kv, reprice X (random j) (snd kv))) m) = None.
Proof.
  rewrite !(get_None String.eqb String.eqb_eq).
  by rewrite keys_imap_reprice.
Qed.

Lemma get_delete_absent k k' (m : JSMap.t string Position.t) :
  JSMap.get String.eqb k m = None ->
  JSMap.get String.eqb k (JSMap.delete String.eqb k' m) = None.
Proof.
  rewrite !(get_None String.eqb String.eqb_eq). intros Hnotin Hin.
  apply Hnotin. by eapply keys_delete_incl.
Qed.

(** An id that is not filed stays so until a request files a position
    under it. *)
Lemma step_positions_absent e s k :
  opens_id k e = false ->
  JSMap.get String.eqb k (positions s) = None ->
  JSMap.get String.eqb k (positions (fst (step X e s))) = None.
Proof.
  intros Hopen Hget.
  destruct e as [body|i salt now|t_auth a clock|t_id t_ts body|t_auth a
                |t_auth a t_id t_open body|t_auth a pid|now token|w|w|random];
    simpl.
  - destruct (login_begin body (users s)); done.
  - destruct (pending s !! i); [|done].
    destruct (login_resume X _ salt now _) as [us [task'|r]]; done.
  - done.
  - pose proof (post_signals_frame X t_id t_ts body s) as (_ & Ep & _).
    destruct (post_signals X t_id t_ts body s) as [s' r]. simpl in *. by rewrite Ep.
  - done.
  - pose proof (trade_open_frame X t_auth a t_id t_open body s)
      as (_ & _ & _ & _ & _ & Ep).
    destruct (trade_open X t_auth a t_id t_open body s) as [s' r]. simpl in *.
    destruct Ep as [->|(p & _ & ->)]; [done|].
    rewrite (get_set_ne String.eqb String.eqb_eq); [done|].
    intros Heq. apply String.eqb_neq in Hopen. done.
  - pose proof (trade_close_frame X t_auth a pid s)
      as (_ & _ & _ & _ & _ & _ & Ep).
    destruct (trade_close X t_auth a pid s) as [s' r]. simpl in *.
    destruct Ep as [->| ->]; [done|by apply get_delete_absent].
  - pose proof (on_connection_frame X now (next_ws s) token
                  (snd (accept_socket s))) as (_ & _ & Ep & _).
    simpl in *. by rewrite Ep.
  - done.
  - pose proof (socket_closed_frame w s) as (_ & _ & Ep & _).
    simpl in *. by rewrite Ep.
  - pose proof (tick_frame X random s) as (_ & _ & _ & _ & _ & Ep).
    simpl in *. rewrite Ep. by apply get_imap_reprice_None.
Qed.

Lemma run_positions_absent evs s k :
  forallb (fun e => negb (opens_id k e)) evs = true ->
  JSMap.get String.eqb k (positions s) = None ->
  JSMap.get String.eqb k (positions (run X evs s)) = None.
Proof.
  unfold run. revert s.
  induction evs as [|e evs IH]; intros s Hno Hget; simpl in *; [done|].
  apply andb_true_iff in Hno as [He Hno]. apply negb_true_iff in He.
  apply IH; [done|]. by apply step_positions_absent.
Qed.

(** No listing shows a position whose id is not filed. *)
Lemma positions_of_absent accountNumber m k q :
  positions_wf m ->
  JSMap.get String.eqb k m = None ->
  q ∈ positions_of accountNumber m ->
  Position.id q <> k.
Proof.
  intros [_ Hf] Hget Hq Hid.
  unfold positions_of in Hq. apply list_elem_of_In, filter_In in Hq as [Hq _].
  apply list_elem_of_In in Hq. unfold JSMap.values in Hq.
  apply list_elem_of_fmap in Hq as ([k' q'] & -> & Hin). simpl in *.
  pose proof (proj1 (Forall_forall _ _) Hf _ Hin) as Hk. simpl in Hk.
  apply (get_None String.eqb String.eqb_eq) in Hget. apply Hget.
  apply (list_elem_of_fmap_2 fst) in Hin. simpl in Hin.
  rewrite <- Hid, Hk. exact Hin.
Qed.

Lemma authenticateToken_refusal t_auth authHeader r :
  authenticateToken X t_auth authHeader = inl r ->
  status r = 401 \/ status r = 403.
Proof.
  unfold authenticateToken. repeat case_match; intros [= <-]; simpl; auto.
Qed.

(** C5.  A close request from an authenticated caller, in any state the
    server reaches: when the id is not in [positions], or the position filed
    under it belongs to an account that is not [===] the caller's, the answer
    is 404 "Position not found" and the state is unchanged; when the caller
    owns the position the answer is 200 [{success: true}], the entry is
    deleted, and from then on, until a request files a new position under the
    same id, no position listing shows a position with that id. *)
Theorem trade_close_owner_only
    (evs : list Event) (t_auth : Z) (authHeader : option string)
    (user : Identity.t) (positionId : string) :
  authenticateToken X t_auth authHeader = inr user ->
  let s := run X evs initial_state in
  let caller := Identity.accountNumber user in
  let s' := fst (trade_close X t_auth authHeader positionId s) in
  let r := snd (trade_close X t_auth authHeader positionId s) in
  ((JSMap.get String.eqb positionId (positions s) = None \/
    exists p, JSMap.get String.eqb positionId (positions s) = Some p /\
              strict_eq (Position.accountNumber p) caller = false) ->
   r = mkResponse 404 (JError "Position not found") /\ s' = s) /\
  (forall p,
     JSMap.get String.eqb positionId (positions s) = Some p ->
     strict_eq (Position.accountNumber p) caller = true ->
     r = mkResponse 200 JSuccess /\
     positions s' = JSMap.delete String.eqb positionId (positions s) /\
     JSMap.get String.eqb positionId (positions s') = None /\
     forall later t_auth' authHeader' listing,
       forallb (fun e => negb (opens_id positionId e)) later = true ->
       get_positions X t_auth' authHeader' (run X later s') =
         mkResponse 200 (JPositions listing) ->
       Forall (fun q => Position.id q <> positionId) listing).
Proof.
  intros Hauth s caller s' r.
  assert (Hwf : state_wf s) by apply run_wf, initial_state_wf.
  subst s' r. unfold trade_close. rewrite Hauth. fold caller. split.
  - intros [->|(p & -> & ->)]; done.
  - intros p -> ->. simpl.
    assert (Hgone : JSMap.get String.eqb positionId
                      (JSMap.delete String.eqb positionId (positions s)) = None).
    { apply (get_delete_eq String.eqb String.eqb_eq). apply Hwf. }
    split_and!; try done.
    intros later t_auth' authHeader' listing Hno Hlist.
    set (s1 := with_positions _ s) in *.
    assert (Hwf1 : state_wf (run X later s1)).
    { apply run_wf. destruct Hwf as (Hu & Hlt & Hp & Hs).
      unfold s1, state_wf. simpl. split_and!; try done.
      by apply positions_wf_delete. }
    assert (Habs : JSMap.get String.eqb positionId
                     (positions (run X later s1)) = None).
    { by apply run_positions_absent. }
    unfold get_positions in Hlist.
    destruct (authenticateToken X t_auth' authHeader') as [r'|user'] eqn:Ha.
    + apply authenticateToken_refusal in Ha. subst r'. simpl in Ha.
      destruct Ha; discriminate.
    + cbv zeta in Hlist. destruct (template_literal _); [|discriminate].
      injection Hlist as <-. apply Forall_forall. intros q Hq.
      destruct Hwf1 as (_ & _ & Hp1 & _).
      by eapply positions_of_absent.
Qed.

End Positions.

Lemma trade_close_owner_only_witness :
  authenticateToken demo 1700000000050 (Some "Bearer token-1001"%string) = inr alice /\
  let positionId := "1700000000004"%string in
  let s := run demo demo_events initial_state in
  let caller := Identity.accountNumber alice in
  let s' := fst (trade_close demo 1700000000050 (Some "Bearer token-1001"%string)
                   positionId s) in
  let r := snd (trade_close demo 1700000000050 (Some "Bearer token-1001"%string)
                  positionId s) in
  ((JSMap.get String.eqb positionId (positions s) = None \/
    exists p, JSMap.get String.eqb positionId (positions s) = Some p /\
              strict_eq (Position.accountNumber p) caller = false) ->
   r = mkResponse 404 (JError "Position not found") /\ s' = s) /\
  (forall p,
     JSMap.get String.eqb positionId (positions s) = Some p ->
     strict_eq (Position.accountNumber p) caller = true ->
     r = mkResponse 200 JSuccess /\
     positions s' = JSMap.delete String.eqb positionId (positions s) /\
     JSMap.get String.eqb positionId (positions s') = None /\
     forall later t_auth' authHeader' listing,
       forallb (fun e => negb (opens_id positionId e)) later = true ->
       get_positions demo t_auth' authHeader' (run demo later s') =
         mkResponse 200 (JPositions listing) ->
       Forall (fun q => Position.id q <> positionId) listing).
Proof.
  assert (H : authenticateToken demo 1700000000050
                (Some "Bearer token-1001"%string) = inr alice).
  { vm_compute. reflexivity. }
  split; [exact H|].
  exact (trade_close_owner_only demo demo_events 1700000000050
           (Some "Bearer token-1001"%string) alice "1700000000004"%string H).
Defined.

(** ** Ids *)

Lemma to_int_not_nil z : Z.to_int z <> Decimal.Pos Decimal.Nil /\
                         Z.to_int z <> Decimal.Neg Decimal.Nil.
Proof.
  split; intros H; pose proof (DecimalZ.of_to z) as Hz; rewrite H in Hz;
    simpl in Hz; subst z; discriminate.
Qed.

Lemma toString_inj t1 t2 : toString t1 = toString t2 -> t1 = t2.
Proof.
  unfold toString. intros H. apply DecimalZ.to_int_inj.
  destruct (to_int_not_nil t1) as [H1 H1'], (to_int_not_nil t2) as [H2 H2'].
  pose proof (NilZero.isi _ H1 H1') as E1.
  pose proof (NilZero.isi _ H2 H2') as E2.
  rewrite H in E1. rewrite E1 in E2. by injection E2.
Qed.


Section Ids.
Context (X : Externals).

Lemma trade_open_accepted t_auth authHeader t_id t_open body s :
  status (snd (trade_open X t_auth authHeader t_id t_open body s)) = 200 ->
  exists user position,
    authenticateToken X t_auth authHeader = inr user /\
    Position.id position = toString t_id /\
    Position.accountNumber position = Identity.accountNumber user /\
    Position.openTime position = t_open /\
    snd (trade_open X t_auth authHeader t_id t_open body s) =
      mkResponse 200 (JTradeAck (toString t_id)) /\
    positions (fst (trade_open X t_auth authHeader t_id t_open body s)) =
      JSMap.set String.eqb (toString t_id) position (positions s).
Proof.
  unfold trade_open.
  destruct (authenticateToken X t_auth authHeader) as [r|user] eqn:Ha; simpl.
  - intros Hr. apply authenticateToken_refusal in Ha.
    rewrite Hr in Ha. destruct Ha; discriminate.
  - repeat case_prop; try discriminate.
    intros _. exists user. eexists (Position.mk _ _ _ _ _ _ _ _ _ _ _).
    split_and!; reflexivity.
Qed.


End Ids.


(** ** Malformed ingestion requests *)

Section Malformed.
Context (X : Externals).

(** C8, as the code has it.  With the right API key, a request whose body has
    no [signal] ([undefined] or [null]) is answered 500 "Failed to process
    signal" and changes nothing; with the right key the handler answers 200
    or 500, never a 4xx status. *)
Theorem post_signals_missing_signal
    (t_id t_ts : Z) (body : jsval) (s : State) (apiKey : jsval) :
  get_prop body "apiKey" = Ok apiKey ->
  strict_eq apiKey (MT4_API_KEY X) = true ->
  let out := post_signals X t_id t_ts body s in
  ((get_prop body "signal" = Ok VUndefined \/ get_prop body "signal" = Ok VNull) ->
   out = (s, mkResponse 500 (JError "Failed to process signal"))) /\
  (status (snd out) = 200 \/ status (snd out) = 500) /\
  is_4xx (snd out) = false.
Proof.
  intros Hkey Heq out.
  assert (Hstatus : status (snd out) = 200 \/ status (snd out) = 500).
  { subst out. unfold post_signals. rewrite Hkey. simpl.
    destruct (get_prop body "signal") as [signal|]; simpl; [|by right].
    rewrite Heq. simpl. repeat case_prop; auto. }
  split_and!.
  - subst out. unfold post_signals. rewrite Hkey. simpl.
    intros [-> | ->]; simpl; by rewrite Heq.
  - exact Hstatus.
  - unfold is_4xx. by destruct Hstatus as [-> | ->].
Qed.

End Malformed.

Lemma post_signals_missing_signal_witness :
  get_prop keyed_body_without_signal "apiKey" = Ok (VStr "mt4-secret") /\
  strict_eq (VStr "mt4-secret") (MT4_API_KEY demo) = true /\
  let out := post_signals demo 1700000000060 1700000000060
               keyed_body_without_signal demo_state in
  ((get_prop keyed_body_without_signal "signal" = Ok VUndefined \/
    get_prop keyed_body_without_signal "signal" = Ok VNull) ->
   out = (demo_state, mkResponse 500 (JError "Failed to process signal"))) /\
  (status (snd out) = 200 \/ status (snd out) = 500) /\
  is_4xx (snd out) = false.
Proof.
  assert (H1 : get_prop keyed_body_without_signal "apiKey" = Ok (VStr "mt4-secret"))
    by reflexivity.
  assert (H2 : strict_eq (VStr "mt4-secret") (MT4_API_KEY demo) = true)
    by reflexivity.
  split; [exact H1|]. split; [exact H2|].
  exact (post_signals_missing_signal demo 1700000000060 1700000000060
           keyed_body_without_signal demo_state (VStr "mt4-secret") H1 H2).
Defined.

(** C8 as stated fails: the request carries the right key and no signal, and
    the answer is 500, which is not a 4xx status. *)
Lemma post_signals_missing_signal_counterexample :
  strict_eq (VStr "mt4-secret") (MT4_API_KEY demo) = true /\
  get_prop keyed_body_without_signal "apiKey" = Ok (VStr "mt4-secret") /\
  get_prop keyed_body_without_signal "signal" = Ok VUndefined /\
  snd (post_signals demo 1700000000060 1700000000060
         keyed_body_without_signal initial_state) =
    mkResponse 500 (JError "Failed to process signal") /\
  is_4xx (snd (post_signals demo 1700000000060 1700000000060
                 keyed_body_without_signal initial_state)) = false.
Proof. split_and!; vm_compute; reflexivity. Qed.

(** ** Login *)

Section Login.
Context (X : Externals).

Lemma login_resume_401 task salt now us us' r :
  bcrypt_sound X ->
  login_resume X task salt now us = (us', Finished r) ->
  status r = 401 ->
  exists accountNumber p user,
    task = AwaitCompare accountNumber (VStr p) user /\
    us' = us /\
    bcrypt_compare X p (User.password user) = false /\
    forall p0 salt0, User.password user = bcrypt_hash X p0 salt0 -> p0 <> p.
Proof.
  intros Hb Hres H401.
  destruct task as [acc pw|acc pw user]; simpl in Hres.
  - destruct (bcrypt_hash_js X pw salt); [discriminate|].
    injection Hres as <- <-. discriminate.
  - destruct pw as [| |b|x|p|fields]; simpl in Hres;
      try (injection Hres as <- <-; discriminate).
    destruct (bcrypt_compare X p (User.password user)) eqn:Hc.
    { destruct (jwt_sign X _ now); injection Hres as <- <-; discriminate. }
    injection Hres as <- <-.
    exists acc, p, user. split_and!; try done.
    intros p0 salt0 Hpw ->. rewrite Hpw, Hb in Hc. discriminate.
Qed.

(** C9, as the code has it.  A login for an account that is not in [users]
    and whose password is a string always creates the user: the handler
    suspends on [bcrypt.hash]; whatever the other handlers did to [users]
    meanwhile, its continuation stores a new demo user holding the hash of
    the supplied password, and the last segment, whose compare succeeds,
    signs: it answers 200 with the token for that account when [jwt.sign]
    returns one, and 500 "Login failed" when [jwt.sign] throws, the user
    staying stored.  A 401 is answered only by the compare segment, for a
    string password that does not match the stored hash, hence differs from
    the password the hash was made of; that segment's user is either the one
    found in [users] when the request arrived, or the one this request just
    created, which matches.  Run without interleaving, a login answers 401
    only when the account was in [users] on arrival, registered with another
    password. *)
Theorem login_unknown_account
    (body : jsval) (us : JSMap.t jsval User.t) (accountNumber : jsval) (p : string) :
  bcrypt_sound X ->
  get_prop body "accountNumber" = Ok accountNumber ->
  get_prop body "password" = Ok (VStr p) ->
  JSMap.get same_value_zero accountNumber us = None ->
  (login_begin body us = Suspended (AwaitHash accountNumber (VStr p)) /\
   forall salt now us1,
     let user := User.mk accountNumber (bcrypt_hash X p salt) (VStr "Demo") true now in
     login_resume X (AwaitHash accountNumber (VStr p)) salt now us1 =
       (JSMap.set same_value_zero accountNumber user us1,
        Suspended (AwaitCompare accountNumber (VStr p) user)) /\
     forall salt' now' us2,
       login_resume X (AwaitCompare accountNumber (VStr p) user) salt' now' us2 =
         (us2, Finished
                 match jwt_sign X (Identity.mk accountNumber (VStr "Demo")) now' with
                 | Some token =>
                     mkResponse 200 (JLogin token accountNumber (VStr "Demo"))
                 | None => mkResponse 500 (JError "Login failed")
                 end)) /\
  (forall salt now1 now2,
     login X body salt now1 now2 us =
       (JSMap.set same_value_zero accountNumber
          (User.mk accountNumber (bcrypt_hash X p salt) (VStr "Demo") true now1) us,
        match jwt_sign X (Identity.mk accountNumber (VStr "Demo")) now2 with
        | Some token => mkResponse 200 (JLogin token accountNumber (VStr "Demo"))
        | None => mkResponse 500 (JError "Login failed")
        end)) /\
  (forall task salt now us1 us1' r,
     login_resume X task salt now us1 = (us1', Finished r) ->
     status r = 401 ->
     exists acc pw user,
       task = AwaitCompare acc (VStr pw) user /\
       forall p0 salt0, User.password user = bcrypt_hash X p0 salt0 -> p0 <> pw) /\
  (forall body' us' acc pw user,
     login_begin body' us' = Suspended (AwaitCompare acc pw user) ->
     get_prop body' "accountNumber" = Ok acc /\
     JSMap.get same_value_zero acc us' = Some user) /\
  (forall body' us' salt now1 now2,
     status (snd (login X body' salt now1 now2 us')) = 401 ->
     exists acc pw user,
       get_prop body' "accountNumber" = Ok acc /\
       get_prop body' "password" = Ok (VStr pw) /\
       JSMap.get same_value_zero acc us' = Some user /\
       forall p0 salt0, User.password user = bcrypt_hash X p0 salt0 -> p0 <> pw).
Proof.
  intros Hb Hacc Hpw Hget.
  assert (Hbegin : login_begin body us = Suspended (AwaitHash accountNumber (VStr p))).
  { unfold login_begin. rewrite Hacc, Hpw. simpl. by rewrite Hget. }
  assert (Hcompare : forall user salt' now' us2,
            bcrypt_compare X p (User.password user) = true ->
            login_resume X (AwaitCompare accountNumber (VStr p) user) salt' now' us2 =
              (us2, Finished
                 match jwt_sign X (Identity.mk accountNumber (User.broker user)) now' with
                 | Some token =>
                     mkResponse 200 (JLogin token accountNumber (User.broker user))
                 | None => mkResponse 500 (JError "Login failed")
                 end)).
  { intros user salt' now' us2 Hc. simpl. rewrite Hc.
    by destruct (jwt_sign X _ now'). }
  refine (conj _ (conj _ (conj _ (conj _ _)))).
  - split; [exact Hbegin|]. intros salt now us1 user. split; [reflexivity|].
    intros salt' now' us2. apply (Hcompare user). apply Hb.
  - intros salt now1 now2. unfold login. rewrite Hbegin. simpl.
    rewrite Hb. by destruct (jwt_sign X _ now2).
  - intros task salt now us1 us1' r Hres H401.
    destruct (login_resume_401 _ _ _ _ _ _ Hb Hres H401)
      as (acc & pw & user & -> & _ & _ & Hne).
    by exists acc, pw, user.
  - intros body' us' acc pw user. unfold login_begin.
    destruct (get_prop body' "accountNumber") as [acc'|]; simpl; [|discriminate].
    destruct (get_prop body' "password") as [pw'|]; simpl; [|discriminate].
    destruct (JSMap.get same_value_zero acc' us') as [user'|] eqn:E;
      intros [= <- <- <-]; done.
  - intros body' us' salt now1 now2. unfold login, login_begin.
    destruct (get_prop body' "accountNumber") as [acc'|]; simpl; [|discriminate].
    destruct (get_prop body' "password") as [pw'|]; simpl; [|discriminate].
    destruct (JSMap.get same_value_zero acc' us') as [user'|] eqn:E.
    + destruct (login_resume X (AwaitCompare acc' pw' user') salt now1 us')
        as [us1 [task'|r]] eqn:Hres; simpl.
      * destruct pw'; simpl in Hres; try discriminate.
        destruct (bcrypt_compare X s (User.password user')); [|discriminate].
        destruct (jwt_sign X _ now1); discriminate.
      * intros H401.
        destruct (login_resume_401 _ _ _ _ _ _ Hb Hres H401)
          as (acc & pw & user & [= -> -> ->] & _ & _ & Hne).
        by exists acc, pw, user.
    + destruct pw' as [| |b|x|pw'|fields]; simpl; try discriminate.
      rewrite Hb. simpl. destruct (jwt_sign X _ now2); discriminate.
Qed.

End Login.

Lemma login_unknown_account_witness :
  bcrypt_sound demo /\
  get_prop login_body_3003 "accountNumber" = Ok (VStr "3003") /\
  get_prop login_body_3003 "password" = Ok (VStr "hunter2") /\
  JSMap.get same_value_zero (VStr "3003") (users demo_state) = None /\
  forall salt now1 now2,
    login demo login_body_3003 salt now1 now2 (users demo_state) =
      (JSMap.set same_value_zero (VStr "3003")
         (User.mk (VStr "3003") (bcrypt_hash demo "hunter2" salt) (VStr "Demo") true now1)
         (users demo_state),
       match jwt_sign demo (Identity.mk (VStr "3003") (VStr "Demo")) now2 with
       | Some token => mkResponse 200 (JLogin token (VStr "3003") (VStr "Demo"))
       | None => mkResponse 500 (JError "Login failed")
       end).
Proof.
  assert (H0 : bcrypt_sound demo).
  { intros password salt. apply String.eqb_refl. }
  assert (H1 : get_prop login_body_3003 "accountNumber" = Ok (VStr "3003"))
    by reflexivity.
  assert (H2 : get_prop login_body_3003 "password" = Ok (VStr "hunter2"))
    by reflexivity.
  assert (H3 : JSMap.get same_value_zero (VStr "3003") (users demo_state) = None).
  { vm_compute. reflexivity. }
  split; [exact H0|]. split; [exact H1|]. split; [exact H2|]. split; [exact H3|].
  exact (proj1 (proj2 (login_unknown_account demo login_body_3003 (users demo_state)
                         (VStr "3003") "hunter2" H0 H1 H2 H3))).
Defined.

(** C9 as stated fails.  The account is not in [users] and the password is a
    JSON number: [bcrypt.hash] rejects it and the login answers 500 without
    creating a user.  And on the server started without [JWT_SECRET], the
    account is not in [users] and the password is a string: the user is
    created, [jwt.sign] throws, and the login answers 500. *)
Lemma login_numeric_password_counterexample :
  (get_prop login_body_numeric_password "accountNumber" = Ok (VStr "3003") /\
   JSMap.get same_value_zero (VStr "3003") (users demo_state) = None /\
   login demo login_body_numeric_password "salt" 1700000000080 1700000000081
         (users demo_state) =
     (users demo_state, mkResponse 500 (JError "Login failed"))) /\
  (get_prop login_body_3003 "accountNumber" = Ok (VStr "3003") /\
   get_prop login_body_3003 "password" = Ok (VStr "hunter2") /\
   login demo_no_secret login_body_3003 "salt" 1700000000080 1700000000081 [] =
     ([(VStr "3003",
        User.mk (VStr "3003") "hunter2" (VStr "Demo") true 1700000000080)],
      mkResponse 500 (JError "Login failed"))).
Proof. split_and!; vm_compute; reflexivity. Qed.

(** ** The ticker's arithmetic *)

(** The doubles the price literals denote, and that each is the double
    nearest to the decimal: with [m * 2^-41] the double, the distance
    [|m / 2^41 - n / 100|] is at most half a unit in the last place, 2^-42. *)
Lemma lit_3893_45_value :
  lit_3893_45 = S754_finite false 8561787094328934 (-41) /\
  2 * Z.abs (8561787094328934 * 100 - 389345 * 2 ^ 41) <= 100.
Proof. split; [vm_compute; reflexivity|vm_compute; discriminate]. Qed.

Lemma lit_3893_20_value :
  lit_3893_20 = S754_finite false 8561237338515046 (-41) /\
  2 * Z.abs (8561237338515046 * 100 - 389320 * 2 ^ 41) <= 100.
Proof. split; [vm_compute; reflexivity|vm_compute; discriminate]. Qed.

Section Ticker.
Context (X : Externals).

(** C4, as the code has it.  A tick replaces every position, in place, by its
    repriced version: the current price moves by [(random - 0.5) * 2], and the
    profit is [(currentPrice - entryPrice) * lots * 100] for a BUY position
    and [(entryPrice - currentPrice) * lots * 100] otherwise, each operation
    a binary64 operation.  For the long position entered at 3893.45, priced
    3900.00 after the move, with one lot, the profit so computed is the double
    5761440929546400 * 2^-43 = 655.0000000000182, which is 160 * 2^-43 above
    655; for the short position entered at 3893.20 and priced 3890.00 it is
    5629499534212800 * 2^-44 = 319.9999999999818. *)
Theorem tick_recomputes_profit (random : nat -> float64) (s : State) :
  positions (tick X random s) =
    imap (fun i kv => (fst kv, reprice X (random i) (snd kv))) (positions s) /\
  (forall r p,
     let p' := reprice X r p in
     Position.currentPrice p' =
       fadd (Position.currentPrice p) (fmul (fsub r lit_0_5) lit_2) /\
     Position.entryPrice p' = Position.entryPrice p /\
     Position.lots p' = Position.lots p /\
     Position.type p' = Position.type p /\
     Position.profit p' =
       fmul (fmul (if strict_eq (Position.type p) (VStr "BUY")
                   then fsub (Position.currentPrice p') (Position.entryPrice p)
                   else fsub (Position.entryPrice p) (Position.currentPrice p'))
                  (to_number X (Position.lots p)))
            lit_100) /\
  (let p' := reprice X lit_0_5 long_at_3900 in
   Position.currentPrice p' = of_Z 3900 /\
   Position.profit p' = S754_finite false 5761440929546400 (-43) /\
   exact_value (Position.profit p') = Some (655 * 2 ^ 43 + 160, 2 ^ 43) /\
   exact_value (of_Z 655) = Some (655 * 2 ^ 43, 2 ^ 43)) /\
  (let p' := reprice X lit_0_5 short_at_3890 in
   Position.currentPrice p' = of_Z 3890 /\
   Position.profit p' = S754_finite false 5629499534212800 (-44) /\
   exact_value (Position.profit p') = Some (320 * 2 ^ 44 - 320, 2 ^ 44)).
Proof.
  split_and!.
  - apply (tick_frame X random s).
  - intros r p p'. subst p'. split_and!; reflexivity.
  - vm_compute. split_and!; reflexivity.
  - vm_compute. split_and!; reflexivity.
Qed.

End Ticker.

(** C4 as stated fails on its example: the profit of the long position is a
    double strictly above 655.0. *)
Lemma profit_example_counterexample :
  Position.entryPrice (reprice demo lit_0_5 long_at_3900) = lit_3893_45 /\
  Position.currentPrice (reprice demo lit_0_5 long_at_3900) = of_Z 3900 /\
  Position.lots (reprice demo lit_0_5 long_at_3900) = VNum (of_Z 1) /\
  SFeqb (Position.profit (reprice demo lit_0_5 long_at_3900)) (of_Z 655) = false /\
  SFcompare (Position.profit (reprice demo lit_0_5 long_at_3900)) (of_Z 655) = Some Gt.
Proof. split_and!; vm_compute; reflexivity. Qed.

(** ** Worked runs of the demo server *)

Local Open Scope string_scope.

(** What session 0 (account 1001) has received after the demo run: the init
    snapshot (no signal yet), the signal, and its own position only. *)
Example demo_outbox_0 :
  map (fun m => match m with
                | MsgInit l => ("init", length l)
                | MsgSignal sg => ("signal", 1%nat)
                | MsgPosition p => ("position", 1%nat)
                end) (outbox (sockets demo_state) 0%nat) =
  [("init", 0%nat); ("signal", 1%nat); ("position", 1%nat)]%string.
Proof. vm_compute. reflexivity. Qed.

(** Session 1 (account 2002) got the signal and its own position; session 2
    (account 1001) was closing when they were sent and got neither. *)
Example demo_outbox_1_2 :
  length (outbox (sockets demo_state) 1%nat) = 3%nat /\
  length (outbox (sockets demo_state) 2%nat) = 1%nat.
Proof. vm_compute. split; reflexivity. Qed.

(** The 51st signal evicts the first: ids run from ...1001 to ...1050. *)
Example fifty_first_signal_evicts_first :
  let s := fst (post_signals demo 1700000001050 1700000001050 signal_body
                  (run demo fifty_signals initial_state)) in
  length (signals s) = 50%nat /\
  (Signal.id <$> head (signals s)) = Some "1700000001001"%string /\
  (Signal.id <$> last (signals s)) = Some "1700000001050"%string.
Proof. vm_compute. split_and!; reflexivity. Qed.

(** Account 2002 cannot close the position of account 1001; account 1001
    can, and its listing is empty afterwards. *)
Example close_by_other_then_owner :
  let other := trade_close demo 1700000000050 (Some "Bearer token-2002"%string)
                 "1700000000004" demo_state in
  let owner := trade_close demo 1700000000051 (Some "Bearer token-1001"%string)
                 "1700000000004" (fst other) in
  snd other = mkResponse 404 (JError "Position not found") /\
  fst other = demo_state /\
  snd owner = mkResponse 200 JSuccess /\
  get_positions demo 1700000000052 (Some "Bearer token-1001"%string) (fst owner) =
    mkResponse 200 (JPositions []).
Proof. vm_compute. split_and!; reflexivity. Qed.

(** A second login of account 1001 with another password is refused; with
    the password it registered with, it gets its token. *)
Example relogin :
  snd (login demo (VObj [("accountNumber", VStr "1001"); ("password", VStr "guess")]%string)
         "salt-2" 1700000000090 1700000000091 (users demo_state)) =
    mkResponse 401 (JError "Invalid credentials") /\
  snd (login demo (VObj [("accountNumber", VStr "1001"); ("password", VStr "s3cret")]%string)
         "salt-2" 1700000000090 1700000000091 (users demo_state)) =
    mkResponse 200 (JLogin "token-1001" (VStr "1001") (VStr "Demo")).
Proof. vm_compute. split; reflexivity. Qed.

(** The same numeric-password login, through the event loop: the request
    suspends on [bcrypt.hash] and is answered 500 when it resumes. *)
Example numeric_password_through_the_loop :
  let s1 := fst (step demo (EvLoginRequest login_body_numeric_password) demo_state) in
  pending s1 = [AwaitHash (VStr "3003") (VNum (of_Z 123456))] /\
  snd (step demo (EvLoginResume 0 "salt" 1700000000080) s1) =
    Some (mkResponse 500 (JError "Login failed")) /\
  users (fst (step demo (EvLoginResume 0 "salt" 1700000000080) s1)) = users demo_state.
Proof. vm_compute. split_and!; reflexivity. Qed.

(** Headers: only a second space-separated word is taken as the token. *)
Example authenticate_headers :
  authenticateToken demo 0 None = inl (mkResponse 401 (JError "Access denied")) /\
  authenticateToken demo 0 (Some "token-1001"%string) =
    inl (mkResponse 401 (JError "Access denied")) /\
  authenticateToken demo 0 (Some "Bearer forged"%string) =
    inl (mkResponse 403 (JError "Invalid token")) /\
  authenticateToken demo 0 (Some "Bearer token-2002"%string) = inr bob.
Proof. vm_compute. split_and!; reflexivity. Qed.

(** A tick with every draw at 0.5 leaves the prices where they are; the long
    position of the demo, still at its entry price, has profit 0 and the short
    one, entered 0.25 below the current price, has profit -25. *)
Example demo_tick :
  map (fun kv => (fst kv, Position.profit (snd kv)))
      (positions (tick demo (fun _ => lit_0_5) demo_state)) =
  [("1700000000004"%string, S754_zero false);
   ("1700000000005"%string, S754_finite true 7036874417766400 (-48))].
Proof. vm_compute. reflexivity. Qed.

Local Close Scope string_scope.

(** * Further properties of the handlers *)

(** ** Signal fan-out and ingestion outcomes *)

(** X1.  [broadcastSignal(signal)] appends the signal event, once, to the
    outbox of every registered connection whose socket is open, whatever
    account the connection is bound to; a registered connection whose socket
    is not open, and every socket outside the registry, receives nothing; no
    socket changes its ready state: a socket that is connecting, open,
    closing or closed is so afterwards, and no socket appears or goes. *)
Theorem broadcastSignal_delivery
    (signal : Signal.t) (conns : JSMap.t nat Identity.t) (h : gmap nat Socket.t) :
  unique_keys conns ->
  let h' := broadcastSignal signal conns h in
  (forall ws,
     outbox h' ws =
     outbox h ws ++
     match JSMap.get Nat.eqb ws conns with
     | Some _ => if socket_open h ws then [MsgSignal signal] else []
     | None => []
     end) /\
  (forall ws, ready_state h' ws = ready_state h ws) /\
  (forall ws, socket_open h' ws = socket_open h ws).
Proof.
  intros Hu h'. subst h'. rewrite broadcastSignal_fanout. split_and!.
  - intros ws. rewrite fanout_outbox by done.
    destruct (JSMap.get Nat.eqb ws conns); [|done]. by rewrite andb_true_r.
  - intros ws. apply ready_state_fanout.
  - intros ws. apply fanout_socket_open.
Qed.

Lemma broadcastSignal_delivery_witness :
  unique_keys (activeConnections demo_state) /\
  let conns := activeConnections demo_state in
  let h := sockets demo_state in
  let signal := Signal.mk "1700000000099" (VStr "XAUUSD") (VStr "SELL")
                  VUndefined VUndefined VUndefined VUndefined 1700000000099 in
  let h' := broadcastSignal signal conns h in
  (forall ws,
     outbox h' ws =
     outbox h ws ++
     match JSMap.get Nat.eqb ws conns with
     | Some _ => if socket_open h ws then [MsgSignal signal] else []
     | None => []
     end) /\
  (forall ws, ready_state h' ws = ready_state h ws) /\
  (forall ws, socket_open h' ws = socket_open h ws).
Proof.
  split; [exact demo_connections_unique|].
  exact (broadcastSignal_delivery
           (Signal.mk "1700000000099" (VStr "XAUUSD") (VStr "SELL")
              VUndefined VUndefined VUndefined VUndefined 1700000000099)
           (activeConnections demo_state) (sockets demo_state)
           demo_connections_unique).
Defined.

Section Ingestion.
Context (X : Externals).

Lemma get_prop_readable v k1 k2 x :
  get_prop v k1 = Ok x -> exists y, get_prop v k2 = Ok y.
Proof. destruct v; simpl; try discriminate; eauto. Qed.

Lemma post_signals_statuses t_id t_ts body s :
  let out := post_signals X t_id t_ts body s in
  (status (snd out) = 200 \/ status (snd out) = 401 \/ status (snd out) = 500) /\
  (status (snd out) = 401 \/ status (snd out) = 500 -> fst out = s).
Proof.
  unfold post_signals. repeat case_prop; simpl; auto;
    destruct (negb (strict_eq _ _)); simpl; auto;
    split; auto; intros [?|?]; discriminate.
Qed.

(** X2.  [POST /api/signals] answers 200, 401 or 500, and unless it answers
    200 it has no effect at all: nothing is stored and nothing is broadcast.
    It answers 401 exactly when the body is readable and its [apiKey] is not
    [===] the configured key; that check comes before the signal is looked
    at, so a wrong key is answered 401 also when the signal is missing. *)
Theorem post_signals_all_or_nothing
    (t_id t_ts : Z) (body : jsval) (s : State) :
  let out := post_signals X t_id t_ts body s in
  (status (snd out) = 200 \/ status (snd out) = 401 \/ status (snd out) = 500) /\
  (status (snd out) = 401 \/ status (snd out) = 500 -> fst out = s) /\
  (status (snd out) = 401 <->
   exists apiKey, get_prop body "apiKey" = Ok apiKey /\
                  strict_eq apiKey (MT4_API_KEY X) = false).
Proof.
  intros out.
  destruct (post_signals_statuses t_id t_ts body s) as [H1 H2].
  split; [exact H1|]. split; [exact H2|].
  subst out. unfold post_signals.
  destruct (get_prop body "apiKey") as [apiKey|] eqn:Hk; simpl.
  - destruct (get_prop_readable _ _ "signal" _ Hk) as [signal ->]. simpl.
    destruct (strict_eq apiKey (MT4_API_KEY X)) eqn:E; simpl.
    + split; [|by intros (k & [= <-] & Hne); congruence].
      repeat case_prop; discriminate.
    + split; [intros _; by exists apiKey|done].
  - split; [discriminate|by intros (k & [=] & _)].
Qed.

(** X3.  An accepted ingestion, in any state the server reaches, sends the
    new signal once to every registered connection whose socket is open and
    to no other socket, and leaves users, positions, the registry and the
    pending logins as they were. *)
Theorem accepted_signal_reaches_open_connections
    (evs : list Event) (t_id t_ts : Z) (body : jsval) :
  let s := run X evs initial_state in
  let out := post_signals X t_id t_ts body s in
  status (snd out) = 200 ->
  exists newSignal,
    Signal.id newSignal = toString t_id /\
    last (signals (fst out)) = Some newSignal /\
    (forall ws,
       outbox (sockets (fst out)) ws =
       outbox (sockets s) ws ++
       match JSMap.get Nat.eqb ws (activeConnections s) with
       | Some _ => if socket_open (sockets s) ws then [MsgSignal newSignal] else []
       | None => []
       end) /\
    users (fst out) = users s /\ positions (fst out) = positions s /\
    activeConnections (fst out) = activeConnections s /\
    pending (fst out) = pending s.
Proof.
  intros s out Hok.
  assert (Hwf : state_wf s) by apply run_wf, initial_state_wf.
  destruct Hwf as (Hu & _).
  pose proof (post_signals_frame X t_id t_ts body s) as (Eu & Ep & Ec & _ & Epe & _).
  apply post_signals_accepted in Hok as (newSignal & Hid & _ & _ & Hsig & Hsock).
  fold out in Eu, Ep, Ec, Epe, Hsig, Hsock.
  exists newSignal. split_and!; try done.
  - rewrite Hsig. unfold push_signal.
    destruct (signals s) as [|oldest rest]; [reflexivity|].
    destruct (50 <? _)%nat; [simpl; apply last_snoc|]. by rewrite last_snoc.
  - intros ws. rewrite Hsock, broadcastSignal_fanout, fanout_outbox by done.
    destruct (JSMap.get Nat.eqb ws (activeConnections s)); [|done].
    by rewrite andb_true_r.
Qed.

End Ingestion.

Lemma accepted_signal_reaches_open_connections_witness :
  status (snd (post_signals demo 1700000000100 1700000000100 signal_body
                 (run demo demo_events initial_state))) = 200 /\
  let s := run demo demo_events initial_state in
  let out := post_signals demo 1700000000100 1700000000100 signal_body s in
  exists newSignal,
    Signal.id newSignal = toString 1700000000100 /\
    last (signals (fst out)) = Some newSignal /\
    (forall ws,
       outbox (sockets (fst out)) ws =
       outbox (sockets s) ws ++
       match JSMap.get Nat.eqb ws (activeConnections s) with
       | Some _ => if socket_open (sockets s) ws then [MsgSignal newSignal] else []
       | None => []
       end) /\
    users (fst out) = users s /\ positions (fst out) = positions s /\
    activeConnections (fst out) = activeConnections s /\
    pending (fst out) = pending s.
Proof.
  assert (H : status (snd (post_signals demo 1700000000100 1700000000100 signal_body
                 (run demo demo_events initial_state))) = 200).
  { vm_compute. reflexivity. }
  split; [exact H|].
  exact (accepted_signal_reaches_open_connections demo demo_events
           1700000000100 1700000000100 signal_body H).
Defined.

(** ** The token middleware *)

Lemma split_no_sep sep w : has_char sep w = false -> split sep w = [w].
Proof.
  induction w as [|c w IH]; simpl; [done|].
  intros [Hc Hw]%orb_false_iff. rewrite Hc, IH by done. done.
Qed.

Lemma split_first_word sep w rest :
  has_char sep w = false ->
  split sep (String.append w (String sep rest)) = w :: split sep rest.
Proof.
  induction w as [|c w IH]; simpl.
  - intros _. by rewrite Ascii.eqb_refl.
  - intros [Hc Hw]%orb_false_iff. rewrite Hc, IH by done. done.
Qed.

Lemma truthy_append_sep w sep rest :
  truthy_string (String.append w (String sep rest)) = true.
Proof. by destruct w. Qed.

Section Middleware.
Context (X : Externals).

(** X4.  [authenticateToken] takes as token the second space-separated word
    of the [Authorization] header and never looks at the first: with no
    header, or a header of one word, it answers 401; with a second word it
    answers 401 when that word is empty, 403 when [jwt.verify] refuses it,
    and otherwise passes the decoded payload on as [req.user].  Words after
    the second are ignored. *)
Theorem authenticateToken_second_word (now : Z) :
  authenticateToken X now None = inl (mkResponse 401 (JError "Access denied")) /\
  (forall word,
     has_char " " word = false ->
     authenticateToken X now (Some word) =
       inl (mkResponse 401 (JError "Access denied"))) /\
  (forall scheme tok header,
     has_char " " scheme = false ->
     has_char " " tok = false ->
     (header = String.append scheme (String " " tok) \/
      exists more, header =
        String.append scheme (String " " (String.append tok (String " " more)))) ->
     authenticateToken X now (Some header) =
       if truthy_string tok then
         match jwt_verify X now tok with
         | Some user => inr user
         | None => inl (mkResponse 403 (JError "Invalid token"))
         end
       else inl (mkResponse 401 (JError "Access denied"))).
Proof.
  split_and!.
  - reflexivity.
  - intros word Hw. unfold authenticateToken.
    destruct (truthy_string word) eqn:E; [|by rewrite E].
    by rewrite split_no_sep.
  - intros scheme tok header Hs Ht Hh. unfold authenticateToken.
    assert (Htok : nth_error (split " " header) 1 = Some tok).
    { destruct Hh as [->|[more ->]]; rewrite split_first_word by done.
      - by rewrite split_no_sep.
      - by rewrite split_first_word. }
    assert (Htruthy : truthy_string header = true).
    { destruct Hh as [->|[more ->]]; apply truthy_append_sep. }
    by rewrite Htruthy, Htok.
Qed.

(** X5.  When the middleware refuses a request, the answer is 401 or 403 and
    it is the answer of every protected route; the trade routes then leave
    the whole state untouched: no position is filed or deleted and nothing is
    broadcast. *)
Theorem protected_routes_refuse
    (t_auth : Z) (authHeader : option string) (r : Response) :
  authenticateToken X t_auth authHeader = inl r ->
  (status r = 401 \/ status r = 403) /\
  (forall clock s, get_signals X t_auth authHeader clock s = r) /\
  (forall s, get_positions X t_auth authHeader s = r) /\
  (forall t_id t_open body s,
     trade_open X t_auth authHeader t_id t_open body s = (s, r)) /\
  (forall positionId s,
     trade_close X t_auth authHeader positionId s = (s, r)).
Proof.
  intros Ha. split; [by eapply authenticateToken_refusal|].
  unfold get_signals, get_positions, trade_open, trade_close.
  rewrite Ha. done.
Qed.

End Middleware.

Lemma protected_routes_refuse_witness :
  authenticateToken demo 1700000000110 (Some "Bearer forged"%string) =
    inl (mkResponse 403 (JError "Invalid token")) /\
  let r := mkResponse 403 (JError "Invalid token") in
  let authHeader := Some "Bearer forged"%string in
  (status r = 401 \/ status r = 403) /\
  (forall clock s, get_signals demo 1700000000110 authHeader clock s = r) /\
  (forall s, get_positions demo 1700000000110 authHeader s = r) /\
  (forall t_id t_open body s,
     trade_open demo 1700000000110 authHeader t_id t_open body s = (s, r)) /\
  (forall positionId s,
     trade_close demo 1700000000110 authHeader positionId s = (s, r)).
Proof.
  assert (H : authenticateToken demo 1700000000110 (Some "Bearer forged"%string) =
                inl (mkResponse 403 (JError "Invalid token"))).
  { vm_compute. reflexivity. }
  split; [exact H|].
  exact (protected_routes_refuse demo 1700000000110 (Some "Bearer forged"%string)
           (mkResponse 403 (JError "Invalid token")) H).
Defined.

(** ** Listing, opening and closing positions *)

Lemma set_absent {K V : Type} (eqb : K -> K -> bool) k (v : V) (m : JSMap.t K V) :
  JSMap.get eqb k m = None -> JSMap.set eqb k v m = m ++ [(k, v)].
Proof.
  induction m as [|[k' v'] m IH]; simpl; [done|].
  destruct (eqb k' k); [done|]. intros H. by rewrite IH.
Qed.

Lemma delete_appended {K V : Type} (eqb : K -> K -> bool) k (v : V) (m : JSMap.t K V) :
  eqb k k = true -> JSMap.get eqb k m = None ->
  JSMap.delete eqb k (m ++ [(k, v)]) = m.
Proof.
  intros Hr. induction m as [|[k' v'] m IH]; simpl; [by rewrite Hr|].
  destruct (eqb k' k); [done|]. intros H. by rewrite IH.
Qed.

Lemma positions_of_app account m1 m2 :
  positions_of account (m1 ++ m2) = positions_of account m1 ++ positions_of account m2.
Proof.
  unfold positions_of, JSMap.values. by rewrite fmap_app, List.filter_app.
Qed.

Lemma filter_sublist {A : Type} (f : A -> bool) (l : list A) :
  List.filter f l `sublist_of` l.
Proof.
  induction l as [|x l IH]; simpl; [constructor|].
  destruct (f x); [by apply sublist_skip|by apply sublist_cons].
Qed.

Section Trading.
Context (X : Externals).

(** The position an accepted open request builds. *)
Lemma trade_open_accepted_full t_auth authHeader t_id t_open body s :
  status (snd (trade_open X t_auth authHeader t_id t_open body s)) = 200 ->
  exists user pair type lots stopLoss takeProfit,
    authenticateToken X t_auth authHeader = inr user /\
    get_prop body "pair" = Ok pair /\ get_prop body "type" = Ok type /\
    get_prop body "lots" = Ok lots /\ get_prop body "stopLoss" = Ok stopLoss /\
    get_prop body "takeProfit" = Ok takeProfit /\
    let position :=
      Position.mk (toString t_id) (Identity.accountNumber user) pair type lots
        (if strict_eq type (VStr "BUY") then lit_3893_45 else lit_3893_20)
        lit_3893_45 lit_0 stopLoss takeProfit t_open in
    trade_open X t_auth authHeader t_id t_open body s =
      (with_sockets
         (broadcastPosition position (Identity.accountNumber user)
            (activeConnections s) (sockets s))
         (with_positions
            (JSMap.set String.eqb (toString t_id) position (positions s)) s),
       mkResponse 200 (JTradeAck (toString t_id))).
Proof.
  unfold trade_open.
  destruct (authenticateToken X t_auth authHeader) as [r|user] eqn:Ha; simpl.
  - intros Hr. apply authenticateToken_refusal in Ha.
    rewrite Hr in Ha. destruct Ha; discriminate.
  - destruct (get_prop body "pair") as [pair|]; simpl; [|discriminate].
    destruct (get_prop body "type") as [type|]; simpl; [|discriminate].
    destruct (get_prop body "lots") as [lots|]; simpl; [|discriminate].
    destruct (get_prop body "stopLoss") as [stopLoss|]; simpl; [|discriminate].
    destruct (get_prop body "takeProfit") as [takeProfit|]; simpl; [|discriminate].
    destruct (template_literal _) as [[]|]; simpl; [|discriminate].
    intros _. exists user, pair, type, lots, stopLoss, takeProfit.
    split_and!; reflexivity.
Qed.

(** X6.  An authenticated [GET /api/positions] whose caller's account number
    converts to a string answers 200 with the stored positions whose
    [accountNumber] is [===] the caller's, in insertion order: a stored
    position is listed if and only if the caller owns it, so no listing shows
    another account's position.  When the account number does not convert,
    the route's [console.log] throws and the answer is the 500 of Express's
    default error handler.  The route answers nothing else to an
    authenticated caller. *)
Theorem get_positions_isolation
    (t_auth : Z) (authHeader : option string) (user : Identity.t) (s : State) :
  authenticateToken X t_auth authHeader = inr user ->
  (to_log_string (Identity.accountNumber user) = Ok tt ->
   exists listing,
     get_positions X t_auth authHeader s = mkResponse 200 (JPositions listing) /\
     listing `sublist_of` JSMap.values (positions s) /\
     (forall p, p ∈ listing <->
        p ∈ JSMap.values (positions s) /\
        strict_eq (Position.accountNumber p) (Identity.accountNumber user) = true)) /\
  (to_log_string (Identity.accountNumber user) = Throw ->
   get_positions X t_auth authHeader s = mkResponse 500 DefaultErrorPage) /\
  (to_log_string (Identity.accountNumber user) = Ok tt \/
   to_log_string (Identity.accountNumber user) = Throw).
Proof.
  intros Ha. unfold get_positions. rewrite Ha. cbv zeta.
  rewrite !template_literal_cons. split_and!.
  - intros ->. simpl.
    exists (positions_of (Identity.accountNumber user) (positions s)).
    split_and!; [done|apply filter_sublist|].
    intros p. unfold positions_of.
    by rewrite !list_elem_of_In, filter_In.
  - by intros ->.
  - apply to_log_string_cases.
Qed.

(** X7.  An accepted open request whose id is not yet filed appends one
    position at the end of [positions]: owned by the caller, entered at
    3893.45 for a BUY and at 3893.20 for anything else, priced 3893.45, with
    profit 0.  The listing of every account gains that position if the
    account is [===] the caller's and is otherwise unchanged. *)
Theorem trade_open_fresh_id
    (t_auth : Z) (authHeader : option string) (t_id t_open : Z)
    (body : jsval) (s : State) :
  status (snd (trade_open X t_auth authHeader t_id t_open body s)) = 200 ->
  JSMap.get String.eqb (toString t_id) (positions s) = None ->
  exists user type p,
    authenticateToken X t_auth authHeader = inr user /\
    get_prop body "type" = Ok type /\
    Position.id p = toString t_id /\
    Position.accountNumber p = Identity.accountNumber user /\
    Position.entryPrice p =
      (if strict_eq type (VStr "BUY") then lit_3893_45 else lit_3893_20) /\
    Position.currentPrice p = lit_3893_45 /\
    Position.profit p = lit_0 /\
    Position.openTime p = t_open /\
    positions (fst (trade_open X t_auth authHeader t_id t_open body s)) =
      positions s ++ [(toString t_id, p)] /\
    forall account,
      positions_of account
        (positions (fst (trade_open X t_auth authHeader t_id t_open body s))) =
      positions_of account (positions s) ++
      (if strict_eq (Identity.accountNumber user) account then [p] else []).
Proof.
  intros Hok Hfresh.
  apply trade_open_accepted_full in Hok
    as (user & pair & type & lots & sl & tp & Ha & _ & Ht & _ & _ & _ & Heq).
  simpl in Heq. rewrite Heq. simpl.
  exists user, type. eexists (Position.mk _ _ _ _ _ _ _ _ _ _ _).
  rewrite set_absent by done.
  split_and!; try reflexivity; try done.
  intros account. rewrite positions_of_app. f_equal.
Qed.

(** X8.  Opening a position under an id that is not yet filed and then
    closing it as the same account (one whose number is [===] itself) is
    answered 200 and brings [positions] back to what it was. *)
Theorem open_then_close_restores
    (t_auth1 t_auth2 : Z) (authHeader1 authHeader2 : option string)
    (user1 user2 : Identity.t) (t_id t_open : Z) (body : jsval) (s : State) :
  authenticateToken X t_auth1 authHeader1 = inr user1 ->
  authenticateToken X t_auth2 authHeader2 = inr user2 ->
  strict_eq (Identity.accountNumber user1) (Identity.accountNumber user2) = true ->
  JSMap.get String.eqb (toString t_id) (positions s) = None ->
  let o := trade_open X t_auth1 authHeader1 t_id t_open body s in
  let c := trade_close X t_auth2 authHeader2 (toString t_id) (fst o) in
  status (snd o) = 200 ->
  snd c = mkResponse 200 JSuccess /\
  positions (fst c) = positions s /\
  users (fst c) = users s /\ signals (fst c) = signals s /\
  activeConnections (fst c) = activeConnections s.
Proof.
  intros Ha1 Ha2 Hsame Hfresh o c Hok.
  apply trade_open_accepted_full in Hok
    as (user & pair & type & lots & sl & tp & Ha & _ & _ & _ & _ & _ & Heq).
  rewrite Ha1 in Ha. injection Ha as <-.
  subst c o. simpl in Heq. rewrite Heq. simpl.
  unfold trade_close. rewrite Ha2. simpl.
  rewrite (get_set_eq String.eqb String.eqb_eq). simpl. rewrite Hsame. simpl.
  split_and!; try done.
  rewrite set_absent by done. apply delete_appended; [apply String.eqb_refl|done].
Qed.

End Trading.

Lemma get_positions_isolation_witness :
  authenticateToken demo 1700000000120 (Some "Bearer token-2002"%string) = inr bob /\
  to_log_string (Identity.accountNumber bob) = Ok tt /\
  exists listing,
    get_positions demo 1700000000120 (Some "Bearer token-2002"%string) demo_state =
      mkResponse 200 (JPositions listing) /\
    listing `sublist_of` JSMap.values (positions demo_state) /\
    (forall p, p ∈ listing <->
       p ∈ JSMap.values (positions demo_state) /\
       strict_eq (Position.accountNumber p) (Identity.accountNumber bob) = true).
Proof.
  assert (H : authenticateToken demo 1700000000120
                (Some "Bearer token-2002"%string) = inr bob).
  { vm_compute. reflexivity. }
  assert (Hlog : to_log_string (Identity.accountNumber bob) = Ok tt) by reflexivity.
  split; [exact H|]. split; [exact Hlog|].
  exact (proj1 (get_positions_isolation demo 1700000000120
                  (Some "Bearer token-2002"%string) bob demo_state H) Hlog).
Defined.

Lemma trade_open_fresh_id_witness :
  status (snd (trade_open demo 1700000000130 (Some "Bearer token-2002"%string)
                 1700000000130 1700000000131 sell_body demo_state)) = 200 /\
  JSMap.get String.eqb (toString 1700000000130) (positions demo_state) = None /\
  exists user type p,
    authenticateToken demo 1700000000130 (Some "Bearer token-2002"%string) = inr user /\
    get_prop sell_body "type" = Ok type /\
    Position.id p = toString 1700000000130 /\
    Position.accountNumber p = Identity.accountNumber user /\
    Position.entryPrice p =
      (if strict_eq type (VStr "BUY") then lit_3893_45 else lit_3893_20) /\
    Position.currentPrice p = lit_3893_45 /\
    Position.profit p = lit_0 /\
    Position.openTime p = 1700000000131 /\
    positions (fst (trade_open demo 1700000000130 (Some "Bearer token-2002"%string)
                      1700000000130 1700000000131 sell_body demo_state)) =
      positions demo_state ++ [(toString 1700000000130, p)] /\
    forall account,
      positions_of account
        (positions (fst (trade_open demo 1700000000130
                           (Some "Bearer token-2002"%string)
                           1700000000130 1700000000131 sell_body demo_state))) =
      positions_of account (positions demo_state) ++
      (if strict_eq (Identity.accountNumber user) account then [p] else []).
Proof.
  assert (H1 : status (snd (trade_open demo 1700000000130
                 (Some "Bearer token-2002"%string)
                 1700000000130 1700000000131 sell_body demo_state)) = 200).
  { vm_compute. reflexivity. }
  assert (H2 : JSMap.get String.eqb (toString 1700000000130)
                 (positions demo_state) = None).
  { vm_compute. reflexivity. }
  split; [exact H1|]. split; [exact H2|].
  exact (trade_open_fresh_id demo 1700000000130 (Some "Bearer token-2002"%string)
           1700000000130 1700000000131 sell_body demo_state H1 H2).
Defined.

Lemma open_then_close_restores_witness :
  authenticateToken demo 1700000000140 (Some "Bearer token-1001"%string) = inr alice /\
  authenticateToken demo 1700000000141 (Some "Token token-1001"%string) = inr alice /\
  strict_eq (Identity.accountNumber alice) (Identity.accountNumber alice) = true /\
  JSMap.get String.eqb (toString 1700000000140) (positions demo_state) = None /\
  let o := trade_open demo 1700000000140 (Some "Bearer token-1001"%string)
             1700000000140 1700000000140 buy_body demo_state in
  let c := trade_close demo 1700000000141 (Some "Token token-1001"%string)
             (toString 1700000000140) (fst o) in
  status (snd o) = 200 /\
  snd c = mkResponse 200 JSuccess /\
  positions (fst c) = positions demo_state /\
  users (fst c) = users demo_state /\ signals (fst c) = signals demo_state /\
  activeConnections (fst c) = activeConnections demo_state.
Proof.
  assert (H1 : authenticateToken demo 1700000000140
                 (Some "Bearer token-1001"%string) = inr alice).
  { vm_compute. reflexivity. }
  assert (H2 : authenticateToken demo 1700000000141
                 (Some "Token token-1001"%string) = inr alice).
  { vm_compute. reflexivity. }
  assert (H3 : strict_eq (Identity.accountNumber alice)
                 (Identity.accountNumber alice) = true).
  { vm_compute. reflexivity. }
  assert (H4 : JSMap.get String.eqb (toString 1700000000140)
                 (positions demo_state) = None).
  { vm_compute. reflexivity. }
  assert (H5 : status (snd (trade_open demo 1700000000140
                 (Some "Bearer token-1001"%string)
                 1700000000140 1700000000140 buy_body demo_state)) = 200).
  { vm_compute. reflexivity. }
  split; [exact H1|]. split; [exact H2|]. split; [exact H3|]. split; [exact H4|].
  split; [exact H5|].
  exact (open_then_close_restores demo 1700000000140 1700000000141
           (Some "Bearer token-1001"%string) (Some "Token token-1001"%string)
           alice alice 1700000000140 1700000000140 buy_body demo_state
           H1 H2 H3 H4 H5).
Defined.

(** ** Ids of positions filed at different clock readings *)

Section DistinctIds.
Context (X : Externals).

(** X9.  [Date.now().toString()] is injective, so two open requests accepted
    at different clock readings are filed under different ids and the second
    leaves the first in place: after both, each id maps to its own
    position. *)
Theorem distinct_readings_distinct_ids
    (s : State) (t1 t2 : Z)
    (t_auth1 t_open1 : Z) (authHeader1 : option string) (body1 : jsval)
    (t_auth2 t_open2 : Z) (authHeader2 : option string) (body2 : jsval) :
  t1 <> t2 ->
  let o1 := trade_open X t_auth1 authHeader1 t1 t_open1 body1 s in
  let o2 := trade_open X t_auth2 authHeader2 t2 t_open2 body2 (fst o1) in
  status (snd o1) = 200 -> status (snd o2) = 200 ->
  toString t1 <> toString t2 /\
  exists p1 p2,
    Position.openTime p1 = t_open1 /\ Position.openTime p2 = t_open2 /\
    JSMap.get String.eqb (toString t1) (positions (fst o1)) = Some p1 /\
    JSMap.get String.eqb (toString t1) (positions (fst o2)) = Some p1 /\
    JSMap.get String.eqb (toString t2) (positions (fst o2)) = Some p2.
Proof.
  intros Hne o1 o2 H1 H2.
  assert (Hids : toString t1 <> toString t2).
  { intros Heq. by apply toString_inj in Heq. }
  apply trade_open_accepted in H1 as (u1 & p1 & _ & _ & _ & Ht1 & _ & Hp1).
  apply trade_open_accepted in H2 as (u2 & p2 & _ & _ & _ & Ht2 & _ & Hp2).
  fold o1 in Hp1. fold o2 in Hp2.
  split; [done|]. exists p1, p2.
  assert (Hg1 : JSMap.get String.eqb (toString t1) (positions (fst o1)) = Some p1).
  { rewrite Hp1. apply (get_set_eq String.eqb String.eqb_eq). }
  split_and!; try done.
  - rewrite Hp2. rewrite (get_set_ne String.eqb String.eqb_eq); [done|].
    intros Heq. by apply Hids.
  - rewrite Hp2. apply (get_set_eq String.eqb String.eqb_eq).
Qed.

End DistinctIds.

Lemma distinct_readings_distinct_ids_witness :
  1700000000150 <> 1700000000151 /\
  let o1 := trade_open demo 1700000000150 (Some "Bearer token-1001"%string)
              1700000000150 1700000000150 buy_body demo_state in
  let o2 := trade_open demo 1700000000151 (Some "Bearer token-2002"%string)
              1700000000151 1700000000151 sell_body (fst o1) in
  status (snd o1) = 200 /\ status (snd o2) = 200 /\
  toString 1700000000150 <> toString 1700000000151 /\
  exists p1 p2,
    Position.openTime p1 = 1700000000150 /\ Position.openTime p2 = 1700000000151 /\
    JSMap.get String.eqb (toString 1700000000150) (positions (fst o1)) = Some p1 /\
    JSMap.get String.eqb (toString 1700000000150) (positions (fst o2)) = Some p1 /\
    JSMap.get String.eqb (toString 1700000000151) (positions (fst o2)) = Some p2.
Proof.
  assert (H0 : 1700000000150 <> 1700000000151) by discriminate.
  assert (H1 : status (snd (trade_open demo 1700000000150
                 (Some "Bearer token-1001"%string)
                 1700000000150 1700000000150 buy_body demo_state)) = 200).
  { vm_compute. reflexivity. }
  assert (H2 : status (snd (trade_open demo 1700000000151
                 (Some "Bearer token-2002"%string)
                 1700000000151 1700000000151 sell_body
                 (fst (trade_open demo 1700000000150
                         (Some "Bearer token-1001"%string)
                         1700000000150 1700000000150 buy_body demo_state)))) = 200).
  { vm_compute. reflexivity. }
  split; [exact H0|]. split; [exact H1|]. split; [exact H2|].
  exact (distinct_readings_distinct_ids demo demo_state 1700000000150 1700000000151
           1700000000150 1700000000150 (Some "Bearer token-1001"%string) buy_body
           1700000000151 1700000000151 (Some "Bearer token-2002"%string) sell_body
           H0 H1 H2).
Defined.

(** ** Who is told about a position *)

Section Notifications.
Context (X : Externals).

(** X10.  An accepted open request, in any state the server reaches, sends
    the new position once to every registered connection whose socket is open
    and whose account is [===] the caller's, and to no other socket. *)
Theorem trade_open_notifies_owner_only
    (evs : list Event) (t_auth : Z) (authHeader : option string)
    (t_id t_open : Z) (body : jsval) :
  let s := run X evs initial_state in
  let o := trade_open X t_auth authHeader t_id t_open body s in
  status (snd o) = 200 ->
  exists user p,
    authenticateToken X t_auth authHeader = inr user /\
    JSMap.get String.eqb (toString t_id) (positions (fst o)) = Some p /\
    forall ws,
      outbox (sockets (fst o)) ws =
      outbox (sockets s) ws ++
      match JSMap.get Nat.eqb ws (activeConnections s) with
      | Some registered =>
          if socket_open (sockets s) ws &&
             strict_eq (Identity.accountNumber registered)
                       (Identity.accountNumber user)
          then [MsgPosition p] else []
      | None => []
      end.
Proof.
  intros s o Hok.
  assert (Hwf : state_wf s) by apply run_wf, initial_state_wf.
  destruct Hwf as (Hu & _).
  apply trade_open_accepted_full in Hok
    as (user & pair & type & lots & sl & tp & Ha & _ & _ & _ & _ & _ & Heq).
  simpl in Heq. subst o. rewrite Heq. simpl.
  exists user. eexists. split_and!; [done|apply (get_set_eq String.eqb String.eqb_eq)|].
  intros ws. rewrite broadcastPosition_fanout. by rewrite fanout_outbox.
Qed.

(** X11.  When two accounts that are not [===] open positions at the same
    clock reading, the second request takes the id over: no position under
    that id is left in the first account's listing, although that account's
    position was listed right after its own request. *)
Theorem same_reading_open_displaces_other_account
    (evs : list Event) (t : Z)
    (t_auth1 t_open1 : Z) (authHeader1 : option string) (body1 : jsval)
    (t_auth2 t_open2 : Z) (authHeader2 : option string) (body2 : jsval)
    (user1 user2 : Identity.t) :
  authenticateToken X t_auth1 authHeader1 = inr user1 ->
  authenticateToken X t_auth2 authHeader2 = inr user2 ->
  strict_eq (Identity.accountNumber user1) (Identity.accountNumber user1) = true ->
  strict_eq (Identity.accountNumber user2) (Identity.accountNumber user1) = false ->
  let s := run X evs initial_state in
  let o1 := trade_open X t_auth1 authHeader1 t t_open1 body1 s in
  let o2 := trade_open X t_auth2 authHeader2 t t_open2 body2 (fst o1) in
  status (snd o1) = 200 -> status (snd o2) = 200 ->
  (exists p1, Position.id p1 = toString t /\
     p1 ∈ positions_of (Identity.accountNumber user1) (positions (fst o1))) /\
  Forall (fun q => Position.id q <> toString t)
         (positions_of (Identity.accountNumber user1) (positions (fst o2))).
Proof.
  intros Ha1 Ha2 Hself Hother s o1 o2 H1 H2.
  assert (Hwf2 : state_wf (fst o2)).
  { pose proof (step_wf X (EvTradeOpen t_auth2 authHeader2 t t_open2 body2) (fst o1)) as W2.
    pose proof (step_wf X (EvTradeOpen t_auth1 authHeader1 t t_open1 body1) s) as W1.
    simpl in W1, W2. fold o1 in W1. fold o2 in W2.
    destruct o1 as [s1 r1], o2 as [s2 r2]. simpl in *.
    apply W2, W1, run_wf, initial_state_wf. }
  apply trade_open_accepted in H1 as (u1 & p1 & Hu1 & Hid1 & Hacc1 & _ & _ & Hp1).
  apply trade_open_accepted in H2 as (u2 & p2 & Hu2 & Hid2 & Hacc2 & _ & _ & Hp2).
  fold o1 in Hp1. fold o2 in Hp2.
  rewrite Ha1 in Hu1. injection Hu1 as <-. rewrite Ha2 in Hu2. injection Hu2 as <-.
  split.
  - exists p1. split; [done|]. unfold positions_of.
    apply list_elem_of_In, filter_In. split; [|by rewrite Hacc1].
    apply list_elem_of_In. unfold JSMap.values.
    apply (list_elem_of_fmap_2' snd _ (toString t, p1)); [|done].
    apply (get_Some_elem String.eqb String.eqb_eq). rewrite Hp1.
    apply (get_set_eq String.eqb String.eqb_eq).
  - apply Forall_forall. intros q Hq Hid.
    unfold positions_of in Hq. apply list_elem_of_In, filter_In in Hq as [Hq Hown].
    apply list_elem_of_In in Hq. unfold JSMap.values in Hq.
    apply list_elem_of_fmap in Hq as ([k q'] & -> & Hin). simpl in *.
    destruct Hwf2 as (_ & _ & [Huniq Hf] & _).
    pose proof (proj1 (Forall_forall _ _) Hf _ Hin) as Hk. simpl in Hk.
    assert (Hget : JSMap.get String.eqb k (positions (fst o2)) = Some q').
    { by apply (elem_get String.eqb String.eqb_eq). }
    rewrite <- Hk, Hid, Hp2, (get_set_eq String.eqb String.eqb_eq) in Hget.
    injection Hget as <-. rewrite Hacc2, Hother in Hown. discriminate.
Qed.

Lemma tick_loop_outbox random entries conns ws :
  unique_keys conns ->
  forall i h,
    outbox (snd (tick_loop X random i entries conns h)) ws =
    outbox h ws ++
    match JSMap.get Nat.eqb ws conns with
    | Some registered =>
        if socket_open h ws then
          MsgPosition <$>
            List.filter
              (fun p => strict_eq (Identity.accountNumber registered)
                                  (Position.accountNumber p))
              (JSMap.values (fst (tick_loop X random i entries conns h)))
        else []
    | None => []
    end.
Proof.
  intros Hu. induction entries as [|[id p] entries IH]; intros i h; simpl.
  - destruct (JSMap.get Nat.eqb ws conns); [destruct (socket_open h ws)|];
      simpl; by rewrite app_nil_r.
  - match goal with
    | |- context [tick_loop X random (S i) entries conns ?h0] =>
        specialize (IH (S i) h0);
        pose proof (fanout_socket_open
                      (fun user => strict_eq (Identity.accountNumber user)
                                     (Position.accountNumber p))
                      (MsgPosition (reprice X (random i) p)) conns h ws) as Ho;
        pose proof (fanout_outbox
                      (fun user => strict_eq (Identity.accountNumber user)
                                     (Position.accountNumber p))
                      (MsgPosition (reprice X (random i) p)) conns h ws Hu) as Hb;
        change (fanout _ _ conns h) with h0 in Ho, Hb;
        destruct (tick_loop X random (S i) entries conns h0) as [rest h'']
    end.
    simpl in *. rewrite IH, Hb, Ho, <- app_assoc. f_equal.
    destruct (JSMap.get Nat.eqb ws conns) as [registered|]; [|done].
    destruct (socket_open h ws); simpl; [|done].
    by destruct (strict_eq _ _).
Qed.

(** X12.  A tick, in any state the server reaches, sends to every registered
    connection whose socket is open the repriced positions of its own account
    ([===]), each once and in the order of [positions], and nothing else; a
    connection whose socket is not open and a socket outside the registry
    receive nothing. *)
Theorem tick_notifies_owners (evs : list Event) (random : nat -> float64) :
  let s := run X evs initial_state in
  let s' := tick X random s in
  forall ws,
    outbox (sockets s') ws =
    outbox (sockets s) ws ++
    match JSMap.get Nat.eqb ws (activeConnections s) with
    | Some registered =>
        if socket_open (sockets s) ws then
          MsgPosition <$>
            List.filter
              (fun p => strict_eq (Identity.accountNumber registered)
                                  (Position.accountNumber p))
              (JSMap.values (positions s'))
        else []
    | None => []
    end.
Proof.
  intros s s' ws.
  assert (Hwf : state_wf s) by apply run_wf, initial_state_wf.
  destruct Hwf as (Hu & _).
  pose proof (tick_loop_outbox random (positions s) (activeConnections s) ws Hu
                0%nat (sockets s)) as H.
  subst s'. unfold tick.
  destruct (tick_loop X random 0 (positions s) (activeConnections s) (sockets s))
    as [ps h]. exact H.
Qed.

End Notifications.

Lemma trade_open_notifies_owner_only_witness :
  let s := run demo demo_events initial_state in
  let o := trade_open demo 1700000000160 (Some "Bearer token-1001"%string)
             1700000000160 1700000000160 buy_body s in
  status (snd o) = 200 /\
  exists user p,
    authenticateToken demo 1700000000160 (Some "Bearer token-1001"%string) = inr user /\
    JSMap.get String.eqb (toString 1700000000160) (positions (fst o)) = Some p /\
    forall ws,
      outbox (sockets (fst o)) ws =
      outbox (sockets s) ws ++
      match JSMap.get Nat.eqb ws (activeConnections s) with
      | Some registered =>
          if socket_open (sockets s) ws &&
             strict_eq (Identity.accountNumber registered)
                       (Identity.accountNumber user)
          then [MsgPosition p] else []
      | None => []
      end.
Proof.
  assert (H : status (snd (trade_open demo 1700000000160
                 (Some "Bearer token-1001"%string)
                 1700000000160 1700000000160 buy_body
                 (run demo demo_events initial_state))) = 200).
  { vm_compute. reflexivity. }
  split; [exact H|].
  exact (trade_open_notifies_owner_only demo demo_events 1700000000160
           (Some "Bearer token-1001"%string) 1700000000160 1700000000160 buy_body H).
Defined.

Lemma same_reading_open_displaces_other_account_witness :
  authenticateToken demo 1700000000170 (Some "Bearer token-1001"%string) = inr alice /\
  authenticateToken demo 1700000000170 (Some "Bearer token-2002"%string) = inr bob /\
  strict_eq (Identity.accountNumber alice) (Identity.accountNumber alice) = true /\
  strict_eq (Identity.accountNumber bob) (Identity.accountNumber alice) = false /\
  let s := run demo demo_events initial_state in
  let o1 := trade_open demo 1700000000170 (Some "Bearer token-1001"%string)
              1700000000170 1700000000170 buy_body s in
  let o2 := trade_open demo 1700000000170 (Some "Bearer token-2002"%string)
              1700000000170 1700000000170 sell_body (fst o1) in
  status (snd o1) = 200 /\ status (snd o2) = 200 /\
  (exists p1, Position.id p1 = toString 1700000000170 /\
     p1 ∈ positions_of (Identity.accountNumber alice) (positions (fst o1))) /\
  Forall (fun q => Position.id q <> toString 1700000000170)
         (positions_of (Identity.accountNumber alice) (positions (fst o2))).
Proof.
  assert (H1 : authenticateToken demo 1700000000170
                 (Some "Bearer token-1001"%string) = inr alice).
  { vm_compute. reflexivity. }
  assert (H2 : authenticateToken demo 1700000000170
                 (Some "Bearer token-2002"%string) = inr bob).
  { vm_compute. reflexivity. }
  assert (H3 : strict_eq (Identity.accountNumber alice)
                 (Identity.accountNumber alice) = true).
  { vm_compute. reflexivity. }
  assert (H4 : strict_eq (Identity.accountNumber bob)
                 (Identity.accountNumber alice) = false).
  { vm_compute. reflexivity. }
  assert (H5 : status (snd (trade_open demo 1700000000170
                 (Some "Bearer token-1001"%string)
                 1700000000170 1700000000170 buy_body
                 (run demo demo_events initial_state))) = 200).
  { vm_compute. reflexivity. }
  assert (H6 : status (snd (trade_open demo 1700000000170
                 (Some "Bearer token-2002"%string)
                 1700000000170 1700000000170 sell_body
                 (fst (trade_open demo 1700000000170
                         (Some "Bearer token-1001"%string)
                         1700000000170 1700000000170 buy_body
                         (run demo demo_events initial_state))))) = 200).
  { vm_compute. reflexivity. }
  split; [exact H1|]. split; [exact H2|]. split; [exact H3|]. split; [exact H4|].
  split; [exact H5|]. split; [exact H6|].
  exact (same_reading_open_displaces_other_account demo demo_events 1700000000170
           1700000000170 1700000000170 (Some "Bearer token-1001"%string) buy_body
           1700000000170 1700000000170 (Some "Bearer token-2002"%string) sell_body
           alice bob H1 H2 H3 H4 H5 H6).
Defined.

(** ** What a tick leaves alone *)

Section TickFrame.
Context (X : Externals).

Lemma same_contract_reprice r p : same_contract p (reprice X r p).
Proof. unfold same_contract. split_and!; reflexivity. Qed.

Lemma imap_reprice_Forall2 (random : nat -> float64) (m : JSMap.t string Position.t) :
  Forall2 (fun kv kv' => fst kv' = fst kv /\ same_contract (snd kv) (snd kv'))
          m (imap (fun j kv => (fst kv, reprice X (random j) (snd kv))) m).
Proof.
  revert random. induction m as [|kv m IH]; intros random; simpl; constructor.
  - split; [done|apply same_contract_reprice].
  - apply (IH (fun j => random (S j))).
Qed.

Lemma tick_loop_socket_open random entries conns ws :
  forall i h,
    socket_open (snd (tick_loop X random i entries conns h)) ws = socket_open h ws.
Proof.
  induction entries as [|[id p] entries IH]; intros i h; simpl; [done|].
  match goal with
  | |- context [tick_loop X random (S i) entries conns ?h0] =>
      specialize (IH (S i) h0);
      destruct (tick_loop X random (S i) entries conns h0) as [rest h'']
  end.
  simpl in *. rewrite IH, broadcastPosition_fanout. apply fanout_socket_open.
Qed.

Lemma tick_loop_ready_state random entries conns ws :
  forall i h,
    ready_state (snd (tick_loop X random i entries conns h)) ws = ready_state h ws.
Proof.
  induction entries as [|[id p] entries IH]; intros i h; simpl; [done|].
  match goal with
  | |- context [tick_loop X random (S i) entries conns ?h0] =>
      specialize (IH (S i) h0);
      destruct (tick_loop X random (S i) entries conns h0) as [rest h'']
  end.
  simpl in *. rewrite IH, broadcastPosition_fanout. apply ready_state_fanout.
Qed.

(** X13.  A tick changes nothing but the current price and the profit of the
    positions, and what it sends: the same ids stay filed in the same order,
    every position keeps its id, owner, pair, side, lots, entry price, stops
    and opening time, and the users, the signals, the registry, the pending
    logins, the socket allocator and the ready state of every socket are as
    before: a socket that is connecting, open, closing or closed is so
    afterwards, and no socket appears or goes. *)
Theorem tick_touches_prices_only (random : nat -> float64) (s : State) :
  let s' := tick X random s in
  JSMap.keys (positions s') = JSMap.keys (positions s) /\
  Forall2 (fun kv kv' => fst kv' = fst kv /\ same_contract (snd kv) (snd kv'))
          (positions s) (positions s') /\
  users s' = users s /\ signals s' = signals s /\
  activeConnections s' = activeConnections s /\
  pending s' = pending s /\ next_ws s' = next_ws s /\
  (forall ws, ready_state (sockets s') ws = ready_state (sockets s) ws) /\
  (forall ws, socket_open (sockets s') ws = socket_open (sockets s) ws).
Proof.
  intros s'.
  pose proof (tick_frame X random s) as (Eu & Es & Ec & En & Epd & Ep).
  fold s' in Eu, Es, Ec, En, Epd, Ep. rewrite Ep.
  split_and!; try done.
  - apply keys_imap_reprice.
  - apply imap_reprice_Forall2.
  - intros ws. subst s'. unfold tick.
    pose proof (tick_loop_ready_state random (positions s) (activeConnections s) ws
                  0%nat (sockets s)) as H.
    destruct (tick_loop X random 0 (positions s) (activeConnections s) (sockets s))
      as [ps h]. exact H.
  - intros ws. subst s'. unfold tick.
    pose proof (tick_loop_socket_open random (positions s) (activeConnections s) ws
                  0%nat (sockets s)) as H.
    destruct (tick_loop X random 0 (positions s) (activeConnections s) (sockets s))
      as [ps h]. exact H.
Qed.

End TickFrame.

(** ** Closed connections *)

Lemma listening_ws_send ws m h w : listening h w -> listening (ws_send ws m h) w.
Proof.
  intros (sk & Hsk & Hl). unfold ws_send, listening.
  destruct (h !! ws) as [sk0|] eqn:E; [|by exists sk].
  destruct (is_open (Socket.readyState sk0)); [|by exists sk].
  destruct (decide (ws = w)) as [->|Hne].
  - rewrite lookup_insert_eq. eexists. split; [done|]. simpl. congruence.
  - rewrite lookup_insert_ne by done. by exists sk.
Qed.

Lemma listening_ws_close ws h w : listening h w -> listening (ws_close ws h) w.
Proof.
  intros (sk & Hsk & Hl). unfold ws_close, listening.
  destruct (h !! ws) as [sk0|] eqn:E; [|by exists sk].
  destruct (decide (ws = w)) as [->|Hne].
  - destruct (Socket.readyState sk0); try (by exists sk);
      rewrite lookup_insert_eq; eexists; (split; [done|]); simpl; congruence.
  - destruct (Socket.readyState sk0); try (by exists sk);
      rewrite lookup_insert_ne by done; by exists sk.
Qed.

Lemma listening_ws_on_close ws h w : listening h w -> listening (ws_on_close ws h) w.
Proof.
  intros (sk & Hsk & Hl). unfold ws_on_close, listening.
  destruct (h !! ws) as [sk0|] eqn:E; [|by exists sk].
  destruct (decide (ws = w)) as [->|Hne].
  - rewrite lookup_insert_eq. by eexists.
  - rewrite lookup_insert_ne by done. by exists sk.
Qed.

Lemma listening_fanout guard m conns h w :
  listening h w -> listening (fanout guard m conns h) w.
Proof.
  unfold fanout. revert h.
  induction conns as [|[ws user] conns IH]; intros h Hl; simpl; [done|].
  apply IH. destruct (socket_open h ws && guard user); [|done].
  by apply listening_ws_send.
Qed.

Section Closing.
Context (X : Externals).

Lemma listening_tick_loop random entries conns w :
  forall i h, listening h w ->
    listening (snd (tick_loop X random i entries conns h)) w.
Proof.
  induction entries as [|[id p] entries IH]; intros i h Hl; simpl; [done|].
  match goal with
  | |- context [tick_loop X random (S i) entries conns ?h0] =>
      specialize (IH (S i) h0);
      destruct (tick_loop X random (S i) entries conns h0) as [rest h'']
  end.
  simpl in *. apply IH. rewrite broadcastPosition_fanout. by apply listening_fanout.
Qed.

Lemma post_signals_listening t_id t_ts body s w :
  listening (sockets s) w ->
  listening (sockets (fst (post_signals X t_id t_ts body s))) w.
Proof.
  intros Hl. unfold post_signals. repeat case_match; simpl; try done.
  rewrite broadcastSignal_fanout. by apply listening_fanout.
Qed.

Lemma trade_open_listening t_auth a t_id t_open body s w :
  listening (sockets s) w ->
  listening (sockets (fst (trade_open X t_auth a t_id t_open body s))) w.
Proof.
  intros Hl. unfold trade_open. repeat case_match; simpl; try done.
  rewrite broadcastPosition_fanout. by apply listening_fanout.
Qed.

Lemma on_connection_listening now ws token s w :
  listening (sockets s) w ->
  listening (sockets (on_connection X now ws token s)) w.
Proof.
  intros Hl. unfold on_connection. repeat case_match; simpl;
    try (by apply listening_ws_close).
  by apply listening_ws_on_close, listening_ws_send.
Qed.

Lemma on_connection_new_listening now ws token s user :
  JSMap.get Nat.eqb ws (activeConnections (on_connection X now ws token s)) = Some user ->
  to_log_string (Identity.accountNumber user) = Ok tt ->
  JSMap.get Nat.eqb ws (activeConnections s) = None ->
  is_Some (sockets s !! ws) ->
  listening (sockets (on_connection X now ws token s)) ws.
Proof.
  intros Hget Hlog Hnone [sk Hsk]. unfold on_connection in *.
  destruct token as [tok|]; [|simpl in Hget; congruence].
  destruct (truthy_string tok); [|simpl in Hget; congruence].
  destruct (jwt_verify X now tok) as [decoded|]; [|simpl in Hget; congruence].
  assert (decoded = user) as ->.
  { destruct (template_literal _); simpl in Hget;
      rewrite (get_set_eq Nat.eqb Nat.eqb_eq) in Hget; congruence. }
  unfold template_literal. rewrite Hlog. simpl.
  unfold listening, ws_on_close.
  assert (Hsome : is_Some (ws_send ws (MsgInit (slice_last 10 (signals s)))
                             (sockets s) !! ws)).
  { unfold ws_send. rewrite Hsk. destruct (is_open (Socket.readyState sk)).
    - rewrite lookup_insert_eq. by eexists.
    - rewrite Hsk. by eexists. }
  destruct Hsome as [sk' Hsk']. rewrite Hsk'. rewrite lookup_insert_eq. by eexists.
Qed.

Lemma get_delete_Some ws w (conns : JSMap.t nat Identity.t) user :
  unique_keys conns ->
  JSMap.get Nat.eqb ws (JSMap.delete Nat.eqb w conns) = Some user ->
  JSMap.get Nat.eqb ws conns = Some user.
Proof.
  intros Hu Hget. destruct (decide (w = ws)) as [->|Hne].
  - rewrite (get_delete_eq Nat.eqb Nat.eqb_eq) in Hget by done. discriminate.
  - by rewrite (get_delete_ne Nat.eqb Nat.eqb_eq) in Hget.
Qed.

Lemma step_registered_listening e s :
  state_wf s -> registered_listening s ->
  registered_listening (fst (step X e s)).
Proof.
  intros (Hu & Hlt & _) Hreg.
  destruct e as [body|i salt now|t_auth a clock|t_id t_ts body|t_auth a
                |t_auth a t_id t_open body|t_auth a pid|now token|w|w|random];
    simpl.
  - destruct (login_begin body (users s)); done.
  - destruct (pending s !! i); [|done].
    destruct (login_resume X _ salt now _) as [us [task'|r]]; done.
  - done.
  - pose proof (post_signals_frame X t_id t_ts body s) as (_ & _ & Ec & _).
    pose proof (post_signals_listening t_id t_ts body s) as Hl.
    destruct (post_signals X t_id t_ts body s) as [s' r]. simpl in *.
    intros ws user Hget Hlog. rewrite Ec in Hget. by eapply Hl, Hreg.
  - done.
  - pose proof (trade_open_frame X t_auth a t_id t_open body s) as (_ & _ & Ec & _).
    pose proof (trade_open_listening t_auth a t_id t_open body s) as Hl.
    destruct (trade_open X t_auth a t_id t_open body s) as [s' r]. simpl in *.
    intros ws user Hget Hlog. rewrite Ec in Hget. by eapply Hl, Hreg.
  - pose proof (trade_close_frame X t_auth a pid s) as (_ & _ & Ec & _ & _ & Eh & Ep).
    destruct (trade_close X t_auth a pid s) as [s' r]. simpl in *.
    intros ws user Hget Hlog. rewrite Ec in Hget. unfold listening. rewrite Eh.
    by eapply Hreg.
  - set (s1 := with_next_ws _ _).
    assert (Hfresh : JSMap.get Nat.eqb (next_ws s) (activeConnections s) = None).
    { apply (get_None Nat.eqb Nat.eqb_eq). intros Hin. apply Hlt in Hin. lia. }
    intros ws user Hget Hlog.
    destruct (decide (ws = next_ws s)) as [->|Hne].
    + apply (on_connection_new_listening _ _ _ _ user); [done|done|done|].
      simpl. rewrite lookup_insert_eq. by eexists.
    + pose proof (on_connection_frame X now (next_ws s) token s1)
        as (_ & _ & _ & _ & _ & Ec).
      assert (Hold : JSMap.get Nat.eqb ws (activeConnections s) = Some user).
      { destruct Ec as [Ec|[d Ec]]; rewrite Ec in Hget; simpl in Hget; [done|].
        by rewrite (get_set_ne Nat.eqb Nat.eqb_eq) in Hget. }
      apply on_connection_listening.
      destruct (Hreg ws user Hold Hlog) as (sk & Hsk & Hl).
      exists sk. split; [|done]. simpl. by rewrite lookup_insert_ne.
  - intros ws user Hget Hlog. simpl in *. by eapply listening_ws_close, Hreg.
  - intros ws user Hget Hlog. unfold socket_closed, on_close in *.
    destruct (sockets s !! w) as [sk|] eqn:Hsk; [|by eapply Hreg].
    assert (Hkeep : forall ws, listening (sockets s) ws ->
              listening (<[w := Socket.mk CLOSED (Socket.sent sk)
                                   (Socket.close_listener sk)]> (sockets s)) ws).
    { intros ws0 (sk0 & Hsk0 & Hl0). destruct (decide (w = ws0)) as [->|Hne].
      - exists (Socket.mk CLOSED (Socket.sent sk) (Socket.close_listener sk)).
        rewrite lookup_insert_eq. split; [done|]. simpl. congruence.
      - exists sk0. by rewrite lookup_insert_ne. }
    destruct (Socket.close_listener sk); simpl in *; apply Hkeep;
      eapply Hreg; [|done|done|done].
    by eapply get_delete_Some.
  - intros ws user Hget Hlog.
    pose proof (tick_frame X random s) as (_ & _ & Ec & _).
    simpl in Ec. rewrite Ec in Hget.
    unfold tick.
    pose proof (listening_tick_loop random (positions s) (activeConnections s) ws
                  0%nat (sockets s) (Hreg ws user Hget Hlog)) as H.
    destruct (tick_loop X random 0 (positions s) (activeConnections s) (sockets s))
      as [ps h]. exact H.
Qed.

Lemma run_registered_listening evs :
  registered_listening (run X evs initial_state).
Proof.
  assert (H : forall evs s, state_wf s -> registered_listening s ->
                registered_listening (run X evs s)).
  { clear evs. unfold run. intros evs.
    induction evs as [|e evs IH]; intros s Hwf Hreg; simpl; [done|].
    apply IH; [by apply step_wf|by apply step_registered_listening]. }
  apply H; [apply initial_state_wf|].
  intros ws user Hget. discriminate.
Qed.

End Closing.

Section Forgotten.
Context (X : Externals).

Lemma step_unregistered e s ws :
  unregistered ws s ->
  unregistered ws (fst (step X e s)) /\
  outbox (sockets (fst (step X e s))) ws = outbox (sockets s) ws.
Proof.
  intros (Hget & Hlt).
  destruct e as [body|i salt now|t_auth a clock|t_id t_ts body|t_auth a
                |t_auth a t_id t_open body|t_auth a pid|now token|w|w|random];
    simpl.
  - destruct (login_begin body (users s)); done.
  - destruct (pending s !! i); [|done].
    destruct (login_resume X _ salt now _) as [us [task'|r]]; done.
  - done.
  - pose proof (post_signals_frame X t_id t_ts body s) as (_ & _ & Ec & En & _).
    pose proof (post_signals_outbox_absent X t_id t_ts body s ws Hget) as Ho.
    destruct (post_signals X t_id t_ts body s) as [s' r]. simpl in *.
    unfold unregistered. by rewrite Ec, En, Ho.
  - done.
  - pose proof (trade_open_frame X t_auth a t_id t_open body s) as (_ & _ & Ec & En & _).
    pose proof (trade_open_outbox_absent X t_auth a t_id t_open body s ws Hget) as Ho.
    destruct (trade_open X t_auth a t_id t_open body s) as [s' r]. simpl in *.
    unfold unregistered. by rewrite Ec, En, Ho.
  - pose proof (trade_close_frame X t_auth a pid s) as (_ & _ & Ec & En & _ & Eh & _).
    destruct (trade_close X t_auth a pid s) as [s' r]. simpl in *.
    unfold unregistered. by rewrite Ec, En, Eh.
  - assert (Hne : next_ws s <> ws) by lia.
    unfold on_connection, unregistered. repeat case_match; simpl;
      rewrite ?outbox_ws_on_close, ?outbox_ws_close,
        ?(outbox_ws_send_other _ _ _ _ Hne), ?(outbox_insert_other _ _ _ _ Hne),
        ?(get_set_ne Nat.eqb Nat.eqb_eq _ _ _ _ Hne);
      split_and!; try done; lia.
  - unfold unregistered. simpl. by rewrite outbox_ws_close.
  - unfold socket_closed, on_close, unregistered.
    destruct (sockets s !! w) as [sk|] eqn:Hsk; [|done].
    assert (Hsame :
              outbox (<[w := Socket.mk CLOSED (Socket.sent sk) (Socket.close_listener sk)]>
                        (sockets s)) ws = outbox (sockets s) ws).
    { unfold outbox.
      destruct (decide (w = ws)) as [->|Hne];
        [by rewrite lookup_insert_eq, Hsk | by rewrite lookup_insert_ne]. }
    destruct (Socket.close_listener sk) eqn:Hl; simpl; rewrite Hsame;
      split_and!; try done; by apply get_delete_None.
  - pose proof (tick_frame X random s) as (_ & _ & Ec & En & _).
    pose proof (tick_outbox_absent X random s ws Hget) as Ho.
    simpl in *. unfold unregistered. by rewrite Ec, En, Ho.
Qed.

Lemma run_unregistered evs s ws :
  unregistered ws s ->
  unregistered ws (run X evs s) /\
  outbox (sockets (run X evs s)) ws = outbox (sockets s) ws.
Proof.
  unfold run. revert s.
  induction evs as [|e evs IH]; intros s H; simpl; [done|].
  destruct (step_unregistered e s ws H) as [H1 Ho].
  destruct (IH _ H1) as [H2 Ho2]. split; [done|]. by rewrite Ho2.
Qed.

(** X14.  In any state the server reaches, when the socket of a connection
    registered for an account number that converts to a string closes, its
    ['close'] listener is in place and removes it from [activeConnections];
    from then on, whatever happens, the socket is never registered again and
    nothing more is sent on it. *)
Theorem closed_connection_is_forgotten
    (evs : list Event) (ws : nat) (user : Identity.t) (later : list Event) :
  let s := run X evs initial_state in
  JSMap.get Nat.eqb ws (activeConnections s) = Some user ->
  to_log_string (Identity.accountNumber user) = Ok tt ->
  let s1 := fst (step X (EvSocketClosed ws) s) in
  let s2 := run X later s1 in
  JSMap.get Nat.eqb ws (activeConnections s1) = None /\
  socket_open (sockets s1) ws = false /\
  JSMap.get Nat.eqb ws (activeConnections s2) = None /\
  outbox (sockets s2) ws = outbox (sockets s) ws.
Proof.
  intros s Hget Hlog s1 s2.
  assert (Hwf : state_wf s) by apply run_wf, initial_state_wf.
  destruct Hwf as (Hu & Hlt & _).
  assert (Hin : ws ∈ JSMap.keys (activeConnections s)).
  { destruct (decide (ws ∈ JSMap.keys (activeConnections s))) as [H|H]; [done|].
    apply (get_None Nat.eqb Nat.eqb_eq) in H. congruence. }
  destruct (run_registered_listening X evs ws user Hget Hlog) as (sk & Hsk & Hl).
  fold s in Hsk.
  assert (Hs1 : s1 = on_close ws
                  (with_sockets (<[ws := Socket.mk CLOSED (Socket.sent sk) true]>
                                   (sockets s)) s)).
  { subst s1. simpl. unfold socket_closed. by rewrite Hsk, Hl. }
  assert (Hgone : JSMap.get Nat.eqb ws (activeConnections s1) = None).
  { rewrite Hs1. simpl. by apply (get_delete_eq Nat.eqb Nat.eqb_eq). }
  assert (Hout : outbox (sockets s1) ws = outbox (sockets s) ws).
  { rewrite Hs1. simpl. unfold outbox. by rewrite lookup_insert_eq, Hsk. }
  assert (Hun : unregistered ws s1).
  { split; [done|]. rewrite Hs1. simpl. by apply Hlt. }
  destruct (run_unregistered later s1 ws Hun) as ((Hg2 & _) & Ho2).
  split_and!; try done.
  - rewrite Hs1. simpl. unfold socket_open. by rewrite lookup_insert_eq.
  - fold s2 in Ho2. by rewrite Ho2.
Qed.

End Forgotten.

Lemma closed_connection_is_forgotten_witness :
  let s := run demo demo_events initial_state in
  JSMap.get Nat.eqb 0%nat (activeConnections s) = Some alice /\
  to_log_string (Identity.accountNumber alice) = Ok tt /\
  let s1 := fst (step demo (EvSocketClosed 0%nat) s) in
  let s2 := run demo demo_followup s1 in
  JSMap.get Nat.eqb 0%nat (activeConnections s1) = None /\
  socket_open (sockets s1) 0%nat = false /\
  JSMap.get Nat.eqb 0%nat (activeConnections s2) = None /\
  outbox (sockets s2) 0%nat = outbox (sockets s) 0%nat.
Proof.
  assert (H : JSMap.get Nat.eqb 0%nat
                (activeConnections (run demo demo_events initial_state)) = Some alice).
  { vm_compute. reflexivity. }
  assert (Hlog : to_log_string (Identity.accountNumber alice) = Ok tt) by reflexivity.
  split; [exact H|]. split; [exact Hlog|].
  exact (closed_connection_is_forgotten demo demo_events 0%nat alice demo_followup
           H Hlog).
Defined.

(** ** Registering and logging in again *)


Lemma set_app_absent {K V : Type} (eqb : K -> K -> bool) k (v : V) (m m' : JSMap.t K V) :
  JSMap.get eqb k m = None ->
  JSMap.set eqb k v (m ++ m') = m ++ JSMap.set eqb k v m'.
Proof.
  induction m as [|[k' v'] m IH]; simpl; [done|].
  destruct (eqb k' k); [done|]. intros H. by rewrite IH.
Qed.

Section Relogin.
Context (X : Externals).


Lemma step_login_request body s task :
  login_begin body (users s) = Suspended task ->
  step X (EvLoginRequest body) s = (with_pending (pending s ++ [task]) s, None).
Proof. intros H. unfold step. by rewrite H. Qed.

Lemma step_login_resume i salt now s task :
  pending s !! i = Some task ->
  step X (EvLoginResume i salt now) s =
  match login_resume X task salt now (users s) with
  | (us, Finished r) =>
      (with_users us (with_pending (delete i (pending s)) s), Some r)
  | (us, Suspended task') =>
      (with_pending (delete i (pending s) ++ [task'])
         (with_users us (with_pending (delete i (pending s)) s)), None)
  end.
Proof. intros H. unfold step. rewrite H. reflexivity. Qed.

(** X16.  Two first logins for one unknown account that overlap, each
    suspended on [bcrypt.hash] before the other has stored its user, both
    pass [bcrypt.compare], each against the user it created itself: each is
    answered 200 with the token [jwt.sign] returns (500 "Login failed" when
    [jwt.sign] throws), never 401.  The user left in [users] is the one
    whose hash resolved last, so it holds the second password, and no login
    is left pending. *)
Theorem overlapping_first_logins
    (s : State) (body1 body2 : jsval) (accountNumber : jsval)
    (p1 p2 salt1 salt2 salt3 salt4 : string) (t1 t2 t3 t4 : Z) :
  bcrypt_sound X ->
  same_value_zero accountNumber accountNumber = true ->
  get_prop body1 "accountNumber" = Ok accountNumber ->
  get_prop body1 "password" = Ok (VStr p1) ->
  get_prop body2 "accountNumber" = Ok accountNumber ->
  get_prop body2 "password" = Ok (VStr p2) ->
  JSMap.get same_value_zero accountNumber (users s) = None ->
  let n := length (pending s) in
  let evs := [EvLoginRequest body1; EvLoginRequest body2;
              EvLoginResume n salt1 t1; EvLoginResume n salt2 t2;
              EvLoginResume n salt3 t3; EvLoginResume n salt4 t4] in
  let ok t :=
    Some match jwt_sign X (Identity.mk accountNumber (VStr "Demo")) t with
         | Some token => mkResponse 200 (JLogin token accountNumber (VStr "Demo"))
         | None => mkResponse 500 (JError "Login failed")
         end in
  responses X evs s = [None; None; None; None; ok t3; ok t4] /\
  users (run X evs s) =
    users s ++ [(accountNumber,
                 User.mk accountNumber (bcrypt_hash X p2 salt2) (VStr "Demo") true t2)] /\
  pending (run X evs s) = pending s.
Proof.
  intros Hb Hrefl Ha1 Hp1 Ha2 Hp2 Hget n evs ok.
  set (u1 := User.mk accountNumber (bcrypt_hash X p1 salt1) (VStr "Demo") true t1).
  set (u2 := User.mk accountNumber (bcrypt_hash X p2 salt2) (VStr "Demo") true t2).
  set (h1 := AwaitHash accountNumber (VStr p1)).
  set (h2 := AwaitHash accountNumber (VStr p2)).
  set (c1 := AwaitCompare accountNumber (VStr p1) u1).
  set (c2 := AwaitCompare accountNumber (VStr p2) u2).
  set (st := fun us pnd =>
               mkState us (signals s) (positions s) (activeConnections s)
                       (sockets s) (next_ws s) pnd).
  assert (Hb1 : forall us, JSMap.get same_value_zero accountNumber us = None ->
                  login_begin body1 us = Suspended h1).
  { intros us Hn. unfold login_begin. rewrite Ha1, Hp1. simpl. by rewrite Hn. }
  assert (Hb2 : forall us, JSMap.get same_value_zero accountNumber us = None ->
                  login_begin body2 us = Suspended h2).
  { intros us Hn. unfold login_begin. rewrite Ha2, Hp2. simpl. by rewrite Hn. }
  assert (Hlook : forall (l : list LoginTask) x r, (l ++ x :: r) !! length l = Some x).
  { intros l x r. by apply list_lookup_middle. }
  assert (Hdel : forall (l : list LoginTask) x r,
            delete (length l) (l ++ x :: r) = l ++ r).
  { intros l x r. apply delete_middle. }
  assert (E1 : step X (EvLoginRequest body1) s = (st (users s) (pending s ++ [h1]), None)).
  { by rewrite (step_login_request body1 s h1) by by apply Hb1. }
  assert (E2 : step X (EvLoginRequest body2) (st (users s) (pending s ++ [h1])) =
               (st (users s) (pending s ++ [h1; h2]), None)).
  { rewrite (step_login_request body2 _ h2) by by apply Hb2.
    unfold with_pending, st. simpl. by rewrite <- app_assoc. }
  assert (E3 : step X (EvLoginResume n salt1 t1) (st (users s) (pending s ++ [h1; h2])) =
               (st (users s ++ [(accountNumber, u1)]) (pending s ++ [h2; c1]), None)).
  { rewrite (step_login_resume n salt1 t1 _ h1) by apply Hlook.
    unfold st, h1, with_pending, with_users. simpl.
    rewrite set_absent by done. subst n. rewrite Hdel.
    by rewrite <- app_assoc. }
  assert (E4 : step X (EvLoginResume n salt2 t2)
                 (st (users s ++ [(accountNumber, u1)]) (pending s ++ [h2; c1])) =
               (st (users s ++ [(accountNumber, u2)]) (pending s ++ [c1; c2]), None)).
  { rewrite (step_login_resume n salt2 t2 _ h2) by apply Hlook.
    unfold st, h2, with_pending, with_users. simpl.
    rewrite set_app_absent by done. simpl. rewrite Hrefl.
    subst n. rewrite Hdel.
    by rewrite <- app_assoc. }
  assert (E5 : step X (EvLoginResume n salt3 t3)
                 (st (users s ++ [(accountNumber, u2)]) (pending s ++ [c1; c2])) =
               (st (users s ++ [(accountNumber, u2)]) (pending s ++ [c2]), ok t3)).
  { rewrite (step_login_resume n salt3 t3 _ c1) by apply Hlook.
    unfold st, c1, u1, with_pending, with_users, ok. simpl.
    rewrite Hb. subst n. rewrite Hdel. by destruct (jwt_sign X _ t3). }
  assert (E6 : step X (EvLoginResume n salt4 t4)
                 (st (users s ++ [(accountNumber, u2)]) (pending s ++ [c2])) =
               (st (users s ++ [(accountNumber, u2)]) (pending s), ok t4)).
  { rewrite (step_login_resume n salt4 t4 _ c2) by apply Hlook.
    unfold st, c2, u2, with_pending, with_users, ok. simpl.
    rewrite Hb. subst n. rewrite Hdel, app_nil_r. by destruct (jwt_sign X _ t4). }
  subst evs. unfold run. cbn [responses fold_left].
  rewrite E1. cbn [fst snd]. rewrite E2. cbn [fst snd]. rewrite E3. cbn [fst snd].
  rewrite E4. cbn [fst snd]. rewrite E5. cbn [fst snd]. rewrite E6. cbn [fst snd].
  done.
Qed.

End Relogin.

Lemma demo_bcrypt_sound : bcrypt_sound demo.
Proof. intros password salt. apply String.eqb_refl. Qed.


Lemma overlapping_first_logins_witness :
  bcrypt_sound demo /\
  same_value_zero (VStr "4004") (VStr "4004") = true /\
  get_prop login_body_4004_a "accountNumber" = Ok (VStr "4004") /\
  get_prop login_body_4004_a "password" = Ok (VStr "first") /\
  get_prop login_body_4004_b "accountNumber" = Ok (VStr "4004") /\
  get_prop login_body_4004_b "password" = Ok (VStr "second") /\
  JSMap.get same_value_zero (VStr "4004") (users demo_state) = None /\
  let n := length (pending demo_state) in
  let evs := [EvLoginRequest login_body_4004_a; EvLoginRequest login_body_4004_b;
              EvLoginResume n "salt-a" 1700000000190;
              EvLoginResume n "salt-b" 1700000000191;
              EvLoginResume n "salt-c" 1700000000192;
              EvLoginResume n "salt-d" 1700000000193] in
  let ok t :=
    Some match jwt_sign demo (Identity.mk (VStr "4004") (VStr "Demo")) t with
         | Some token => mkResponse 200 (JLogin token (VStr "4004") (VStr "Demo"))
         | None => mkResponse 500 (JError "Login failed")
         end in
  responses demo evs demo_state =
    [None; None; None; None; ok 1700000000192; ok 1700000000193] /\
  users (run demo evs demo_state) =
    users demo_state ++
    [(VStr "4004",
      User.mk (VStr "4004") (bcrypt_hash demo "second" "salt-b") (VStr "Demo") true
              1700000000191)] /\
  pending (run demo evs demo_state) = pending demo_state.
Proof.
  assert (H1 : same_value_zero (VStr "4004") (VStr "4004") = true) by reflexivity.
  assert (H2 : get_prop login_body_4004_a "accountNumber" = Ok (VStr "4004"))
    by reflexivity.
  assert (H3 : get_prop login_body_4004_a "password" = Ok (VStr "first"))
    by reflexivity.
  assert (H4 : get_prop login_body_4004_b "accountNumber" = Ok (VStr "4004"))
    by reflexivity.
  assert (H5 : get_prop login_body_4004_b "password" = Ok (VStr "second"))
    by reflexivity.
  assert (H6 : JSMap.get same_value_zero (VStr "4004") (users demo_state) = None).
  { vm_compute. reflexivity. }
  split; [exact demo_bcrypt_sound|]. split; [exact H1|]. split; [exact H2|].
  split; [exact H3|]. split; [exact H4|]. split; [exact H5|]. split; [exact H6|].
  exact (overlapping_first_logins demo demo_state login_body_4004_a login_body_4004_b
           (VStr "4004") "first" "second" "salt-a" "salt-b" "salt-c" "salt-d"
           1700000000190 1700000000191 1700000000192 1700000000193
           demo_bcrypt_sound H1 H2 H3 H4 H5 H6).
Defined.

(** ** Health *)

Section HealthCounts.
Context (X : Externals).

Lemma length_set_le {K V : Type} (eqb : K -> K -> bool) k (v : V) (m : JSMap.t K V) :
  (length (JSMap.set eqb k v m) <= S (length m))%nat.
Proof.
  induction m as [|[k' v'] m IH]; simpl; [lia|].
  destruct (eqb k' k); simpl; lia.
Qed.

Lemma length_delete_le {K V : Type} (eqb : K -> K -> bool) k (m : JSMap.t K V) :
  (length (JSMap.delete eqb k m) <= length m)%nat.
Proof.
  induction m as [|[k' v'] m IH]; simpl; [lia|].
  destruct (eqb k' k); simpl; lia.
Qed.

Lemma length_push_signal_le sig l : (length (push_signal sig l) <= S (length l))%nat.
Proof.
  unfold push_signal. destruct (50 <? _)%nat.
  - destruct l; simpl; [lia|]. rewrite length_app. simpl. lia.
  - rewrite length_app. simpl. lia.
Qed.

Lemma step_counts e s :
  let s' := fst (step X e s) in
  (length (signals s') <= length (signals s) + (if is_ingestion e then 1 else 0))%nat /\
  (length (positions s') <= length (positions s) + (if is_open_request e then 1 else 0))%nat /\
  (length (activeConnections s') <=
   length (activeConnections s) + (if is_handshake e then 1 else 0))%nat.
Proof.
  destruct e as [body|i salt now|t_auth a clock|t_id t_ts body|t_auth a
                |t_auth a t_id t_open body|t_auth a pid|now token|w|w|random];
    simpl.
  - destruct (login_begin body (users s)); simpl; lia.
  - destruct (pending s !! i); [|simpl; lia].
    destruct (login_resume X _ salt now _) as [us [task'|r]]; simpl; lia.
  - lia.
  - pose proof (post_signals_frame X t_id t_ts body s) as (_ & Ep & Ec & _ & _ & Es).
    destruct (post_signals X t_id t_ts body s) as [s' r]. simpl in *.
    rewrite Ep, Ec. split_and!; try lia.
    destruct Es as [->|[sig ->]]; [lia|].
    pose proof (length_push_signal_le sig (signals s)). lia.
  - lia.
  - pose proof (trade_open_frame X t_auth a t_id t_open body s)
      as (_ & Es & Ec & _ & _ & Ep).
    destruct (trade_open X t_auth a t_id t_open body s) as [s' r]. simpl in *.
    rewrite Es, Ec. split_and!; try lia.
    destruct Ep as [->|(p & _ & ->)]; [lia|].
    pose proof (length_set_le String.eqb (toString t_id) p (positions s)). lia.
  - pose proof (trade_close_frame X t_auth a pid s)
      as (_ & Es & Ec & _ & _ & _ & Ep).
    destruct (trade_close X t_auth a pid s) as [s' r]. simpl in *.
    rewrite Es, Ec. split_and!; try lia.
    destruct Ep as [->| ->]; [lia|].
    pose proof (length_delete_le String.eqb pid (positions s)). lia.
  - pose proof (on_connection_frame X now (next_ws s) token
                  (snd (accept_socket s))) as (_ & Es & Ep & _ & _ & Ec).
    simpl in *. rewrite Es, Ep. split_and!; try lia.
    destruct Ec as [->|[d ->]]; simpl; [lia|].
    pose proof (length_set_le Nat.eqb (next_ws s) d (activeConnections s)). lia.
  - lia.
  - pose proof (socket_closed_frame w s) as (_ & Es & Ep & _ & _ & Ec).
    simpl in *. rewrite Es, Ep. split_and!; try lia.
    destruct Ec as [->| ->]; [lia|].
    pose proof (length_delete_le Nat.eqb w (activeConnections s)). lia.
  - pose proof (tick_frame X random s) as (_ & Es & Ec & _ & _ & Ep).
    simpl in *. rewrite Es, Ec, Ep, length_imap. lia.
Qed.

Lemma run_counts evs s :
  (length (signals (run X evs s)) <=
   length (signals s) + count_events is_ingestion evs)%nat /\
  (length (positions (run X evs s)) <=
   length (positions s) + count_events is_open_request evs)%nat /\
  (length (activeConnections (run X evs s)) <=
   length (activeConnections s) + count_events is_handshake evs)%nat.
Proof.
  unfold run, count_events. revert s.
  induction evs as [|e evs IH]; intros s; simpl; [lia|].
  destruct (IH (fst (step X e s))) as (H1 & H2 & H3).
  destruct (step_counts e s) as (S1 & S2 & S3). simpl in S1, S2, S3.
  destruct (is_ingestion e), (is_open_request e), (is_handshake e); simpl; lia.
Qed.

(** X17.  After any run from start-up, [GET /api/health] reports at most 50
    signals and no more signals than ingestion requests were made, no more
    positions than open requests, and no more connections than WebSocket
    handshakes. *)
Theorem health_counts_are_bounded (evs : list Event) (uptime : float64) :
  let report := get_health uptime (run X evs initial_state) in
  Health.status report = "healthy"%string /\
  Health.uptime report = uptime /\
  (Health.signals report <= 50)%nat /\
  (Health.signals report <= count_events is_ingestion evs)%nat /\
  (Health.positions report <= count_events is_open_request evs)%nat /\
  (Health.connections report <= count_events is_handshake evs)%nat.
Proof.
  intros report. subst report. simpl.
  assert (Hwf : state_wf (run X evs initial_state)) by apply run_wf, initial_state_wf.
  destruct Hwf as (_ & _ & _ & H50).
  destruct (run_counts evs initial_state) as (H1 & H2 & H3). simpl in *.
  unfold JSMap.size. split_and!; try done; lia.
Qed.

End HealthCounts.

(** ** From ingestion to the readers *)

Section IngestAndRead.
Context (X : Externals).


(** X19.  A connection that is registered in any reachable state, for an
    account number that converts to a string, and a signal accepted right
    after: the new socket holds, in this order, the init snapshot taken at
    the handshake and then the signal; the snapshot was taken before the
    signal existed. *)
Theorem init_then_signal
    (evs : list Event) (now : Z) (tok : string) (decoded : Identity.t)
    (t_id t_ts : Z) (body : jsval) :
  truthy_string tok = true ->
  jwt_verify X now tok = Some decoded ->
  to_log_string (Identity.accountNumber decoded) = Ok tt ->
  let s := run X evs initial_state in
  let ws := next_ws s in
  let s1 := fst (step X (EvConnection now (Some tok)) s) in
  let out := post_signals X t_id t_ts body s1 in
  status (snd out) = 200 ->
  exists newSignal,
    Signal.id newSignal = toString t_id /\
    last (signals (fst out)) = Some newSignal /\
    outbox (sockets (fst out)) ws =
      [MsgInit (slice_last 10 (signals s)); MsgSignal newSignal].
Proof.
  intros Htok Hv Hlog s ws s1 out Hok.
  assert (Hwf1 : state_wf s1).
  { subst s1. apply step_wf, run_wf, initial_state_wf. }
  destruct Hwf1 as (Hu1 & _).
  assert (Hreg : JSMap.get Nat.eqb ws (activeConnections s1) = Some decoded).
  { subst s1. simpl. unfold on_connection. rewrite Htok, Hv.
    unfold template_literal. rewrite Hlog. simpl.
    apply (get_set_eq Nat.eqb Nat.eqb_eq). }
  assert (Hbox : outbox (sockets s1) ws = [MsgInit (slice_last 10 (signals s))]).
  { subst s1. simpl. unfold on_connection. rewrite Htok, Hv.
    unfold template_literal. rewrite Hlog. simpl.
    rewrite outbox_ws_on_close, outbox_ws_send_same.
    unfold outbox, socket_open. by rewrite lookup_insert_eq. }
  assert (Hopen : socket_open (sockets s1) ws = true).
  { subst s1. simpl. unfold on_connection. rewrite Htok, Hv.
    unfold template_literal. rewrite Hlog. simpl.
    unfold socket_open, ws_on_close, ws_send.
    rewrite lookup_insert_eq. simpl. rewrite lookup_insert_eq.
    by rewrite lookup_insert_eq. }
  apply post_signals_accepted in Hok as (newSignal & Hid & _ & _ & Hsig & Hsock).
  fold out in Hsig, Hsock. exists newSignal. split_and!; [done| |].
  - rewrite Hsig. unfold push_signal.
    destruct (signals s1) as [|oldest rest]; [reflexivity|].
    destruct (50 <? _)%nat; [simpl; apply last_snoc|]. by rewrite last_snoc.
  - rewrite Hsock, broadcastSignal_fanout, fanout_outbox by done.
    by rewrite Hreg, Hopen, Hbox.
Qed.

(** X20.  In every state the server reaches, the positions on file have
    pairwise different ids, each filed under its own id, so no listing shows
    two positions with the same id. *)
Theorem listed_ids_are_unique
    (evs : list Event) (t_auth : Z) (authHeader : option string) :
  let s := run X evs initial_state in
  NoDup (Position.id <$> JSMap.values (positions s)) /\
  (Position.id <$> JSMap.values (positions s)) = JSMap.keys (positions s) /\
  forall listing,
    get_positions X t_auth authHeader s = mkResponse 200 (JPositions listing) ->
    NoDup (Position.id <$> listing).
Proof.
  intros s.
  assert (Hwf : state_wf s) by apply run_wf, initial_state_wf.
  destruct Hwf as (_ & _ & [Hu Hf] & _).
  assert (Hids : (Position.id <$> JSMap.values (positions s)) = JSMap.keys (positions s)).
  { unfold JSMap.values, JSMap.keys. clear Hu.
    induction (positions s) as [|kv m IH]; [done|].
    apply Forall_cons in Hf as [Hkv Hf]. rewrite !fmap_cons, Hkv. f_equal.
    by apply IH. }
  assert (Hnd : NoDup (Position.id <$> JSMap.values (positions s))).
  { by rewrite Hids. }
  split_and!; try done.
  intros listing Hlist. unfold get_positions in Hlist.
  destruct (authenticateToken X t_auth authHeader) as [r|user] eqn:Ha.
  - apply authenticateToken_refusal in Ha. subst r. simpl in Ha.
    destruct Ha; discriminate.
  - cbv zeta in Hlist. destruct (template_literal _); [|discriminate].
    injection Hlist as <-.
    apply (sublist_NoDup _ (Position.id <$> JSMap.values (positions s))); [exact Hnd|].
    apply fmap_sublist, filter_sublist.
Qed.

End IngestAndRead.


Lemma init_then_signal_witness :
  truthy_string "token-2002" = true /\
  jwt_verify demo 1700000000210 "token-2002" = Some bob /\
  to_log_string (Identity.accountNumber bob) = Ok tt /\
  let s := run demo demo_events initial_state in
  let ws := next_ws s in
  let s1 := fst (step demo (EvConnection 1700000000210 (Some "token-2002"%string)) s) in
  let out := post_signals demo 1700000000211 1700000000211 signal_body s1 in
  status (snd out) = 200 /\
  exists newSignal,
    Signal.id newSignal = toString 1700000000211 /\
    last (signals (fst out)) = Some newSignal /\
    outbox (sockets (fst out)) ws =
      [MsgInit (slice_last 10 (signals s)); MsgSignal newSignal].
Proof.
  assert (H1 : truthy_string "token-2002" = true) by reflexivity.
  assert (H2 : jwt_verify demo 1700000000210 "token-2002" = Some bob).
  { vm_compute. reflexivity. }
  assert (H3 : status (snd (post_signals demo 1700000000211 1700000000211 signal_body
                 (fst (step demo (EvConnection 1700000000210 (Some "token-2002"%string))
                         (run demo demo_events initial_state))))) = 200).
  { vm_compute. reflexivity. }
  assert (Hlog : to_log_string (Identity.accountNumber bob) = Ok tt) by reflexivity.
  split; [exact H1|]. split; [exact H2|]. split; [exact Hlog|]. split; [exact H3|].
  exact (init_then_signal demo demo_events 1700000000210 "token-2002" bob
           1700000000211 1700000000211 signal_body H1 H2 Hlog H3).
Defined.

(** ** What the log of an open request keeps out *)

Section Logged.
Context (X : Externals).

(** X23.  For an authenticated caller, [POST /api/trade/open] answers 200
    exactly when the body can be destructured and the pair, the type, the
    lots and the caller's account number all convert to a string for the
    route's [console.log]; otherwise it answers 500 "Failed to execute
    trade", files nothing and sends nothing. *)
Theorem trade_open_outcomes
    (t_auth : Z) (authHeader : option string) (user : Identity.t)
    (t_id t_open : Z) (body : jsval) (s : State) :
  authenticateToken X t_auth authHeader = inr user ->
  let out := trade_open X t_auth authHeader t_id t_open body s in
  (status (snd out) = 200 <->
   exists pair type lots,
     get_prop body "pair" = Ok pair /\ get_prop body "type" = Ok type /\
     get_prop body "lots" = Ok lots /\
     Forall (fun v => to_log_string v = Ok tt)
       [pair; type; lots; Identity.accountNumber user]) /\
  (status (snd out) = 200 \/
   out = (s, mkResponse 500 (JError "Failed to execute trade"))).
Proof.
  intros Ha out. subst out. unfold trade_open. rewrite Ha. simpl.
  destruct (get_prop body "pair") as [pair|] eqn:E1; simpl.
  2:{ split; [|by right]. split; [discriminate|]. by intros (? & ? & ? & ? & _). }
  destruct (get_prop_readable body "pair" "type" pair E1) as [type E2].
  destruct (get_prop_readable body "pair" "lots" pair E1) as [lots E3].
  destruct (get_prop_readable body "pair" "stopLoss" pair E1) as [sl E4].
  destruct (get_prop_readable body "pair" "takeProfit" pair E1) as [tp E5].
  rewrite E2, E3, E4, E5. simpl.
  destruct (template_literal [pair; type; lots; Identity.accountNumber user])
    as [[]|] eqn:El; simpl.
  - split; [|by left]. split; [|done]. intros _. exists pair, type, lots.
    split_and!; try done. by apply template_literal_Ok.
  - split; [|by right]. split; [discriminate|].
    intros (pair' & type' & lots' & [= <-] & [= <-] & [= <-] & Hall).
    apply template_literal_Ok in Hall. congruence.
Qed.

Lemma loggable_reprice r p : loggable p -> loggable (reprice X r p).
Proof. done. Qed.

Lemma step_loggable e s :
  Forall (fun kv => loggable (snd kv)) (positions s) ->
  Forall (fun kv => loggable (snd kv)) (positions (fst (step X e s))).
Proof.
  intros Hall.
  destruct e as [body|i salt now|t_auth a clock|t_id t_ts body|t_auth a
                |t_auth a t_id t_open body|t_auth a pid|now token|w|w|random];
    simpl.
  - destruct (login_begin body (users s)); done.
  - destruct (pending s !! i); [|done].
    destruct (login_resume X _ salt now _) as [us [task'|r]]; done.
  - done.
  - pose proof (post_signals_frame X t_id t_ts body s) as (_ & Ep & _).
    destruct (post_signals X t_id t_ts body s) as [s' r]. simpl in *.
    by rewrite Ep.
  - done.
  - unfold trade_open.
    destruct (authenticateToken X t_auth a) as [r|user]; simpl; [done|].
    repeat case_prop; try done.
    apply Forall_forall. intros kv Hin.
    apply (set_incl String.eqb String.eqb_eq) in Hin as [Hin|[Hkv _]].
    + revert kv Hin. by apply Forall_forall.
    + rewrite Hkv. by apply template_literal_Ok.
  - pose proof (trade_close_frame X t_auth a pid s) as (_ & _ & _ & _ & _ & _ & Ep).
    destruct (trade_close X t_auth a pid s) as [s' r]. simpl in *.
    destruct Ep as [-> | ->]; [done|].
    apply Forall_forall. intros kv Hin%delete_incl.
    revert kv Hin. by apply Forall_forall.
  - pose proof (on_connection_frame X now (next_ws s)
                  token (snd (accept_socket s))) as (_ & _ & Ep & _).
    simpl in Ep. by rewrite Ep.
  - done.
  - pose proof (socket_closed_frame w s) as (_ & _ & Ep & _). by rewrite Ep.
  - pose proof (tick_frame X random s) as (_ & _ & _ & _ & _ & Ep).
    simpl in Ep. rewrite Ep. clear Ep.
    revert random. induction Hall as [|kv m Hkv Hall IH]; intros random; simpl;
      constructor; [by apply loggable_reprice|].
    apply (IH (fun j => random (S j))).
Qed.

(** X24.  In every state the server reaches, the pair, the type, the lots
    and the account number of every position on file convert to a string:
    none of them is an object with a member named [toString].  So the
    conversion of [position.lots] to a number, in the ticker, does not
    throw. *)
Theorem positions_on_file_are_loggable (evs : list Event) :
  let s := run X evs initial_state in
  Forall (fun kv => loggable (snd kv)) (positions s) /\
  (forall id p fields,
     JSMap.get String.eqb id (positions s) = Some p ->
     Position.lots p = VObj fields -> assoc "toString" fields = None).
Proof.
  intros s.
  assert (H : forall evs s0, Forall (fun kv => loggable (snd kv)) (positions s0) ->
                Forall (fun kv => loggable (snd kv)) (positions (run X evs s0))).
  { clear. unfold run. intros evs.
    induction evs as [|e evs IH]; intros s0 Hall; simpl; [done|].
    by apply IH, step_loggable. }
  assert (Hall : Forall (fun kv => loggable (snd kv)) (positions s)).
  { apply H. constructor. }
  split; [exact Hall|].
  intros id p fields Hget Hlots.
  apply (get_Some_elem String.eqb String.eqb_eq) in Hget.
  rewrite Forall_forall in Hall. specialize (Hall _ Hget). simpl in Hall.
  unfold loggable in Hall. rewrite !Forall_cons in Hall.
  destruct Hall as (_ & _ & Hl & _). rewrite Hlots in Hl. simpl in Hl.
  by destruct (assoc "toString" fields).
Qed.

End Logged.

Lemma trade_open_outcomes_witness :
  authenticateToken demo 1700000000220 (Some "Bearer token-object"%string) =
    inr (Identity.mk object_account (VStr "Demo")) /\
  trade_open demo 1700000000220 (Some "Bearer token-object"%string)
    1700000000220 1700000000220 buy_body demo_state =
    (demo_state, mkResponse 500 (JError "Failed to execute trade")).
Proof.
  assert (H : authenticateToken demo 1700000000220
                (Some "Bearer token-object"%string) =
              inr (Identity.mk object_account (VStr "Demo"))).
  { vm_compute. reflexivity. }
  split; [exact H|].
  destruct (proj2 (trade_open_outcomes demo 1700000000220
                     (Some "Bearer token-object"%string)
                     (Identity.mk object_account (VStr "Demo"))
                     1700000000220 1700000000220 buy_body demo_state H))
    as [H200|H500]; [|exact H500].
  exfalso. vm_compute in H200. discriminate.
Defined.

(** ** Further worked runs *)

(** A tick with every draw at 0.5 on the demo state: session 0 (account 1001,
    open) gets its one position, session 1 (account 2002, open) its own, and
    session 2 (account 1001, closing) nothing. *)
Example demo_tick_outboxes :
  let s' := tick demo (fun _ => lit_0_5) demo_state in
  map (fun ws => (length (outbox (sockets s') ws) -
                  length (outbox (sockets demo_state) ws))%nat) [0; 1; 2]%nat =
  [1; 1; 0]%nat.
Proof. vm_compute. reflexivity. Qed.

(** The scheme word of the header is not checked, and a header with two
    spaces in a row has an empty second word. *)
Example authenticate_scheme_is_free :
  authenticateToken demo 0 (Some "Basic token-1001"%string) = inr alice /\
  authenticateToken demo 0 (Some " token-1001"%string) = inr alice /\
  authenticateToken demo 0 (Some "Bearer  token-1001"%string) =
    inl (mkResponse 401 (JError "Access denied")).
Proof. vm_compute. split_and!; reflexivity. Qed.

(** The account [{"toString": null}] on the authenticated routes: its position
    listing is answered by Express's error page, its open request is refused
    with 500 and files nothing, and its close request finds no position. *)
Example object_account_requests :
  get_positions demo 0 (Some "Bearer token-object"%string) demo_state =
    mkResponse 500 DefaultErrorPage /\
  trade_open demo 0 (Some "Bearer token-object"%string) 1700000000230 1700000000230
    buy_body demo_state =
    (demo_state, mkResponse 500 (JError "Failed to execute trade")) /\
  trade_close demo 0 (Some "Bearer token-object"%string) "1700000000004" demo_state =
    (demo_state, mkResponse 404 (JError "Position not found")).
Proof. vm_compute. split_and!; reflexivity. Qed.

(** Health after the demo run. *)
Example demo_health :
  get_health lit_0 demo_state = Health.mk "healthy" lit_0 1 2 3.
Proof. vm_compute. reflexivity. Qed.
